(** * Prompt-Optimizer: the local store and the usage report

    A shallow embedding of [services/dbService.ts] (the IndexedDB layer) and
    of the report helpers of the application component ([calculateReportData],
    [exportReportToCsv]), with the properties the specification states about
    them.

    Conventions of the embedding.
    - The token counts, ids and time values held by the records are
      integers; they are modelled in [Z].
    - The numbers of a report are binary64 doubles, modelled with the
      kernel's primitive floats: the report adds, divides and multiplies as
      JavaScript does, rounding included.
    - The wall clock ([Date.now()], [new Date()]) is an explicit argument;
      time values are those of valid dates, on which [TimeClip] is the
      identity.
    - The host time zone is the function [LocalTZA] of ECMA-262: the offset
      of local time at a given time, daylight saving included.
    - An object used as a map is the list of its own properties in property
      order, with what it inherits from [Object.prototype].
    - Strings are sequences of bytes; names are compared byte for byte, as
      the index of the users store compares them. *)

From Stdlib Require Import ZArith List String Ascii Lia Bool.
From Stdlib Require Import Permutation Sorted Floats DecimalString Zpower.
From Stdlib Require QArith Qround DecimalPos.
From stdpp Require Import base gmap strings.

Set Warnings "-inexact-float".

Local Open Scope Z_scope.

(** ** Dates: the ECMAScript time-value algebra (ECMA-262, Date objects) *)

Module JSDate.

Definition msPerDay : Z := 86400000.
Definition msPerHour : Z := 3600000.
Definition msPerMinute : Z := 60000.
Definition msPerSecond : Z := 1000.

Definition Day (t : Z) : Z := t / msPerDay.
Definition TimeWithinDay (t : Z) : Z := t mod msPerDay.

Definition DaysInYear (y : Z) : Z :=
  if negb (y mod 4 =? 0) then 365
  else if negb (y mod 100 =? 0) then 366
  else if negb (y mod 400 =? 0) then 365
  else 366.

Definition DayFromYear (y : Z) : Z :=
  365 * (y - 1970) + (y - 1969) / 4 - (y - 1901) / 100 + (y - 1601) / 400.

Definition TimeFromYear (y : Z) : Z := msPerDay * DayFromYear y.

(** ECMA-262 specifies [YearFromTime t] as the largest [y] with
    [TimeFromYear y <= t].  It is computed here from the mean length of a
    Gregorian year, corrected by one year at most;
    [YearFromDay_bounds] and [YearFromDay_unique] show that this is the
    specified year. *)
Definition YearFromDay (d : Z) : Z :=
  let y := 1970 + (400 * d) / 146097 in
  if DayFromYear (y + 1) <=? d then y + 1
  else if d <? DayFromYear y then y - 1
  else y.

Definition YearFromTime (t : Z) : Z := YearFromDay (Day t).

Definition InLeapYear (t : Z) : Z :=
  if DaysInYear (YearFromTime t) =? 366 then 1 else 0.

Definition DayWithinYear (t : Z) : Z := Day t - DayFromYear (YearFromTime t).

Definition MonthFromTime (t : Z) : Z :=
  let d := DayWithinYear t in
  let l := InLeapYear t in
  if d <? 31 then 0
  else if d <? 59 + l then 1
  else if d <? 90 + l then 2
  else if d <? 120 + l then 3
  else if d <? 151 + l then 4
  else if d <? 181 + l then 5
  else if d <? 212 + l then 6
  else if d <? 243 + l then 7
  else if d <? 273 + l then 8
  else if d <? 304 + l then 9
  else if d <? 334 + l then 10
  else 11.

Definition DateFromTime (t : Z) : Z :=
  let d := DayWithinYear t in
  let l := InLeapYear t in
  match MonthFromTime t with
  | 0 => d + 1
  | 1 => d - 30
  | 2 => d - 58 - l
  | 3 => d - 89 - l
  | 4 => d - 119 - l
  | 5 => d - 150 - l
  | 6 => d - 180 - l
  | 7 => d - 211 - l
  | 8 => d - 242 - l
  | 9 => d - 272 - l
  | 10 => d - 303 - l
  | _ => d - 333 - l
  end.

Definition WeekDay (t : Z) : Z := (Day t + 4) mod 7.

Definition MakeTime (hour min sec ms : Z) : Z :=
  hour * msPerHour + min * msPerMinute + sec * msPerSecond + ms.

(** Day number, within its year, of the first day of month [mn] (0-11). *)
Definition DaysBeforeMonth (mn l : Z) : Z :=
  match mn with
  | 0 => 0
  | 1 => 31
  | 2 => 59 + l
  | 3 => 90 + l
  | 4 => 120 + l
  | 5 => 151 + l
  | 6 => 181 + l
  | 7 => 212 + l
  | 8 => 243 + l
  | 9 => 273 + l
  | 10 => 304 + l
  | _ => 334 + l
  end.

(** [MakeDay]: the day number of the first of month [mn] of year [ym],
    plus [date - 1]; months and dates out of range carry over. *)
Definition MakeDay (year month date : Z) : Z :=
  let ym := year + month / 12 in
  let mn := month mod 12 in
  let l := if DaysInYear ym =? 366 then 1 else 0 in
  DayFromYear ym + DaysBeforeMonth mn l + date - 1.

Definition MakeDate (day time : Z) : Z := day * msPerDay + time.

Section LocalZone.

(** [LocalTZA(t, isUTC)]: the offset of local time from UTC, in
    milliseconds, in force at [t], which is a time value when [isUTC] and a
    local time otherwise.  It is the host's. *)
Variable LocalTZA : Z -> bool -> Z.

Definition LocalTime (t : Z) : Z := t + LocalTZA t true.
Definition UTC (t : Z) : Z := t - LocalTZA t false.

Definition getFullYear (t : Z) : Z := YearFromTime (LocalTime t).
Definition getMonth (t : Z) : Z := MonthFromTime (LocalTime t).
Definition getDate (t : Z) : Z := DateFromTime (LocalTime t).
Definition getDay (t : Z) : Z := WeekDay (LocalTime t).

(** [new Date(year, month, date)]: a two-digit year means 19xx. *)
Definition Date_ymd (year month date : Z) : Z :=
  let yr := if (0 <=? year) && (year <=? 99) then 1900 + year else year in
  UTC (MakeDate (MakeDay yr month date) (MakeTime 0 0 0 0)).

Definition setDate (t dt : Z) : Z :=
  let lt := LocalTime t in
  UTC (MakeDate (MakeDay (YearFromTime lt) (MonthFromTime lt) dt)
                (TimeWithinDay lt)).

Definition setHours (t hour min sec ms : Z) : Z :=
  let lt := LocalTime t in
  UTC (MakeDate (Day lt) (MakeTime hour min sec ms)).

End LocalZone.

(** A zone that keeps one offset. *)
Definition constantZone (offset : Z) : Z -> bool -> Z := fun _ _ => offset.

(** A zone with daylight saving, as New York had it in 2024: five hours
    behind UTC, and four from 10 March, 07:00 UTC, to 3 November, 06:00 UTC.
    A local time that the clock skipped or showed twice is read with the
    offset in force before the change, as ECMA-262 asks. *)
Definition easternZone (t : Z) (isUTC : bool) : Z :=
  if isUTC then
    if (1710054000000 <=? t) && (t <? 1730613600000) then -14400000 else -18000000
  else
    if (1710054000000 - 14400000 <=? t) && (t <? 1730613600000 - 14400000)
    then -14400000 else -18000000.

(** A zone whose clock changes keep clear of midnight: a local time read as
    a time value and back keeps its date, a local midnight comes back as it
    is, and a time is at or after the midnight that starts a local day
    exactly when its local date is that day or a later one. *)
Definition regular (LocalTZA : Z -> bool -> Z) : Prop :=
  (forall t, Day (LocalTime LocalTZA (UTC LocalTZA t)) = Day t)
  /\ (forall d, LocalTime LocalTZA (UTC LocalTZA (MakeDate d 0)) = MakeDate d 0)
  /\ (forall d ts,
        UTC LocalTZA (MakeDate d 0) <= ts <-> d <= Day (LocalTime LocalTZA ts)).

End JSDate.

(** ** Record shapes (types.ts) *)

Module AnalysisResult.
Record t : Type := mk
  { originalTokenCount : Z;
    optimizedPrompt : string;
    optimizedTokenCount : Z;
    explanation : string }.
End AnalysisResult.

Module ReportData.
Record t : Type := mk
  { totalPrompts : float;
    totalOriginalTokens : float;
    totalOptimizedTokens : float;
    totalSavings : float;
    totalExecutions : float;
    estimatedCostSavings : float }.
End ReportData.

Module UserProfile.
Record t : Type := mk
  { id : option Z;
    name : string;
    createdAt : Z }.
End UserProfile.

Module AnalysisRecord.
Record t : Type := mk
  { id : option Z;
    username : string;
    timestamp : Z;
    originalTokenCount : Z;
    optimizedTokenCount : Z;
    savings : Z }.
End AnalysisRecord.

Module ExecutionRecord.
Inductive PromptType : Type := original | optimized.
Record t : Type := mk
  { id : option Z;
    username : string;
    timestamp : Z;
    promptType : PromptType;
    promptText : string;
    resultText : string }.
End ExecutionRecord.

(** The double quote character, for messages and CSV fields. *)
Definition dquote : ascii := ascii_of_nat 34.

(** ** The object database under dbService.ts

    An object store with [keyPath: 'id', autoIncrement: true] is the list of
    its records in key order together with the current number of its key
    generator.  Requests run inside a transaction: when a request fails and
    nobody cancels the error (dbService never does), the transaction aborts
    and every change it made is undone.  The storage engine is taken to be
    well behaved: it may refuse a request, but a transaction whose requests
    all succeeded commits. *)

Module IDB.

Inductive StoreName : Type := USER_STORE | HISTORY_STORE | EXECUTION_STORE.

Inductive DOMException : Type := ConstraintError | UnknownError.

Record ObjectStore (A : Type) : Type := mkStore
  { records : list A;
    keyGenerator : Z }.
Arguments mkStore {A} _ _.
Arguments records {A} _.
Arguments keyGenerator {A} _.

Record Database : Type := mkDB
  { users : ObjectStore UserProfile.t;
    analysisHistory : ObjectStore AnalysisRecord.t;
    executionHistory : ObjectStore ExecutionRecord.t }.

(** Whether the engine carries out a request on the given store. *)
Definition Engine : Type := StoreName -> bool.
Definition healthy : Engine := fun _ => true.

(** What [initDB] opens the first time: [onupgradeneeded] has created the
    three stores, empty, their key generators at 1; the users store has the
    unique index on [name] (see [name_unique]). *)
Definition createObjectStore {A : Type} : ObjectStore A := mkStore [] 1.
Definition emptyDatabase : Database :=
  mkDB createObjectStore createObjectStore createObjectStore.

(** Requests of one transaction: state passing with failure. *)
Definition Tx (A : Type) : Type := Database -> DOMException + (A * Database).

Definition ret {A : Type} (a : A) : Tx A := fun db => inr (a, db).
Definition bind {A B : Type} (m : Tx A) (k : A -> Tx B) : Tx B :=
  fun db =>
    match m db with
    | inl e => inl e
    | inr (a, db') => k a db'
    end.

(** [db.transaction(...)] with its requests: commit, or abort and roll back. *)
Definition transaction {A : Type} (body : Tx A) (db : Database)
  : (DOMException + A) * Database :=
  match body db with
  | inl e => (inl e, db)
  | inr (a, db') => (inr a, db')
  end.

(** [store.add(value)] on a store with a key generator: the value carries no
    id, the generator's current number becomes its key. [unique] is the
    check of the store's unique indexes. *)
Definition store_add {A : Type} (ok : bool) (unique : A -> list A -> bool)
    (withId : Z -> A -> A) (value : A) (s : ObjectStore A)
  : DOMException + (Z * ObjectStore A) :=
  if negb ok then inl UnknownError
  else if negb (unique value (records s)) then inl ConstraintError
  else
    let key := keyGenerator s in
    inr (key, mkStore (records s ++ [withId key value]) (key + 1)).

(** [store.clear()]: the records go, the key generator keeps its number. *)
Definition store_clear {A : Type} (ok : bool) (s : ObjectStore A)
  : DOMException + ObjectStore A :=
  if negb ok then inl UnknownError else inr (mkStore [] (keyGenerator s)).

(** [store.getAll()]: every record, in key order. *)
Definition store_getAll {A : Type} (ok : bool) (s : ObjectStore A)
  : DOMException + list A :=
  if negb ok then inl UnknownError else inr (records s).

(** The unique index on [name] of the users store. *)
Definition name_unique (u : UserProfile.t) (l : list UserProfile.t) : bool :=
  negb (existsb (fun v => String.eqb (UserProfile.name v) (UserProfile.name u)) l).

Definition no_index {A : Type} (_ : A) (_ : list A) : bool := true.

Definition user_withId (key : Z) (u : UserProfile.t) : UserProfile.t :=
  UserProfile.mk (Some key) (UserProfile.name u) (UserProfile.createdAt u).

Definition analysis_withId (key : Z) (r : AnalysisRecord.t) : AnalysisRecord.t :=
  AnalysisRecord.mk (Some key) (AnalysisRecord.username r)
    (AnalysisRecord.timestamp r) (AnalysisRecord.originalTokenCount r)
    (AnalysisRecord.optimizedTokenCount r) (AnalysisRecord.savings r).

Definition execution_withId (key : Z) (r : ExecutionRecord.t) : ExecutionRecord.t :=
  ExecutionRecord.mk (Some key) (ExecutionRecord.username r)
    (ExecutionRecord.timestamp r) (ExecutionRecord.promptType r)
    (ExecutionRecord.promptText r) (ExecutionRecord.resultText r).

Definition users_add (engine : Engine) (u : UserProfile.t) : Tx Z :=
  fun db =>
    match store_add (engine USER_STORE) name_unique user_withId u (users db) with
    | inl e => inl e
    | inr (key, s) => inr (key, mkDB s (analysisHistory db) (executionHistory db))
    end.

Definition history_add (engine : Engine) (r : AnalysisRecord.t) : Tx Z :=
  fun db =>
    match store_add (engine HISTORY_STORE) no_index analysis_withId r
            (analysisHistory db) with
    | inl e => inl e
    | inr (key, s) => inr (key, mkDB (users db) s (executionHistory db))
    end.

Definition execution_add (engine : Engine) (r : ExecutionRecord.t) : Tx Z :=
  fun db =>
    match store_add (engine EXECUTION_STORE) no_index execution_withId r
            (executionHistory db) with
    | inl e => inl e
    | inr (key, s) => inr (key, mkDB (users db) (analysisHistory db) s)
    end.

Definition users_clear (engine : Engine) : Tx unit :=
  fun db =>
    match store_clear (engine USER_STORE) (users db) with
    | inl e => inl e
    | inr s => inr (tt, mkDB s (analysisHistory db) (executionHistory db))
    end.

Definition history_clear (engine : Engine) : Tx unit :=
  fun db =>
    match store_clear (engine HISTORY_STORE) (analysisHistory db) with
    | inl e => inl e
    | inr s => inr (tt, mkDB (users db) s (executionHistory db))
    end.

Definition execution_clear (engine : Engine) : Tx unit :=
  fun db =>
    match store_clear (engine EXECUTION_STORE) (executionHistory db) with
    | inl e => inl e
    | inr s => inr (tt, mkDB (users db) (analysisHistory db) s)
    end.

Definition users_getAll (engine : Engine) : Tx (list UserProfile.t) :=
  fun db =>
    match store_getAll (engine USER_STORE) (users db) with
    | inl e => inl e
    | inr l => inr (l, db)
    end.

Definition history_getAll (engine : Engine) : Tx (list AnalysisRecord.t) :=
  fun db =>
    match store_getAll (engine HISTORY_STORE) (analysisHistory db) with
    | inl e => inl e
    | inr l => inr (l, db)
    end.

Definition execution_getAll (engine : Engine) : Tx (list ExecutionRecord.t) :=
  fun db =>
    match store_getAll (engine EXECUTION_STORE) (executionHistory db) with
    | inl e => inl e
    | inr l => inr (l, db)
    end.

End IDB.

(** ** services/dbService.ts *)

Module dbService.
Import IDB.

(** What a promise is rejected with. *)
Inductive Reason : Type :=
| Error (message : string)
| Text (message : string)
| RequestError (e : DOMException).

Inductive Promise (A : Type) : Type :=
| Resolved (value : A)
| Rejected (reason : Reason).
Arguments Resolved {A} _.
Arguments Rejected {A} _.

(** [Array.prototype.sort(compareFn)]: a stable sort; the comparator's
    result is negative, zero or positive. *)
Section ArraySort.
Context {A : Type} (compareFn : A -> A -> Z).

Fixpoint sort_insert (x : A) (l : list A) : list A :=
  match l with
  | [] => [x]
  | y :: l' => if compareFn x y <=? 0 then x :: l else y :: sort_insert x l'
  end.

Fixpoint Array_sort (l : list A) : list A :=
  match l with
  | [] => []
  | x :: l' => sort_insert x (Array_sort l')
  end.
End ArraySort.

Definition duplicate_message (name : string) : string :=
  "User " +:+ String dquote name +:+ String dquote " might already exist.".

Definition addUser (engine : Engine) (now : Z) (name : string) (db : Database)
  : Promise UserProfile.t * Database :=
  let newUser := UserProfile.mk None name now in
  match transaction (users_add engine newUser) db with
  | (inl _, db') => (Rejected (Error (duplicate_message name)), db')
  | (inr key, db') =>
      (Resolved (UserProfile.mk (Some key) (UserProfile.name newUser)
                   (UserProfile.createdAt newUser)), db')
  end.

Definition getAllUsers (engine : Engine) (localeCompare : string -> string -> Z)
    (db : Database) : Promise (list UserProfile.t) :=
  match transaction (users_getAll engine) db with
  | (inl e, _) => Rejected (RequestError e)
  | (inr result, _) =>
      Resolved (Array_sort
                  (fun a b => localeCompare (UserProfile.name a) (UserProfile.name b))
                  result)
  end.

Definition addAnalysisRecord (engine : Engine) (now : Z) (username : string)
    (analysisResult : AnalysisResult.t) (db : Database)
  : Promise AnalysisRecord.t * Database :=
  let savings := AnalysisResult.originalTokenCount analysisResult
                 - AnalysisResult.optimizedTokenCount analysisResult in
  let record :=
    AnalysisRecord.mk None username now
      (AnalysisResult.originalTokenCount analysisResult)
      (AnalysisResult.optimizedTokenCount analysisResult)
      savings in
  match transaction (history_add engine record) db with
  | (inl _, db') => (Rejected (Text "Failed to save analysis record."), db')
  | (inr key, db') =>
      (Resolved (AnalysisRecord.mk (Some key) (AnalysisRecord.username record)
                   (AnalysisRecord.timestamp record)
                   (AnalysisRecord.originalTokenCount record)
                   (AnalysisRecord.optimizedTokenCount record)
                   (AnalysisRecord.savings record)), db')
  end.

Definition getAllHistory (engine : Engine) (db : Database)
  : Promise (list AnalysisRecord.t) :=
  match transaction (history_getAll engine) db with
  | (inl e, _) => Rejected (RequestError e)
  | (inr result, _) => Resolved result
  end.

Definition addExecutionRecord (engine : Engine) (now : Z) (username : string)
    (promptType : ExecutionRecord.PromptType) (promptText resultText : string)
    (db : Database) : Promise ExecutionRecord.t * Database :=
  let record :=
    ExecutionRecord.mk None username now promptType promptText resultText in
  match transaction (execution_add engine record) db with
  | (inl _, db') => (Rejected (Text "Failed to save execution record."), db')
  | (inr key, db') =>
      (Resolved (ExecutionRecord.mk (Some key) (ExecutionRecord.username record)
                   (ExecutionRecord.timestamp record)
                   (ExecutionRecord.promptType record)
                   (ExecutionRecord.promptText record)
                   (ExecutionRecord.resultText record)), db')
  end.

Definition getAllExecutionHistory (engine : Engine) (db : Database)
  : Promise (list ExecutionRecord.t) :=
  match transaction (execution_getAll engine) db with
  | (inl e, _) => Rejected (RequestError e)
  | (inr result, _) => Resolved result
  end.

(** One transaction over the three stores, three [clear()] requests. *)
Definition clearAllData (engine : Engine) (db : Database)
  : Promise unit * Database :=
  match transaction
          (bind (users_clear engine) (fun _ =>
           bind (history_clear engine) (fun _ =>
           execution_clear engine))) db with
  | (inl e, db') => (Rejected (RequestError e), db')
  | (inr _, db') => (Resolved tt, db')
  end.

(** A call of one of the writing operations, with the engine's state and
    the clock's reading at the time of the call; [run] is the database
    after a sequence of calls. *)
Inductive Call : Type :=
| CallAddUser (name : string)
| CallAddAnalysisRecord (username : string) (analysisResult : AnalysisResult.t)
| CallAddExecutionRecord (username : string)
    (promptType : ExecutionRecord.PromptType) (promptText resultText : string)
| CallClearAllData.

Definition call (engine : Engine) (now : Z) (c : Call) (db : Database) : Database :=
  match c with
  | CallAddUser name => snd (addUser engine now name db)
  | CallAddAnalysisRecord username analysisResult =>
      snd (addAnalysisRecord engine now username analysisResult db)
  | CallAddExecutionRecord username promptType promptText resultText =>
      snd (addExecutionRecord engine now username promptType promptText
             resultText db)
  | CallClearAllData => snd (clearAllData engine db)
  end.

Definition run (calls : list (Engine * Z * Call)) (db : Database) : Database :=
  fold_left (fun d c => call (fst (fst c)) (snd (fst c)) (snd c) d) calls db.

(** The names the users store holds. *)
Definition names (db : Database) : list string :=
  map UserProfile.name (records (users db)).

Definition is_clear (c : Call) : bool :=
  match c with CallClearAllData => true | _ => false end.


End dbService.

(** ** JavaScript numbers and their text *)

Module JSNumber.

(** The double nearest to an integer. *)
Definition Number_of_Z (z : Z) : float :=
  SF2Prim (binary_normalize prec emax z 0 false).

(** The integer a double holds, when it holds one. *)
Definition Number_to_Z (x : float) : option Z :=
  match Prim2SF x with
  | S754_zero _ => Some 0
  | S754_finite s m e =>
      if 0 <=? e then Some (cond_Zopp s (Z.pos m * 2 ^ e))
      else if Z.pos m mod 2 ^ (- e) =? 0
           then Some (cond_Zopp s (Z.pos m / 2 ^ (- e)))
           else None
  | _ => None
  end.

(** The decimal digits of an integer, with a minus sign when negative. *)
Definition decimalText (z : Z) : string :=
  NilZero.string_of_int (Z.to_int z).

Definition digitValue (c : ascii) : option Z :=
  let n := Z.of_nat (nat_of_ascii c) in
  if (48 <=? n) && (n <=? 57) then Some (n - 48) else None.

(** The number a text of decimal digits writes, read from the left. *)
Fixpoint decimalValue (s : string) (acc : Z) : option Z :=
  match s with
  | EmptyString => Some acc
  | String c s' =>
      match digitValue c with
      | Some d => decimalValue s' (10 * acc + d)
      | None => None
      end
  end.

(** [Number::toString(x)].  An integer below 2^53 in magnitude is written
    with all its digits.  For the other finite doubles the text is the
    shortest that reads back as [x], possibly with an exponent; that
    algorithm is the engine's, [engine]. *)
Definition Number_toString (engine : float -> string) (x : float) : string :=
  match Prim2SF x with
  | S754_nan => "NaN"
  | S754_infinity false => "Infinity"
  | S754_infinity true => "-Infinity"
  | S754_zero _ => "0"
  | S754_finite _ _ _ =>
      match Number_to_Z x with
      | Some z => if Z.abs z <? 2 ^ 53 then decimalText z else engine x
      | None => engine x
      end
  end.

Fixpoint zeros (n : nat) : string :=
  match n with
  | O => EmptyString
  | S n' => String "0" (zeros n')
  end.

(** Step 11 of [Number.prototype.toFixed]: the digits of [n], padded with
    zeros to more than [f] digits, with a point before the last [f]. *)
Definition fixed_digits (f : nat) (n : Z) : string :=
  let m := decimalText n in
  match f with
  | O => m
  | _ =>
      let k := String.length m in
      let m := if (k <=? f)%nat then zeros (f + 1 - k) +:+ m else m in
      let k := String.length m in
      substring 0 (k - f) m +:+ "." +:+ substring (k - f) f m
  end.

(** [x.toFixed(fractionDigits)].  A finite double is [m * 2^e] exactly; the
    integer [n] is the one nearest to [x * 10^f], the larger of the two on a
    tie.  A value that is not finite, or of magnitude 10^21 and more, is
    written as [Number::toString] writes it. *)
Definition toFixed (engine : float -> string) (fractionDigits : nat) (x : float)
  : string :=
  match Prim2SF x with
  | S754_nan => Number_toString engine x
  | S754_infinity _ => Number_toString engine x
  | S754_zero _ => fixed_digits fractionDigits 0
  | S754_finite s m e =>
      let num := Z.pos m * 2 ^ Z.max e 0 in
      let den := 2 ^ Z.max (- e) 0 in
      if 10 ^ 21 * den <=? num then Number_toString engine x
      else
        let n := (2 * num * 10 ^ Z.of_nat fractionDigits + den) / (2 * den) in
        (if s then "-" else EmptyString) +:+ fixed_digits fractionDigits n
  end.

(** The doubles [toFixed] writes in fixed notation: finite, and below 10^21
    in magnitude. *)
Definition fixedRange (x : float) : bool :=
  match Prim2SF x with
  | S754_zero _ => true
  | S754_finite _ m e => negb (10 ^ 21 * 2 ^ Z.max (- e) 0 <=? Z.pos m * 2 ^ Z.max e 0)
  | _ => false
  end.

End JSNumber.

(** ** Objects used as maps

    The own properties of an ordinary object, in property order: the keys
    that are array indices first, in ascending order, then the other keys in
    the order in which they were created (ECMA-262,
    OrdinaryOwnPropertyKeys).  [for ... in], [Object.keys] and
    [Object.entries] follow that order. *)

Module JSObject.
Import JSNumber.

(** An array index: the decimal text, without leading zeros, of an integer
    from 0 to 2^32 - 2. *)
Definition arrayIndex (key : string) : option Z :=
  match key with
  | EmptyString => None
  | String c rest =>
      if Ascii.eqb c "0" && negb (String.eqb rest EmptyString) then None
      else
        match decimalValue key 0 with
        | Some n => if n <=? 4294967294 then Some n else None
        | None => None
        end
  end.

(** Whether a key that is being created goes before the key [k]. *)
Definition before (key k : string) : bool :=
  match arrayIndex key, arrayIndex k with
  | Some n, Some m => n <? m
  | Some _, None => true
  | None, _ => false
  end.

Section Properties.
Context {V : Type}.

Fixpoint getOwn (key : string) (o : list (string * V)) : option V :=
  match o with
  | [] => None
  | p :: o' => if String.eqb (fst p) key then Some (snd p) else getOwn key o'
  end.

Fixpoint create (key : string) (v : V) (o : list (string * V))
  : list (string * V) :=
  match o with
  | [] => [(key, v)]
  | p :: o' => if before key (fst p) then (key, v) :: o else p :: create key v o'
  end.

Fixpoint update (key : string) (v : V) (o : list (string * V))
  : list (string * V) :=
  match o with
  | [] => []
  | p :: o' =>
      if String.eqb (fst p) key then (key, v) :: o' else p :: update key v o'
  end.

(** [o[key] = v] on own data properties. *)
Definition setOwn (key : string) (v : V) (o : list (string * V))
  : list (string * V) :=
  match getOwn key o with
  | Some _ => update key v o
  | None => create key v o
  end.

End Properties.

End JSObject.

(** ** Doubles that hold integers *)

Module NumberSpec.

(** The number of binary digits of a positive integer. *)
Definition D (p : positive) : Z := Z.pos (digits2_pos p).

(** The double of an integer, as IEEE 754 lays it out. *)
Definition SF_of_Z (z : Z) : spec_float := binary_normalize prec emax z 0 false.

(** The layout of a positive integer below 2^53, with its sign: the digits
    shifted to fill the 53 bits of the mantissa. *)
Definition normal (s : bool) (z : positive) : spec_float :=
  S754_finite s (shift_nat (Z.to_nat (53 - D z)) z) (D z - 53).

End NumberSpec.

(** ** The report helpers of the application component *)

Module Report.
Import JSDate JSNumber JSObject.

Inductive Period : Type := day | week | month | year | all.

Definition COST_PER_MILLION_TOKENS : float := 0.35%float.

(** *** The report object

    [report] starts as the object literal [{}], so besides its own
    properties it shows those of [Object.prototype]: the built-in methods,
    the [__proto__] accessor, and whatever enumerable properties have been
    put there.  The only writes [calculateReportData] can make to
    [Object.prototype] store [NaN]; a [Realm] is the set of names so
    written. *)

Definition Realm : Type := gset string.

Definition ObjectPrototype_methods : list string :=
  [ "constructor"; "hasOwnProperty"; "isPrototypeOf"; "propertyIsEnumerable";
    "toLocaleString"; "toString"; "valueOf"; "__defineGetter__";
    "__defineSetter__"; "__lookupGetter__"; "__lookupSetter__" ]%string.

Inductive Value : Type :=
| Undefined
| NaN
| Method
| ObjectPrototype
| Entry (userReport : ReportData.t).

Record Heap : Type := mkHeap
  { own : list (string * ReportData.t);
    proto : Realm }.

(** [report[key]] *)
Definition get (h : Heap) (key : string) : Value :=
  match getOwn key (own h) with
  | Some d => Entry d
  | None =>
      if String.eqb key "__proto__" then ObjectPrototype
      else if existsb (String.eqb key) ObjectPrototype_methods then Method
      else if decide (key ∈ proto h) then NaN
      else Undefined
  end.

Definition truthy (v : Value) : bool :=
  match v with
  | Undefined | NaN => false
  | Method | ObjectPrototype | Entry _ => true
  end.

Definition initializeUserReport (h : Heap) (username : string) : Heap :=
  if negb (truthy (get h username)) then
    mkHeap (setOwn username (ReportData.mk 0 0 0 0 0 0) (own h)) (proto h)
  else h.

(** The four [+=] of the loop over the analysis records. *)
Definition tally (userReport : ReportData.t) (record : AnalysisRecord.t)
  : ReportData.t :=
  ReportData.mk
    (ReportData.totalPrompts userReport + 1)
    (ReportData.totalOriginalTokens userReport
     + Number_of_Z (AnalysisRecord.originalTokenCount record))
    (ReportData.totalOptimizedTokens userReport
     + Number_of_Z (AnalysisRecord.optimizedTokenCount record))
    (ReportData.totalSavings userReport
     + Number_of_Z (AnalysisRecord.savings record))
    (ReportData.totalExecutions userReport)
    (ReportData.estimatedCostSavings userReport).

(** [totalExecutions += 1] *)
Definition tallyExecution (userReport : ReportData.t) : ReportData.t :=
  ReportData.mk
    (ReportData.totalPrompts userReport)
    (ReportData.totalOriginalTokens userReport)
    (ReportData.totalOptimizedTokens userReport)
    (ReportData.totalSavings userReport)
    (ReportData.totalExecutions userReport + 1)
    (ReportData.estimatedCostSavings userReport).

(** The body of the loop over the analysis records.  [None] is a
    [TypeError]. *)
Definition analysisStep (h : Heap) (record : AnalysisRecord.t) : option Heap :=
  let username := AnalysisRecord.username record in
  let h := initializeUserReport h username in
  match get h username with
  | Entry userReport =>
      Some (mkHeap (setOwn username (tally userReport record) (own h)) (proto h))
  | ObjectPrototype =>
      Some (mkHeap (own h)
              ({[ "totalPrompts"; "totalOriginalTokens"; "totalOptimizedTokens";
                  "totalSavings" ]}%string ∪ proto h))
  | Method => Some h
  | Undefined | NaN => None
  end.

(** The body of the loop over the execution records. *)
Definition executionStep (h : Heap) (record : ExecutionRecord.t) : option Heap :=
  let username := ExecutionRecord.username record in
  let h := initializeUserReport h username in
  match get h username with
  | Entry userReport =>
      Some (mkHeap (setOwn username (tallyExecution userReport) (own h)) (proto h))
  | ObjectPrototype =>
      Some (mkHeap (own h) ({[ "totalExecutions"%string ]} ∪ proto h))
  | Method => Some h
  | Undefined | NaN => None
  end.

Fixpoint forOf {A : Type} (body : Heap -> A -> option Heap) (l : list A) (h : Heap)
  : option Heap :=
  match l with
  | [] => Some h
  | x :: l' =>
      match body h x with
      | Some h' => forOf body l' h'
      | None => None
      end
  end.

Definition costSavings (userReport : ReportData.t) : ReportData.t :=
  ReportData.mk
    (ReportData.totalPrompts userReport)
    (ReportData.totalOriginalTokens userReport)
    (ReportData.totalOptimizedTokens userReport)
    (ReportData.totalSavings userReport)
    (ReportData.totalExecutions userReport)
    ((ReportData.totalSavings userReport / 1000000) * COST_PER_MILLION_TOKENS).

(** What a call gives: the report, as its entries in property order, or
    the exception. *)
Inductive Outcome : Type :=
| Returned (report : list (string * ReportData.t))
| TypeError.

(** The [for ... in] loop: the own keys in property order, then the
    enumerable keys of the prototype that no own key hides.  At such a key
    [report[username]] is the number [NaN], and module code is strict:
    assigning a property of a number throws. *)
Definition forIn (h : Heap) : Outcome :=
  if forallb (fun key => bool_decide (is_Some (getOwn key (own h))))
       (elements (proto h))
  then Returned (map (fun entry => (fst entry, costSavings (snd entry))) (own h))
  else TypeError.

Section Zone.
Variable LocalTZA : Z -> bool -> Z.

Definition startTime (now : Z) (period : Period) : Z :=
  match period with
  | day =>
      Date_ymd LocalTZA (getFullYear LocalTZA now) (getMonth LocalTZA now)
        (getDate LocalTZA now)
  | week =>
      let startDate := now in
      let startDate :=
        setDate LocalTZA startDate (getDate LocalTZA now - getDay LocalTZA now) in
      setHours LocalTZA startDate 0 0 0 0
  | month =>
      Date_ymd LocalTZA (getFullYear LocalTZA now) (getMonth LocalTZA now) 1
  | year => Date_ymd LocalTZA (getFullYear LocalTZA now) 0 1
  | all => 0
  end.

Definition filteredAnalysisHistory (now : Z)
    (analysisHistory : list AnalysisRecord.t) (period : Period)
  : list AnalysisRecord.t :=
  List.filter (fun record => AnalysisRecord.timestamp record >=? startTime now period)
    analysisHistory.

Definition filteredExecHistory (now : Z)
    (executionHistory : list ExecutionRecord.t) (period : Period)
  : list ExecutionRecord.t :=
  List.filter (fun record => ExecutionRecord.timestamp record >=? startTime now period)
    executionHistory.

(** [calculateReportData], with the realm it runs in and the clock's
    reading; it gives back the realm it leaves. *)
Definition calculateReportData (realm : Realm) (now : Z)
    (analysisHistory : list AnalysisRecord.t)
    (executionHistory : list ExecutionRecord.t) (period : Period)
  : Outcome * Realm :=
  let report := mkHeap [] realm in
  match forOf analysisStep (filteredAnalysisHistory now analysisHistory period)
          report with
  | None => (TypeError, realm)
  | Some h1 =>
      match forOf executionStep
              (filteredExecHistory now executionHistory period) h1 with
      | None => (TypeError, proto h1)
      | Some h2 => (forIn h2, proto h2)
      end
  end.

End Zone.

(** *** Export *)

Inductive Effect : Type :=
| alert (message : string)
| download (filename type content : string).

Fixpoint replace_quotes (s : string) : string :=
  match s with
  | EmptyString => EmptyString
  | String c s' =>
      if Ascii.eqb c dquote
      then String dquote (String dquote (replace_quotes s'))
      else String c (replace_quotes s')
  end.

Definition newline : string := String (ascii_of_nat 10) EmptyString.

Definition headers : list string :=
  [ "User"; "Total Prompts"; "Total Executions"; "Total Original Tokens";
    "Total Optimized Tokens"; "Total Savings"; "Estimated Cost Savings ($)" ]%string.

Definition row (engine : float -> string) (entry : string * ReportData.t)
  : list string :=
  let '(user, userData) := entry in
  [ String dquote (replace_quotes user) +:+ String dquote EmptyString;
    Number_toString engine (ReportData.totalPrompts userData);
    Number_toString engine (ReportData.totalExecutions userData);
    Number_toString engine (ReportData.totalOriginalTokens userData);
    Number_toString engine (ReportData.totalOptimizedTokens userData);
    Number_toString engine (ReportData.totalSavings userData);
    toFixed engine 6 (ReportData.estimatedCostSavings userData) ].

(** [exportReportToCsv]; [data] is given by its own properties in property
    order, that is as [Object.entries(data)]. *)
Definition exportReportToCsv (engine : float -> string)
    (data : list (string * ReportData.t)) : Effect :=
  if (length data =? 0)%nat then alert "No data to export."
  else
    let rows := map (row engine) data in
    let csvContent :=
      String.concat newline
        (String.concat "," headers :: map (String.concat ",") rows) in
    download "prompt-optimizer-report.csv" "text/csv;charset=utf-8;" csvContent.

End Report.

(** ** What the report should hold, in the specification's words *)

Module ReportSpec.
Import JSDate JSNumber JSObject Report.

(** Names an object literal inherits from [Object.prototype]. *)
Definition inherited (key : string) : bool :=
  String.eqb key "__proto__" || existsb (String.eqb key) ObjectPrototype_methods.

Definition analysisOf (username : string) (l : list AnalysisRecord.t)
  : list AnalysisRecord.t :=
  List.filter (fun r => String.eqb (AnalysisRecord.username r) username) l.

Definition executionsOf (username : string) (l : list ExecutionRecord.t)
  : list ExecutionRecord.t :=
  List.filter (fun r => String.eqb (ExecutionRecord.username r) username) l.

(** No own property of the report hides an inherited one. *)
Definition clean (h : Heap) : Prop :=
  forall key, inherited key = true -> getOwn key (own h) = None.

(** One user's entry while the records are folded in. *)
Definition tallyAll (l : list AnalysisRecord.t) (o : option ReportData.t)
  : option ReportData.t :=
  fold_left (fun o r => Some (tally (default (ReportData.mk 0 0 0 0 0 0) o) r)) l o.

Definition tallyExecutions (l : list ExecutionRecord.t) (o : option ReportData.t)
  : option ReportData.t :=
  fold_left
    (fun o _ => Some (tallyExecution (default (ReportData.mk 0 0 0 0 0 0) o)))
    l o.

(** Counting by ones and adding, as JavaScript does: from zero, one record
    after the other. *)
Definition countOf {A : Type} (l : list A) : float :=
  Nat.iter (length l) (fun x => x + 1)%float 0%float.

Definition totalOf {A : Type} (f : A -> Z) (l : list A) : float :=
  fold_left (fun acc r => acc + Number_of_Z (f r))%float l 0%float.

(** The counts and totals of the records of one user. *)
Definition totals (analysis : list AnalysisRecord.t)
    (executions : list ExecutionRecord.t) : ReportData.t :=
  ReportData.mk
    (countOf analysis)
    (totalOf AnalysisRecord.originalTokenCount analysis)
    (totalOf AnalysisRecord.optimizedTokenCount analysis)
    (totalOf AnalysisRecord.savings analysis)
    (countOf executions)
    0.

(** The entry of a user: none when no record names the user, else the
    counts and totals of the user's records with the cost saved. *)
Definition entryOf (username : string) (analysis : list AnalysisRecord.t)
    (executions : list ExecutionRecord.t) : option ReportData.t :=
  match analysisOf username analysis, executionsOf username executions with
  | [], [] => None
  | la, le => Some (costSavings (totals la le))
  end.

(** Whether a record is filed under [__proto__]. *)
Definition pollutes {A : Type} (username : A -> string) (l : list A) : bool :=
  existsb (fun r => String.eqb (username r) "__proto__") l.

(** The realm a call leaves: a record filed under [__proto__] writes the
    names of its counters into [Object.prototype]. *)
Definition realmLeft (realm : Realm) (analysis : list AnalysisRecord.t)
    (executions : list ExecutionRecord.t) : Realm :=
  let realm :=
    if pollutes AnalysisRecord.username analysis
    then {[ "totalPrompts"; "totalOriginalTokens"; "totalOptimizedTokens";
            "totalSavings" ]}%string ∪ realm
    else realm in
  if pollutes ExecutionRecord.username executions
  then {[ "totalExecutions"%string ]} ∪ realm
  else realm.



(** The windows, by the calendar: the day number, in local time, of the
    first day of the window; the all-time window has none. *)
Definition windowStartDay (LocalTZA : Z -> bool -> Z) (now : Z) (period : Period)
  : option Z :=
  let t := LocalTime LocalTZA now in
  match period with
  | day => Some (Day t)
  | week => Some (Day t - WeekDay t)
  | month => Some (Day t - (DateFromTime t - 1))
  | year => Some (Day t - DayWithinYear t)
  | all => None
  end.

(** A time is in the window when its local date is the window's first day
    or a later one; in the all-time window, when it is not before 1970. *)
Definition inWindow (LocalTZA : Z -> bool -> Z) (now : Z) (period : Period)
    (timestamp : Z) : Prop :=
  match windowStartDay LocalTZA now period with
  | Some d => d <= Day (LocalTime LocalTZA timestamp)
  | None => 0 <= timestamp
  end.

(** The prompts and the executions a report shows for a user. *)
Definition promptsOf (username : string) (report : list (string * ReportData.t))
  : float :=
  match getOwn username report with
  | Some d => ReportData.totalPrompts d
  | None => 0
  end.

Definition executionsShown (username : string)
    (report : list (string * ReportData.t)) : float :=
  match getOwn username report with
  | Some d => ReportData.totalExecutions d
  | None => 0
  end.

(** A report counts a record when it shows, for the record's user, one
    prompt (one execution) more than the report of the same history without
    the record; [o] is the call with the record, [o'] the one without. *)
Definition countsPrompt (username : string) (o o' : Outcome * Realm) : Prop :=
  exists report report',
    fst o = Returned report /\ fst o' = Returned report'
    /\ is_Some (getOwn username report)
    /\ promptsOf username report = (promptsOf username report' + 1)%float.

Definition countsExecution (username : string) (o o' : Outcome * Realm) : Prop :=
  exists report report',
    fst o = Returned report /\ fst o' = Returned report'
    /\ is_Some (getOwn username report)
    /\ executionsShown username report
       = (executionsShown username report' + 1)%float.



(** No record is filed under [__proto__]. *)
Definition plainNames (analysis : list AnalysisRecord.t)
    (executions : list ExecutionRecord.t) : Prop :=
  Forall (fun r => AnalysisRecord.username r <> "__proto__") analysis
  /\ Forall (fun r => ExecutionRecord.username r <> "__proto__") executions.

(** A report includes a record of the history when it counts it, and
    excludes it when the report is the one of the history without it. *)
Section Inclusion.
Variable LocalTZA : Z -> bool -> Z.
Variable now : Z.

Definition includesAnalysis (l1 l2 : list AnalysisRecord.t)
    (executions : list ExecutionRecord.t) (r : AnalysisRecord.t)
    (period : Period) : Prop :=
  countsPrompt (AnalysisRecord.username r)
    (calculateReportData LocalTZA ∅ now (l1 ++ r :: l2) executions period)
    (calculateReportData LocalTZA ∅ now (l1 ++ l2) executions period).

Definition excludesAnalysis (l1 l2 : list AnalysisRecord.t)
    (executions : list ExecutionRecord.t) (r : AnalysisRecord.t)
    (period : Period) : Prop :=
  calculateReportData LocalTZA ∅ now (l1 ++ r :: l2) executions period
  = calculateReportData LocalTZA ∅ now (l1 ++ l2) executions period.

Definition includesExecution (analysis : list AnalysisRecord.t)
    (l1 l2 : list ExecutionRecord.t) (r : ExecutionRecord.t)
    (period : Period) : Prop :=
  countsExecution (ExecutionRecord.username r)
    (calculateReportData LocalTZA ∅ now analysis (l1 ++ r :: l2) period)
    (calculateReportData LocalTZA ∅ now analysis (l1 ++ l2) period).

Definition excludesExecution (analysis : list AnalysisRecord.t)
    (l1 l2 : list ExecutionRecord.t) (r : ExecutionRecord.t)
    (period : Period) : Prop :=
  calculateReportData LocalTZA ∅ now analysis (l1 ++ r :: l2) period
  = calculateReportData LocalTZA ∅ now analysis (l1 ++ l2) period.

End Inclusion.

(** Two outcomes with the same entries, whatever their order: both calls
    return, the two reports list the same entries and hold the same entry,
    or none, under every name; or both calls throw. *)
Definition sameEntries (o o' : Outcome) : Prop :=
  match o, o' with
  | Returned report, Returned report' =>
      Permutation report report'
      /\ forall username, getOwn username report = getOwn username report'
  | TypeError, TypeError => True
  | _, _ => False
  end.

End ReportSpec.

(** ** Name order *)

Module Collation.

(** A comparator that [Array.prototype.sort] can sort by: it never says
    both [a > b] and [b >= a], and its [<=] is transitive. *)
Definition consistent (compareFn : string -> string -> Z) : Prop :=
  (forall a b, 0 < compareFn a b -> compareFn b a < 0)
  /\ (forall a b c, compareFn a b <= 0 -> compareFn b c <= 0 -> compareFn a c <= 0).

Definition toLowerCase_ascii (c : ascii) : ascii :=
  let n := nat_of_ascii c in
  if ((65 <=? n) && (n <=? 90))%nat then ascii_of_nat (n + 32) else c.

Fixpoint toLowerCase (s : string) : string :=
  match s with
  | EmptyString => EmptyString
  | String c s' => String (toLowerCase_ascii c) (toLowerCase s')
  end.

Definition sign (c : comparison) : Z :=
  match c with
  | Lt => -1
  | Eq => 0
  | Gt => 1
  end.

(** [String.prototype.localeCompare] is the host's collation.  This is the
    order every Latin-script locale gives to names made of ASCII letters:
    alphabetical whatever the case, and between names that differ in case
    only, lower case first. *)
Definition localeCompare (a b : string) : Z :=
  match String.compare (toLowerCase a) (toLowerCase b) with
  | Eq => sign (String.compare b a)
  | c => sign c
  end.

End Collation.

(** ** Reading a comma-separated table back *)

Module CsvSpec.
Import JSNumber Report.

Fixpoint string_forall (P : ascii -> bool) (s : string) : bool :=
  match s with
  | EmptyString => true
  | String c s' => P c && string_forall P s'
  end.

Definition comma : ascii := ascii_of_nat 44.
Definition linefeed : ascii := ascii_of_nat 10.

(** The characters that end or quote a field. *)
Definition special (c : ascii) : bool :=
  Ascii.eqb c dquote || Ascii.eqb c comma || Ascii.eqb c linefeed.

Definition plain (s : string) : Prop :=
  string_forall (fun c => negb (special c)) s = true.

Definition isDigit (c : ascii) : bool :=
  ((48 <=? nat_of_ascii c) && (nat_of_ascii c <=? 57))%nat.

Definition digits (s : string) : Prop := string_forall isDigit s = true.

(** A reader of comma-separated text (RFC 4180, with line feeds between
    records): a field that starts with a double quote runs to the next
    single double quote, two of them inside it standing for one; any other
    field runs to the next comma or line feed. *)
Inductive Mode : Type := FieldStart | Unquoted | Quoted | QuoteSeen.

Fixpoint parse (s : string) (mode : Mode) (field : string) (record : list string)
    (table : list (list string)) : option (list (list string)) :=
  match s with
  | EmptyString =>
      match mode with
      | Quoted => None
      | _ => Some (table ++ [record ++ [field]])
      end
  | String c s' =>
      match mode with
      | FieldStart | Unquoted =>
          if Ascii.eqb c dquote then
            match mode with
            | FieldStart => parse s' Quoted EmptyString record table
            | _ => None
            end
          else if Ascii.eqb c comma then
            parse s' FieldStart EmptyString (record ++ [field]) table
          else if Ascii.eqb c linefeed then
            parse s' FieldStart EmptyString [] (table ++ [record ++ [field]])
          else parse s' Unquoted (field +:+ String c EmptyString) record table
      | Quoted =>
          if Ascii.eqb c dquote then parse s' QuoteSeen field record table
          else parse s' Quoted (field +:+ String c EmptyString) record table
      | QuoteSeen =>
          if Ascii.eqb c dquote then
            parse s' Quoted (field +:+ String dquote EmptyString) record table
          else if Ascii.eqb c comma then
            parse s' FieldStart EmptyString (record ++ [field]) table
          else if Ascii.eqb c linefeed then
            parse s' FieldStart EmptyString [] (table ++ [record ++ [field]])
          else None
      end
  end.

Definition parseCsv (s : string) : option (list (list string)) :=
  parse s FieldStart EmptyString [] [].

(** The cells of the row of one user: the name as it is, the five counters
    and the cost as JavaScript writes them. *)
Definition cells (engine : float -> string) (entry : string * ReportData.t)
  : list string :=
  [ fst entry;
    Number_toString engine (ReportData.totalPrompts (snd entry));
    Number_toString engine (ReportData.totalExecutions (snd entry));
    Number_toString engine (ReportData.totalOriginalTokens (snd entry));
    Number_toString engine (ReportData.totalOptimizedTokens (snd entry));
    Number_toString engine (ReportData.totalSavings (snd entry));
    toFixed engine 6 (ReportData.estimatedCostSavings (snd entry)) ].

(** What stands between the double quotes of a quoted field, read back:
    two double quotes stand for one, a single one is an error. *)
Fixpoint unquote (s : string) : option string :=
  match s with
  | EmptyString => Some EmptyString
  | String c s' =>
      if Ascii.eqb c dquote then
        match s' with
        | String c' s'' =>
            if Ascii.eqb c' dquote then option_map (String dquote) (unquote s'')
            else None
        | EmptyString => None
        end
      else option_map (String c) (unquote s')
  end.

(** The line of one user: the name between double quotes, its own double
    quotes doubled, then the five counters and the cost, with commas
    between. *)
Definition lineOf (engine : float -> string) (entry : string * ReportData.t)
    (line : string) : Prop :=
  exists inner,
    line
    = String dquote inner
      +:+ String dquote
            ("," +:+ Number_toString engine (ReportData.totalPrompts (snd entry))
             +:+ "," +:+ Number_toString engine (ReportData.totalExecutions (snd entry))
             +:+ "," +:+ Number_toString engine
                           (ReportData.totalOriginalTokens (snd entry))
             +:+ "," +:+ Number_toString engine
                           (ReportData.totalOptimizedTokens (snd entry))
             +:+ "," +:+ Number_toString engine (ReportData.totalSavings (snd entry))
             +:+ "," +:+ toFixed engine 6 (ReportData.estimatedCostSavings (snd entry)))
    /\ unquote inner = Some (fst entry).

(** [text] writes the double [x] with six decimals: a minus sign when [x]
    is negative, digits without a needless leading zero, a point and six
    digits; the number [n / 10^6] they write is the multiple of [10^-6]
    nearest to the magnitude of [x], the larger of the two on a tie. *)
Definition sixDecimals (x : float) (text : string) : Prop :=
  match Prim2SF x with
  | S754_zero _ => text = "0.000000"
  | S754_finite s m e =>
      exists (a b : string) (n : Z),
        text = (if s then "-" else EmptyString) +:+ a +:+ "." +:+ b
        /\ String.length b = 6%nat
        /\ digits a /\ digits b
        /\ (a = "0" \/ exists c a', a = String c a' /\ c <> "0"%char)
        /\ decimalValue (a +:+ b) 0 = Some n
        /\ (2 * n - 1) * 2 ^ Z.max (- e) 0
           <= 2 * (Z.pos m * 2 ^ Z.max e 0) * 10 ^ 6
           < (2 * n + 1) * 2 ^ Z.max (- e) 0
  | _ => False
  end.

End CsvSpec.

(** ** Keys of the stores *)

Module DbSpec.
Import IDB dbService.

(** The records of a store carry the keys [ks], ascending, each from 1 up
    to (not including) the key generator's current number. *)
Definition well_keyed {A : Type} (id : A -> option Z) (s : ObjectStore A) : Prop :=
  exists ks,
    map id (records s) = map Some ks
    /\ StronglySorted Z.lt ks
    /\ Forall (fun k => 1 <= k < keyGenerator s) ks.

(** Every store of the database is well keyed. *)
Definition keyed (db : Database) : Prop :=
  (1 <= keyGenerator (users db) /\ well_keyed UserProfile.id (users db))
  /\ (1 <= keyGenerator (analysisHistory db)
      /\ well_keyed AnalysisRecord.id (analysisHistory db))
  /\ (1 <= keyGenerator (executionHistory db)
      /\ well_keyed ExecutionRecord.id (executionHistory db)).

(** What one call does to one store: nothing, one record more under the
    generator's current number, or all records gone. *)
Inductive store_step {A : Type} (id : A -> option Z) (s s' : ObjectStore A) : Prop :=
| step_same : s' = s -> store_step id s s'
| step_add (r : A) :
    id r = Some (keyGenerator s) ->
    s' = mkStore (records s ++ [r]) (keyGenerator s + 1) ->
    store_step id s s'
| step_clear : s' = mkStore [] (keyGenerator s) -> store_step id s s'.



End DbSpec.

(** ** What the application component shows of a record's age and of the
    execution history *)

Module Display.
Import JSNumber dbService.

(** [seconds / unit], the quotient of two integers.  Within the range of
    times the double it is computed in compares with 1, and is floored, as
    the exact quotient is. *)
Definition interval (seconds unit : Z) : QArith_base.Q :=
  QArith_base.Qdiv (QArith_base.inject_Z seconds) (QArith_base.inject_Z unit).

(** [interval > 1] *)
Definition exceeds_one (q : QArith_base.Q) : bool :=
  negb (QArith_base.Qle_bool q (QArith_base.inject_Z 1)).

Definition formatTimeAgo (now timestamp : Z) : string :=
  let seconds := (now - timestamp) / 1000 in
  if exceeds_one (interval seconds 31536000) then
    decimalText (Qround.Qfloor (interval seconds 31536000)) +:+ " years ago"
  else if exceeds_one (interval seconds 2592000) then
    decimalText (Qround.Qfloor (interval seconds 2592000)) +:+ " months ago"
  else if exceeds_one (interval seconds 86400) then
    decimalText (Qround.Qfloor (interval seconds 86400)) +:+ " days ago"
  else if exceeds_one (interval seconds 3600) then
    decimalText (Qround.Qfloor (interval seconds 3600)) +:+ " hours ago"
  else if exceeds_one (interval seconds 60) then
    decimalText (Qround.Qfloor (interval seconds 60)) +:+ " minutes ago"
  else if seconds <? 10 then "just now"
  else decimalText seconds +:+ " seconds ago".

(** The list [ExecutionHistoryDisplay] renders: a copy of the history
    sorted by [b.timestamp - a.timestamp], then only the records of the
    current user when the filter is on. *)
Definition filteredHistory (history : list ExecutionRecord.t)
    (currentUser : string) (filterByUser : bool) : list ExecutionRecord.t :=
  let sortedHistory :=
    Array_sort
      (fun a b => ExecutionRecord.timestamp b - ExecutionRecord.timestamp a)
      history in
  if filterByUser then
    List.filter (fun record => String.eqb (ExecutionRecord.username record) currentUser)
      sortedHistory
  else sortedHistory.

End Display.

(** ** Opening the database (initDB)

    The persisted database is its version and its object stores by name,
    each with its definition and its records; the upgrade never looks at
    the records, so their type is left open. *)

Module Schema.
Import dbService.

Definition DB_VERSION : Z := 3.
Definition USER_STORE : string := "users".
Definition HISTORY_STORE : string := "analysisHistory".
Definition EXECUTION_STORE : string := "executionHistory".

Record Index : Type := mkIndex
  { indexName : string;
    indexKeyPath : string;
    unique : bool }.

Record ObjectStoreDef : Type := mkDef
  { keyPath : string;
    autoIncrement : bool;
    indexes : list Index }.

Definition userStoreDef : ObjectStoreDef :=
  mkDef "id" true [mkIndex "name" "name" true].

Definition historyStoreDef : ObjectStoreDef :=
  mkDef "id" true [mkIndex "username" "username" false;
                   mkIndex "timestamp" "timestamp" false].

Section Contents.
Variable Content : Type.
Variable noRecords : Content.

Record Persisted : Type := mkPersisted
  { version : Z;
    stores : gmap string (ObjectStoreDef * Content) }.

(** [dbInstance.objectStoreNames.contains(name)] *)
Definition contains (dbInstance : gmap string (ObjectStoreDef * Content))
    (name : string) : bool :=
  match dbInstance !! name with
  | Some _ => true
  | None => false
  end.

Definition createObjectStore (name : string) (def : ObjectStoreDef)
    (dbInstance : gmap string (ObjectStoreDef * Content))
  : gmap string (ObjectStoreDef * Content) :=
  <[name := (def, noRecords)]> dbInstance.

Definition onupgradeneeded (dbInstance : gmap string (ObjectStoreDef * Content))
  : gmap string (ObjectStoreDef * Content) :=
  let dbInstance :=
    if negb (contains dbInstance USER_STORE)
    then createObjectStore USER_STORE userStoreDef dbInstance else dbInstance in
  let dbInstance :=
    if negb (contains dbInstance HISTORY_STORE)
    then createObjectStore HISTORY_STORE historyStoreDef dbInstance
    else dbInstance in
  let dbInstance :=
    if negb (contains dbInstance EXECUTION_STORE)
    then createObjectStore EXECUTION_STORE historyStoreDef dbInstance
    else dbInstance in
  if contains dbInstance "usageReports" then delete "usageReports" dbInstance
  else dbInstance.

(** [indexedDB.open(DB_NAME, DB_VERSION)]: refused by the engine, or for a
    stored version above the one asked for; an upgrade when the stored
    version is below it. *)
Definition open (ok : bool) (p : Persisted) : option Persisted :=
  if negb ok then None
  else if DB_VERSION <? version p then None
  else if version p <? DB_VERSION
       then Some (mkPersisted DB_VERSION (onupgradeneeded (stores p)))
       else Some p.

(** [initDB]; [db] tells whether the module already holds a connection. *)
Definition initDB (ok : bool) (db : bool) (p : Persisted)
  : Promise unit * bool * Persisted :=
  if db then (Resolved tt, db, p)
  else
    match open ok p with
    | None => (Rejected (Text "Error opening database"), db, p)
    | Some p' => (Resolved tt, true, p')
    end.

End Contents.

End Schema.

(** ** The application's state and handlers (App.tsx)

    The state is the twelve [useState] cells of [App]; a handler takes the
    state and the database to the state and the database it leaves.  Each
    handler is run to its end before the next event is taken: the steps of
    two handlers are not interleaved.  What the network service answers and
    what the clock reads come with the event. *)

Module App.
Import dbService.

Record State : Type := mkState
  { prompt : string;
    users : list UserProfile.t;
    currentUser : string;
    analysisHistory : list AnalysisRecord.t;
    executionHistory : list ExecutionRecord.t;
    result : option AnalysisResult.t;
    isLoading : bool;
    error : option string;
    isReportVisible : bool;
    isExecuting : option ExecutionRecord.PromptType;
    executionResult : option string;
    executionError : option string }.

Definition initialState : State :=
  mkState EmptyString [] EmptyString [] [] None true None false None None None.

Definition setPrompt (value : string) (st : State) : State :=
  mkState value (users st) (currentUser st) (analysisHistory st)
    (executionHistory st) (result st) (isLoading st) (error st)
    (isReportVisible st) (isExecuting st) (executionResult st)
    (executionError st).

Definition setUsers (value : list UserProfile.t) (st : State) : State :=
  mkState (prompt st) value (currentUser st) (analysisHistory st)
    (executionHistory st) (result st) (isLoading st) (error st)
    (isReportVisible st) (isExecuting st) (executionResult st)
    (executionError st).

Definition setCurrentUser (value : string) (st : State) : State :=
  mkState (prompt st) (users st) value (analysisHistory st)
    (executionHistory st) (result st) (isLoading st) (error st)
    (isReportVisible st) (isExecuting st) (executionResult st)
    (executionError st).

Definition setAnalysisHistory (value : list AnalysisRecord.t) (st : State) : State :=
  mkState (prompt st) (users st) (currentUser st) value (executionHistory
    st) (result st) (isLoading st) (error st) (isReportVisible st)
    (isExecuting st) (executionResult st) (executionError st).

Definition setExecutionHistory (value : list ExecutionRecord.t) (st : State) : State :=
  mkState (prompt st) (users st) (currentUser st) (analysisHistory st) value
    (result st) (isLoading st) (error st) (isReportVisible st) (isExecuting
    st) (executionResult st) (executionError st).

Definition setResult (value : option AnalysisResult.t) (st : State) : State :=
  mkState (prompt st) (users st) (currentUser st) (analysisHistory st)
    (executionHistory st) value (isLoading st) (error st) (isReportVisible
    st) (isExecuting st) (executionResult st) (executionError st).

Definition setIsLoading (value : bool) (st : State) : State :=
  mkState (prompt st) (users st) (currentUser st) (analysisHistory st)
    (executionHistory st) (result st) value (error st) (isReportVisible st)
    (isExecuting st) (executionResult st) (executionError st).

Definition setError (value : option string) (st : State) : State :=
  mkState (prompt st) (users st) (currentUser st) (analysisHistory st)
    (executionHistory st) (result st) (isLoading st) value (isReportVisible
    st) (isExecuting st) (executionResult st) (executionError st).

Definition setIsReportVisible (value : bool) (st : State) : State :=
  mkState (prompt st) (users st) (currentUser st) (analysisHistory st)
    (executionHistory st) (result st) (isLoading st) (error st) value
    (isExecuting st) (executionResult st) (executionError st).

Definition setIsExecuting (value : option ExecutionRecord.PromptType) (st : State) : State :=
  mkState (prompt st) (users st) (currentUser st) (analysisHistory st)
    (executionHistory st) (result st) (isLoading st) (error st)
    (isReportVisible st) value (executionResult st) (executionError st).

Definition setExecutionResult (value : option string) (st : State) : State :=
  mkState (prompt st) (users st) (currentUser st) (analysisHistory st)
    (executionHistory st) (result st) (isLoading st) (error st)
    (isReportVisible st) (isExecuting st) value (executionError st).

Definition setExecutionError (value : option string) (st : State) : State :=
  mkState (prompt st) (users st) (currentUser st) (analysisHistory st)
    (executionHistory st) (result st) (isLoading st) (error st)
    (isReportVisible st) (isExecuting st) (executionResult st) value.

Section Host.
Variable trim : string -> string.
Variable localeCompare : string -> string -> Z.
(** The text of the engine's exception. *)
Variable message : IDB.DOMException -> string.

(** [err instanceof Error ? describe(err.message) : fallback] *)
Definition caught (describe : string -> string) (fallback : string)
    (err : Reason) : string :=
  match err with
  | Error m => describe m
  | Text _ => fallback
  | RequestError e => describe (message e)
  end.

Definition byName (a b : UserProfile.t) : Z :=
  localeCompare (UserProfile.name a) (UserProfile.name b).

(** [Promise.all] of the three reads; a failed read is reported in the
    order of the array. *)
Definition loadInitialData (engine : IDB.Engine) (db : IDB.Database)
    (st : State) : State :=
  let st := setIsLoading true st in
  let failed err st :=
    setError (Some (caught (fun m => "Could not load data: " +:+ m)
                      "An unknown error occurred while loading data." err)) st in
  let st :=
    match getAllUsers engine localeCompare db with
    | Rejected err => failed err st
    | Resolved loadedUsers =>
        match getAllHistory engine db with
        | Rejected err => failed err st
        | Resolved loadedHistory =>
            match getAllExecutionHistory engine db with
            | Rejected err => failed err st
            | Resolved loadedExecHistory =>
                let st := setUsers loadedUsers st in
                let st := setAnalysisHistory loadedHistory st in
                let st := setExecutionHistory loadedExecHistory st in
                match loadedUsers with
                | u :: _ => setCurrentUser (UserProfile.name u) st
                | [] => st
                end
            end
        end
    end in
  setIsLoading false st.

Definition handleAddUser (engine : IDB.Engine) (now : Z) (name : string)
    (s : State * IDB.Database) : Promise unit * (State * IDB.Database) :=
  let (st, db) := s in
  match addUser engine now name db with
  | (Rejected err, db) => (Rejected err, (st, db))
  | (Resolved newUser, db) =>
      let st := setUsers (Array_sort byName (users st ++ [newUser])) st in
      let st := setCurrentUser (UserProfile.name newUser) st in
      (Resolved tt, (st, db))
  end.

(** The form of [UserManagement]: what is alerted, the text left in the
    field, and the application's state. *)
Definition UserManagement_handleAddUser (engine : IDB.Engine) (now : Z)
    (newUsername : string) (s : State * IDB.Database)
  : option string * string * (State * IDB.Database) :=
  if String.eqb (trim newUsername) EmptyString then (None, newUsername, s)
  else
    match handleAddUser engine now (trim newUsername) s with
    | (Resolved _, s) => (None, EmptyString, s)
    | (Rejected err, s) =>
        (Some (caught (fun m => m) "Failed to add user." err), newUsername, s)
    end.

Definition handleAnalyze (engine : IDB.Engine) (now : Z)
    (response : Promise AnalysisResult.t) (s : State * IDB.Database)
  : State * IDB.Database :=
  let (st, db) := s in
  if String.eqb (currentUser st) EmptyString
  then (setError (Some "Please select or create a user profile first.") st, db)
  else if String.eqb (trim (prompt st)) EmptyString
  then (setError (Some "Please enter a prompt to analyze.") st, db)
  else
    let st := setIsLoading true st in
    let st := setError None st in
    let st := setResult None st in
    let st := setExecutionResult None st in
    let st := setExecutionError None st in
    let failed err st :=
      setError (Some (caught (fun m => m) "An unexpected error occurred." err)) st in
    let (st, db) :=
      match response with
      | Rejected err => (failed err st, db)
      | Resolved analysisResult =>
          let st := setResult (Some analysisResult) st in
          match addAnalysisRecord engine now (currentUser st) analysisResult db with
          | (Rejected err, db) => (failed err st, db)
          | (Resolved newRecord, db) =>
              (setAnalysisHistory (analysisHistory st ++ [newRecord]) st, db)
          end
      end in
    (setIsLoading false st, db).

Definition handleExecutePrompt (engine : IDB.Engine) (now : Z)
    (promptToExecute : string) (type : ExecutionRecord.PromptType)
    (response : Promise string) (s : State * IDB.Database)
  : State * IDB.Database :=
  let (st, db) := s in
  if String.eqb (trim promptToExecute) EmptyString
  then (setExecutionError (Some "Prompt is empty.") st, db)
  else
    let st := setIsExecuting (Some type) st in
    let st := setExecutionResult None st in
    let st := setExecutionError None st in
    let failed err st :=
      setExecutionError
        (Some (caught (fun m => m)
                 "An unexpected error occurred during execution." err)) st in
    let (st, db) :=
      match response with
      | Rejected err => (failed err st, db)
      | Resolved resultText =>
          let st := setExecutionResult (Some resultText) st in
          match addExecutionRecord engine now (currentUser st) type
                  promptToExecute resultText db with
          | (Rejected err, db) => (failed err st, db)
          | (Resolved newRecord, db) =>
              (setExecutionHistory (newRecord :: executionHistory st) st, db)
          end
      end in
    (setIsExecuting None st, db).

Definition handleClearReport (confirm : bool) (engine : IDB.Engine)
    (s : State * IDB.Database) : State * IDB.Database :=
  let (st, db) := s in
  if negb confirm then (st, db)
  else
    match clearAllData engine db with
    | (Resolved _, db) =>
        let st := setUsers [] st in
        let st := setAnalysisHistory [] st in
        let st := setExecutionHistory [] st in
        let st := setCurrentUser EmptyString st in
        (setIsReportVisible false st, db)
    | (Rejected err, db) =>
        (setError (Some (caught (fun m => "Could not clear data: " +:+ m)
                           "An unknown error occurred." err)) st, db)
    end.

Definition handleClearPrompt (st : State) : State :=
  let st := setPrompt EmptyString st in
  let st := setResult None st in
  let st := setError None st in
  let st := setExecutionResult None st in
  let st := setExecutionError None st in
  setIsExecuting None st.

(** What happens to the page.  The select of [UserManagement] offers the
    names of [users] and nothing else. *)
Inductive Event : Type :=
| Mounted (engine : IDB.Engine)
| PromptChanged (value : string)
| UserSelected (username : string)
| UserSubmitted (engine : IDB.Engine) (now : Z) (newUsername : string)
| AnalyzeClicked (engine : IDB.Engine) (now : Z)
    (response : Promise AnalysisResult.t)
| ExecuteClicked (engine : IDB.Engine) (now : Z) (promptToExecute : string)
    (type : ExecutionRecord.PromptType) (response : Promise string)
| ReportOpened
| ReportClosed
| ClearReportClicked (confirm : bool) (engine : IDB.Engine)
| ClearPromptClicked.

Definition step (s : State * IDB.Database) (e : Event) : State * IDB.Database :=
  match e with
  | Mounted engine => (loadInitialData engine (snd s) (fst s), snd s)
  | PromptChanged value => (setPrompt value (fst s), snd s)
  | UserSelected username =>
      if existsb (String.eqb username) (map UserProfile.name (users (fst s)))
      then (setCurrentUser username (fst s), snd s)
      else s
  | UserSubmitted engine now newUsername =>
      snd (UserManagement_handleAddUser engine now newUsername s)
  | AnalyzeClicked engine now response => handleAnalyze engine now response s
  | ExecuteClicked engine now promptToExecute type response =>
      handleExecutePrompt engine now promptToExecute type response s
  | ReportOpened => (setIsReportVisible true (fst s), snd s)
  | ReportClosed => (setIsReportVisible false (fst s), snd s)
  | ClearReportClicked confirm engine => handleClearReport confirm engine s
  | ClearPromptClicked => (handleClearPrompt (fst s), snd s)
  end.

(** A visit of the page: the state starts as [useState] sets it. *)
Definition session (events : list Event) (db : IDB.Database)
  : State * IDB.Database :=
  fold_left step events (initialState, db).

(** The lists on the screen are the stores' records: the users sorted by
    name, the analyses in the store's order, the executions in some order. *)
Definition mirrors (s : State * IDB.Database) : Prop :=
  Permutation (users (fst s)) (IDB.records (IDB.users (snd s)))
  /\ StronglySorted (fun a b => byName a b <= 0) (users (fst s))
  /\ analysisHistory (fst s) = IDB.records (IDB.analysisHistory (snd s))
  /\ Permutation (executionHistory (fst s))
       (IDB.records (IDB.executionHistory (snd s))).

End Host.

(** Every stored user has a name, every analysis is filed under the name of
    a stored user, and every execution under such a name or under none. *)
Definition referential (db : IDB.Database) : Prop :=
  Forall (fun u => UserProfile.name u <> EmptyString) (IDB.records (IDB.users db))
  /\ Forall (fun r => In (AnalysisRecord.username r) (names db))
       (IDB.records (IDB.analysisHistory db))
  /\ Forall (fun r => ExecutionRecord.username r = EmptyString
                      \/ In (ExecutionRecord.username r) (names db))
       (IDB.records (IDB.executionHistory db)).

End App.

(** ** The units of an age *)

Module DisplaySpec.

(** The units in which an age is told, with their length in seconds: a
    month has 30 days and a year 365. *)
Definition units : list (Z * string) :=
  [ (1, " seconds ago"); (60, " minutes ago"); (3600, " hours ago");
    (86400, " days ago"); (2592000, " months ago"); (31536000, " years ago") ].

End DisplaySpec.

(** * Properties *)

(** ** The calendar *)

Module JSDateFacts.
Import JSDate.

Lemma DayFromYear_succ (y : Z) : DayFromYear (y + 1) = DayFromYear y + DaysInYear y.
Proof.
  unfold DayFromYear, DaysInYear.
  destruct (Z.eqb_spec (y mod 4) 0), (Z.eqb_spec (y mod 100) 0),
    (Z.eqb_spec (y mod 400) 0); cbn [negb];
    Z.div_mod_to_equations; lia.
Qed.

Lemma DaysInYear_cases (y : Z) : DaysInYear y = 365 \/ DaysInYear y = 366.
Proof.
  unfold DaysInYear.
  destruct (y mod 4 =? 0), (y mod 100 =? 0), (y mod 400 =? 0); cbn; auto.
Qed.

Lemma DayFromYear_lt (y1 y2 : Z) : y1 < y2 -> DayFromYear y1 < DayFromYear y2.
Proof. unfold DayFromYear. intros H. Z.div_mod_to_equations. lia. Qed.

Lemma DayFromYear_le (y1 y2 : Z) : y1 <= y2 -> DayFromYear y1 <= DayFromYear y2.
Proof.
  intros H. destruct (Z.eq_dec y1 y2) as [->|]; [lia|].
  apply Z.lt_le_incl, DayFromYear_lt. lia.
Qed.

(** The year computed is the one ECMA-262 specifies. *)
Lemma YearFromDay_bounds (d : Z) :
  DayFromYear (YearFromDay d) <= d < DayFromYear (YearFromDay d + 1).
Proof.
  unfold YearFromDay.
  set (y := 1970 + 400 * d / 146097).
  assert (Hy : 146097 * (y - 1970) <= 400 * d < 146097 * (y - 1969)).
  { subst y. Z.div_mod_to_equations. lia. }
  clearbody y.
  destruct (Z.leb_spec (DayFromYear (y + 1)) d) as [H1|H1].
  - split; [exact H1|].
    replace (y + 1 + 1) with (y + 2) by lia.
    unfold DayFromYear. Z.div_mod_to_equations. lia.
  - destruct (Z.ltb_spec d (DayFromYear y)) as [H2|H2].
    + replace (y - 1 + 1) with y by lia. split; [|exact H2].
      unfold DayFromYear. Z.div_mod_to_equations. lia.
    + lia.
Qed.

Lemma YearFromDay_unique (d y : Z) :
  DayFromYear y <= d < DayFromYear (y + 1) -> YearFromDay d = y.
Proof.
  intros [Hlo Hhi].
  pose proof (YearFromDay_bounds d) as [Blo Bhi].
  destruct (Z.lt_trichotomy (YearFromDay d) y) as [H|[H|H]]; [|exact H|].
  - assert (DayFromYear (YearFromDay d + 1) <= DayFromYear y)
      by (apply DayFromYear_le; lia). lia.
  - assert (DayFromYear (y + 1) <= DayFromYear (YearFromDay d))
      by (apply DayFromYear_le; lia). lia.
Qed.

Lemma DayWithinYear_range (t : Z) :
  0 <= DayWithinYear t < DaysInYear (YearFromTime t).
Proof.
  unfold DayWithinYear, YearFromTime.
  pose proof (YearFromDay_bounds (Day t)) as [Blo Bhi].
  rewrite DayFromYear_succ in Bhi. lia.
Qed.

Lemma InLeapYear_cases (t : Z) : InLeapYear t = 0 \/ InLeapYear t = 1.
Proof. unfold InLeapYear. destruct (_ =? _); auto. Qed.

Lemma InLeapYear_days (t : Z) : DaysInYear (YearFromTime t) = 365 + InLeapYear t.
Proof.
  unfold InLeapYear.
  destruct (DaysInYear_cases (YearFromTime t)) as [H|H]; rewrite H; reflexivity.
Qed.

Ltac month_cases :=
  repeat match goal with
         | |- context [?a <? ?b] => destruct (Z.ltb_spec a b)
         end.

Lemma MonthFromTime_range (t : Z) : 0 <= MonthFromTime t <= 11.
Proof. unfold MonthFromTime. month_cases; lia. Qed.

Lemma DateFromTime_eq (t : Z) :
  DateFromTime t
  = DayWithinYear t - DaysBeforeMonth (MonthFromTime t) (InLeapYear t) + 1.
Proof.
  unfold DateFromTime, DaysBeforeMonth.
  destruct (MonthFromTime t) as [|p|p]; [lia| |lia].
  do 4 (try destruct p as [p|p|]); lia.
Qed.

Lemma DateFromTime_range (t : Z) : 1 <= DateFromTime t <= 31.
Proof.
  rewrite DateFromTime_eq.
  pose proof (DayWithinYear_range t) as Hd.
  rewrite InLeapYear_days in Hd.
  pose proof (InLeapYear_cases t) as Hl.
  unfold MonthFromTime. cbv zeta.
  month_cases; cbn [DaysBeforeMonth]; lia.
Qed.

(** Setting the date of a time's own year and month moves its day number
    by the difference of the dates. *)
Lemma MakeDay_fields (t dt : Z) :
  MakeDay (YearFromTime t) (MonthFromTime t) dt = Day t + dt - DateFromTime t.
Proof.
  pose proof (MonthFromTime_range t) as Hm.
  unfold MakeDay. cbv zeta.
  rewrite (Z.div_small (MonthFromTime t) 12), (Z.mod_small (MonthFromTime t) 12)
    by lia.
  rewrite Z.add_0_r, DateFromTime_eq.
  change (if DaysInYear (YearFromTime t) =? 366 then 1 else 0) with (InLeapYear t).
  unfold DayWithinYear. lia.
Qed.

Lemma DaysBeforeMonth_range (mn l : Z) :
  0 <= mn <= 11 -> 0 <= l <= 1 -> 0 <= DaysBeforeMonth mn l <= 334 + l.
Proof.
  intros Hm Hl.
  assert (mn = 0 \/ mn = 1 \/ mn = 2 \/ mn = 3 \/ mn = 4 \/ mn = 5 \/ mn = 6
          \/ mn = 7 \/ mn = 8 \/ mn = 9 \/ mn = 10 \/ mn = 11) as Hc by lia.
  repeat destruct Hc as [->|Hc]; try subst mn; cbn; lia.
Qed.

(** The fields of a time on the first day of month [mn] of year [y]. *)
Lemma first_of_month_fields (y mn t : Z) :
  0 <= mn <= 11 ->
  Day t = MakeDay y mn 1 ->
  YearFromTime t = y /\ MonthFromTime t = mn /\ DateFromTime t = 1.
Proof.
  intros Hm Hd.
  unfold MakeDay in Hd. cbv zeta in Hd.
  rewrite (Z.div_small mn 12), (Z.mod_small mn 12), Z.add_0_r in Hd by lia.
  set (l := if DaysInYear y =? 366 then 1 else 0) in Hd.
  assert (Hl : 0 <= l <= 1) by (subst l; destruct (_ =? _); lia).
  assert (Hdays : DaysInYear y = 365 + l).
  { subst l. destruct (DaysInYear_cases y) as [H|H]; rewrite H; reflexivity. }
  pose proof (DaysBeforeMonth_range mn l Hm Hl) as Hb.
  assert (Hy : YearFromTime t = y).
  { unfold YearFromTime. apply YearFromDay_unique.
    rewrite DayFromYear_succ. lia. }
  assert (Hleap : InLeapYear t = l) by (unfold InLeapYear; rewrite Hy; reflexivity).
  assert (Hw : DayWithinYear t = DaysBeforeMonth mn l)
    by (unfold DayWithinYear; rewrite Hy; lia).
  assert (Hmonth : MonthFromTime t = mn).
  { unfold MonthFromTime. rewrite Hw, Hleap. cbv zeta.
    assert (mn = 0 \/ mn = 1 \/ mn = 2 \/ mn = 3 \/ mn = 4 \/ mn = 5 \/ mn = 6
            \/ mn = 7 \/ mn = 8 \/ mn = 9 \/ mn = 10 \/ mn = 11) as Hc by lia.
    repeat destruct Hc as [->|Hc]; try subst mn; cbn [DaysBeforeMonth];
      month_cases; lia. }
  repeat split; [exact Hy|exact Hmonth|].
  rewrite DateFromTime_eq, Hw, Hmonth, Hleap. lia.
Qed.

Lemma Day_MakeDate (d time : Z) :
  0 <= time < msPerDay -> Day (MakeDate d time) = d.
Proof.
  intros H. unfold Day, MakeDate, msPerDay in *.
  Z.div_mod_to_equations. lia.
Qed.

Lemma TimeWithinDay_MakeDate (d time : Z) :
  0 <= time < msPerDay -> TimeWithinDay (MakeDate d time) = time.
Proof.
  intros H. unfold TimeWithinDay, MakeDate, msPerDay in *.
  Z.div_mod_to_equations. lia.
Qed.

Lemma time_Day_bounds (t : Z) : msPerDay * Day t <= t < msPerDay * Day t + msPerDay.
Proof. unfold Day, msPerDay. Z.div_mod_to_equations. lia. Qed.

Lemma YearFromTime_recent (t : Z) : - msPerDay <= t -> 1969 <= YearFromTime t.
Proof.
  intros H. unfold YearFromTime.
  pose proof (YearFromDay_bounds (Day t)) as [_ Bhi].
  pose proof (time_Day_bounds t) as Ht.
  destruct (Z.le_gt_cases 1969 (YearFromDay (Day t))) as [|Hlt]; [assumption|].
  assert (DayFromYear (YearFromDay (Day t) + 1) <= DayFromYear 1969)
    by (apply DayFromYear_le; lia).
  change (DayFromYear 1969) with (-365) in *. unfold msPerDay in *. lia.
Qed.

End JSDateFacts.

(** ** Arithmetic of the doubles that hold integers *)

Module NumberFacts.
Import JSNumber NumberSpec.

Lemma D_bounds (p : positive) : 2 ^ (D p - 1) <= Z.pos p < 2 ^ D p.
Proof.
  unfold D. induction p as [p IH|p IH|]; cbn [digits2_pos].
  - rewrite Pos2Z.inj_succ.
    replace (Z.succ (Z.pos (digits2_pos p)) - 1) with (Z.pos (digits2_pos p) - 1 + 1) by lia.
    rewrite Z.pow_add_r by lia.
    rewrite Z.pow_succ_r by lia. change (2 ^ 1) with 2. lia.
  - rewrite Pos2Z.inj_succ.
    replace (Z.succ (Z.pos (digits2_pos p)) - 1) with (Z.pos (digits2_pos p) - 1 + 1) by lia.
    rewrite Z.pow_add_r by lia.
    rewrite Z.pow_succ_r by lia. change (2 ^ 1) with 2. lia.
  - cbn. lia.
Qed.

Lemma D_pos (p : positive) : 1 <= D p.
Proof. unfold D. lia. Qed.

Lemma D_safe (p : positive) : Z.pos p < 2 ^ 53 -> D p <= 53.
Proof.
  intros H. pose proof (D_bounds p) as [Hlo _].
  destruct (Z.le_gt_cases (D p) 53) as [|Hgt]; [assumption|].
  assert (2 ^ 53 <= 2 ^ (D p - 1)) by (apply Z.pow_le_mono_r; lia). lia.
Qed.

Lemma D_shift_nat (n : nat) (p : positive) : D (shift_nat n p) = D p + Z.of_nat n.
Proof.
  unfold D. induction n as [|n IH]; [cbn; lia|].
  cbn [shift_nat nat_rect digits2_pos]. fold (shift_nat n p).
  rewrite Pos2Z.inj_succ, IH. lia.
Qed.

Lemma shift_nat_add (n m : nat) (p : positive) :
  shift_nat n (shift_nat m p) = shift_nat (n + m) p.
Proof. induction n as [|n IH]; [reflexivity|]. cbn. f_equal. exact IH. Qed.

Lemma Zpos_shift_nat (n : nat) (p : positive) :
  Z.pos (shift_nat n p) = Z.pos p * 2 ^ Z.of_nat n.
Proof.
  induction n as [|n IH]; [cbn; lia|].
  cbn [shift_nat nat_rect]. fold (shift_nat n p).
  rewrite Pos2Z.inj_xO, IH, Nat2Z.inj_succ, Z.pow_succ_r by lia. lia.
Qed.

Lemma iter_pos_nat {A : Type} (f : A -> A) (p : positive) (x : A) :
  SpecFloat.iter_pos f p x = Nat.iter (Pos.to_nat p) f x.
Proof.
  revert x. induction p as [p IH|p IH|]; intros x; cbn [SpecFloat.iter_pos].
  - rewrite !IH, Pos2Nat.inj_xI.
    replace (S (2 * Pos.to_nat p)) with (Pos.to_nat p + S (Pos.to_nat p))%nat by lia.
    rewrite Nat.iter_add. f_equal. rewrite Nat.iter_succ_r. reflexivity.
  - rewrite !IH, Pos2Nat.inj_xO.
    replace (2 * Pos.to_nat p)%nat with (Pos.to_nat p + Pos.to_nat p)%nat by lia.
    rewrite Nat.iter_add. reflexivity.
  - reflexivity.
Qed.

Lemma shr_exact (n : nat) (q : positive) :
  Nat.iter n shr_1 (Build_shr_record (Z.pos (shift_nat n q)) false false)
  = Build_shr_record (Z.pos q) false false.
Proof.
  induction n as [|n IH]; [reflexivity|].
  rewrite Nat.iter_succ_r. cbn [shift_nat nat_rect shr_1 orb].
  fold (shift_nat n q). exact IH.
Qed.

Lemma fexp_normal (e : Z) : -1021 <= e -> fexp prec emax e = e - 53.
Proof. intros H. unfold fexp, SpecFloat.emin, prec, emax. lia. Qed.

(** Rounding a mantissa of 53 + j bits whose last j bits are zero. *)
Lemma binary_round_aux_exact (s : bool) (m0 : positive) (j : nat) (e : Z) :
  D m0 = 53 -> -1074 <= e + Z.of_nat j <= 971 ->
  binary_round_aux prec emax s (Z.pos (shift_nat j m0)) e loc_Exact
  = S754_finite s m0 (e + Z.of_nat j).
Proof.
  intros Hd He. unfold binary_round_aux.
  assert (Hshr : shr_fexp prec emax (Z.pos (shift_nat j m0)) e loc_Exact
                 = (Build_shr_record (Z.pos m0) false false, e + Z.of_nat j)).
  { unfold shr_fexp, Zdigits2. fold (D (shift_nat j m0)).
    rewrite D_shift_nat, Hd, fexp_normal by lia.
    cbn [shr_record_of_loc].
    replace (53 + Z.of_nat j + e - 53 - e) with (Z.of_nat j) by lia.
    destruct j as [|j].
    - change (Z.of_nat 0) with 0. cbn [shr shift_nat nat_rect]. f_equal. lia.
    - change (Z.of_nat (S j)) with (Z.pos (Pos.of_succ_nat j)). cbn [shr].
      rewrite iter_pos_nat, SuccNat2Pos.id_succ, shr_exact.
      reflexivity. }
  rewrite Hshr. cbn [shr_m loc_of_shr_record round_nearest_even].
  assert (Hshr2 : shr_fexp prec emax (Z.pos m0) (e + Z.of_nat j) loc_Exact
                  = (Build_shr_record (Z.pos m0) false false, e + Z.of_nat j)).
  { unfold shr_fexp, Zdigits2. fold (D m0). rewrite Hd, fexp_normal by lia.
    replace (53 + (e + Z.of_nat j) - 53 - (e + Z.of_nat j)) with 0 by lia.
    reflexivity. }
  rewrite Hshr2. cbn [shr_m].
  unfold prec, emax.
  destruct (Z.leb_spec (e + Z.of_nat j) (1024 - 53)); [reflexivity|lia].
Qed.

Lemma binary_round_exact (s : bool) (z : positive) (k : nat) :
  Z.pos z < 2 ^ 53 ->
  binary_round prec emax s (shift_nat k z) (- Z.of_nat k) = normal s z.
Proof.
  intros Hz. pose proof (D_safe z Hz) as Hd. pose proof (D_pos z) as Hd1.
  unfold binary_round, shl_align. fold (D (shift_nat k z)).
  rewrite D_shift_nat, fexp_normal by lia.
  destruct (D z + Z.of_nat k + - Z.of_nat k - 53 - - Z.of_nat k) as [|d|d] eqn:Hdiff.
  - replace (shift_nat k z) with (shift_nat 0 (shift_nat k z)) by reflexivity.
    rewrite binary_round_aux_exact.
    + unfold normal. f_equal; [|lia].
      replace (Z.to_nat (53 - D z)) with k by lia. reflexivity.
    + rewrite D_shift_nat. lia.
    + lia.
  - assert (shift_nat k z
            = shift_nat (Pos.to_nat d) (shift_nat (Z.to_nat (53 - D z)) z)) as ->.
    { rewrite shift_nat_add. f_equal. lia. }
    rewrite binary_round_aux_exact.
    + unfold normal. f_equal. lia.
    + rewrite D_shift_nat. lia.
    + lia.
  - change (Pos.iter xO (shift_nat k z) d) with (shift_pos d (shift_nat k z)).
    rewrite shift_pos_nat, shift_nat_add.
    replace (shift_nat (Pos.to_nat d + k) z)
      with (shift_nat 0 (shift_nat (Pos.to_nat d + k) z)) by reflexivity.
    rewrite binary_round_aux_exact.
    + unfold normal. f_equal; [|lia].
      f_equal. lia.
    + rewrite D_shift_nat. lia.
    + lia.
Qed.

Lemma binary_normalize_exact (z : Z) (k : nat) :
  Z.abs z < 2 ^ 53 ->
  binary_normalize prec emax (z * 2 ^ Z.of_nat k) (- Z.of_nat k) false = SF_of_Z z.
Proof.
  intros Hz. unfold SF_of_Z.
  destruct z as [|p|p].
  - reflexivity.
  - rewrite <- Zpos_shift_nat. cbn [binary_normalize].
    rewrite (binary_round_exact false p k) by lia.
    change 0 with (- Z.of_nat 0). change p with (shift_nat 0 p) at 2.
    rewrite (binary_round_exact false p 0) by lia. reflexivity.
  - replace (Z.neg p * 2 ^ Z.of_nat k) with (Z.neg (shift_nat k p)).
    2:{ rewrite <- Pos2Z.opp_pos, Zpos_shift_nat. lia. }
    cbn [binary_normalize].
    rewrite (binary_round_exact true p k) by lia.
    change 0 with (- Z.of_nat 0). change p with (shift_nat 0 p) at 2.
    rewrite (binary_round_exact true p 0) by lia. reflexivity.
Qed.

Lemma SF_of_Z_cases (z : Z) :
  Z.abs z < 2 ^ 53 ->
  SF_of_Z z = match z with
              | 0 => S754_zero false
              | Z.pos p => normal false p
              | Z.neg p => normal true p
              end.
Proof.
  intros Hz. rewrite <- (binary_normalize_exact z 0 Hz).
  destruct z as [|p|p]; [reflexivity| |].
  - change (Z.pos p * 2 ^ Z.of_nat 0) with (Z.pos (p * 1)). rewrite Pos.mul_1_r.
    apply (binary_round_exact false p 0). lia.
  - change (Z.neg p * 2 ^ Z.of_nat 0) with (Z.neg (p * 1)). rewrite Pos.mul_1_r.
    apply (binary_round_exact true p 0). lia.
Qed.

Lemma SF_of_Z_valid (z : Z) : Z.abs z < 2 ^ 53 -> valid_binary (SF_of_Z z) = true.
Proof.
  intros Hz. rewrite SF_of_Z_cases by exact Hz.
  destruct z as [|p|p]; [reflexivity| |];
    pose proof (D_safe p ltac:(lia)); pose proof (D_pos p);
    unfold normal, valid_binary, bounded, canonical_mantissa;
    fold (D (shift_nat (Z.to_nat (53 - D p)) p));
    rewrite D_shift_nat, fexp_normal by lia;
    apply andb_true_intro; (split; [apply Z.eqb_eq|apply Z.leb_le]);
    unfold prec, emax; lia.
Qed.

Lemma Prim2SF_Number_of_Z (z : Z) :
  Z.abs z < 2 ^ 53 -> Prim2SF (Number_of_Z z) = SF_of_Z z.
Proof. intros Hz. apply Prim2SF_SF2Prim, SF_of_Z_valid, Hz. Qed.

Lemma shl_align_normal (p : positive) (ez : Z) :
  Z.pos p < 2 ^ 53 -> ez <= D p - 53 ->
  Z.pos (fst (shl_align (shift_nat (Z.to_nat (53 - D p)) p) (D p - 53) ez))
  = Z.pos p * 2 ^ (- ez).
Proof.
  intros Hp He. pose proof (D_safe p Hp). pose proof (D_pos p).
  unfold shl_align.
  destruct (ez - (D p - 53)) as [|d|d] eqn:Hd; cbn [fst]; try lia.
  - rewrite Zpos_shift_nat. f_equal. f_equal. lia.
  - change (Pos.iter xO ?m d) with (shift_pos d m).
    rewrite shift_pos_nat, shift_nat_add, Zpos_shift_nat. f_equal. f_equal. lia.
Qed.

Lemma SFadd_normal (sa sb : bool) (p q : positive) :
  Z.pos p < 2 ^ 53 -> Z.pos q < 2 ^ 53 ->
  Z.abs (cond_Zopp sa (Z.pos p) + cond_Zopp sb (Z.pos q)) < 2 ^ 53 ->
  SF64add (normal sa p) (normal sb q)
  = SF_of_Z (cond_Zopp sa (Z.pos p) + cond_Zopp sb (Z.pos q)).
Proof.
  intros Hp Hq Hab. unfold SF64add, SFadd, normal.
  set (ez := Z.min (D p - 53) (D q - 53)).
  pose proof (D_safe p Hp). pose proof (D_safe q Hq).
  rewrite (shl_align_normal p ez), (shl_align_normal q ez) by lia.
  replace (cond_Zopp sa (Z.pos p * 2 ^ (- ez)) + cond_Zopp sb (Z.pos q * 2 ^ (- ez)))
    with ((cond_Zopp sa (Z.pos p) + cond_Zopp sb (Z.pos q))
          * 2 ^ Z.of_nat (Z.to_nat (- ez))).
  2:{ replace (Z.of_nat (Z.to_nat (- ez))) with (- ez) by lia.
      destruct sa, sb; cbn [cond_Zopp]; lia. }
  replace ez with (- Z.of_nat (Z.to_nat (- ez))) at 2 by lia.
  apply binary_normalize_exact. exact Hab.
Qed.

Lemma SFadd_exact (a b : Z) :
  Z.abs a < 2 ^ 53 -> Z.abs b < 2 ^ 53 -> Z.abs (a + b) < 2 ^ 53 ->
  SF64add (SF_of_Z a) (SF_of_Z b) = SF_of_Z (a + b).
Proof.
  intros Ha Hb Hab.
  rewrite (SF_of_Z_cases a Ha), (SF_of_Z_cases b Hb).
  destruct a as [|p|p], b as [|q|q].
  - reflexivity.
  - rewrite (SF_of_Z_cases _ Hab). reflexivity.
  - rewrite (SF_of_Z_cases _ Hab). reflexivity.
  - rewrite (SF_of_Z_cases _ Hab). reflexivity.
  - apply (SFadd_normal false false p q); [lia|lia|exact Hab].
  - apply (SFadd_normal false true p q); [lia|lia|exact Hab].
  - rewrite (SF_of_Z_cases _ Hab). reflexivity.
  - apply (SFadd_normal true false p q); [lia|lia|exact Hab].
  - apply (SFadd_normal true true p q); [lia|lia|exact Hab].
Qed.

Theorem Number_add_exact (a b : Z) :
  Z.abs a < 2 ^ 53 -> Z.abs b < 2 ^ 53 -> Z.abs (a + b) < 2 ^ 53 ->
  (Number_of_Z a + Number_of_Z b)%float = Number_of_Z (a + b).
Proof.
  intros Ha Hb Hab. apply Prim2SF_inj.
  rewrite add_spec, !Prim2SF_Number_of_Z by assumption.
  apply SFadd_exact; assumption.
Qed.

Lemma Number_of_Z_0 : Number_of_Z 0 = 0%float.
Proof. reflexivity. Qed.

Lemma Number_of_Z_1 : Number_of_Z 1 = 1%float.
Proof. vm_compute. reflexivity. Qed.

Lemma Number_to_Z_of_Z (z : Z) :
  Z.abs z < 2 ^ 53 -> Number_to_Z (Number_of_Z z) = Some z.
Proof.
  intros Hz. unfold Number_to_Z.
  rewrite (Prim2SF_Number_of_Z z Hz), (SF_of_Z_cases z Hz).
  destruct z as [|p|p]; [reflexivity| |];
    pose proof (D_safe p ltac:(lia)) as Hd; pose proof (D_pos p) as Hd1;
    unfold normal; rewrite Zpos_shift_nat;
    (destruct (Z.leb_spec 0 (D p - 53)) as [He|He];
     [ replace (D p - 53) with 0 by lia;
       replace (Z.to_nat (53 - D p)) with 0%nat by lia;
       cbn [Z.of_nat Z.pow cond_Zopp]; f_equal; lia
     | replace (Z.of_nat (Z.to_nat (53 - D p))) with (- (D p - 53)) by lia;
       rewrite Z.mod_mul by (apply Z.pow_nonzero; lia);
       cbn [Z.eqb]; rewrite Z.div_mul by (apply Z.pow_nonzero; lia);
       reflexivity ]).
Qed.

Lemma Number_of_Z_inj (a b : Z) :
  Z.abs a < 2 ^ 53 -> Z.abs b < 2 ^ 53 -> Number_of_Z a = Number_of_Z b -> a = b.
Proof.
  intros Ha Hb H.
  pose proof (Number_to_Z_of_Z a Ha) as H1. rewrite H, (Number_to_Z_of_Z b Hb) in H1.
  congruence.
Qed.

(** Adding integers one after the other is exact as long as the magnitudes
    add up to less than 2^53. *)
Lemma Number_sum_exact (l : list Z) (a : Z) :
  Z.abs a + fold_right (fun x acc => Z.abs x + acc) 0 l < 2 ^ 53 ->
  fold_left (fun acc x => (acc + Number_of_Z x)%float) l (Number_of_Z a)
  = Number_of_Z (a + fold_right Z.add 0 l).
Proof.
  revert a. induction l as [|x l IH]; intros a H; cbn [fold_left fold_right] in *.
  - f_equal. lia.
  - assert (Hl : 0 <= fold_right (fun x acc => Z.abs x + acc) 0 l).
    { clear. induction l as [|y l IH]; cbn [fold_right]; lia. }
    rewrite Number_add_exact by lia.
    rewrite IH by lia. f_equal. lia.
Qed.

(** Counting by ones is exact below 2^53. *)
Lemma Number_count_exact (n : nat) (a : Z) :
  Z.abs a + Z.of_nat n < 2 ^ 53 ->
  Nat.iter n (fun x => (x + 1)%float) (Number_of_Z a) = Number_of_Z (a + Z.of_nat n).
Proof.
  revert a. induction n as [|n IH]; intros a H.
  - replace (a + Z.of_nat 0) with a by lia. reflexivity.
  - rewrite Nat.iter_succ_r, <- Number_of_Z_1, Number_add_exact by lia.
    rewrite IH by lia. f_equal. lia.
Qed.

End NumberFacts.

(** ** Time zones and window starts *)

Module WindowFacts.
Import JSDate JSDateFacts Report ReportSpec.

Lemma constantZone_regular (offset : Z) : regular (constantZone offset).
Proof.
  unfold regular, constantZone, LocalTime, UTC, Day, MakeDate, msPerDay.
  repeat split; intros; try lia; Z.div_mod_to_equations; lia.
Qed.

Lemma easternZone_local (t : Z) :
  (easternZone t false = -14400000 /\ 1710039600000 <= t < 1730599200000)
  \/ (easternZone t false = -18000000
      /\ ~ (1710039600000 <= t < 1730599200000)).
Proof.
  unfold easternZone.
  destruct (Z.leb_spec (1710054000000 - 14400000) t),
    (Z.ltb_spec t (1730613600000 - 14400000)); cbn [andb]; lia.
Qed.

Lemma easternZone_utc (t : Z) :
  (easternZone t true = -14400000 /\ 1710054000000 <= t < 1730613600000)
  \/ (easternZone t true = -18000000
      /\ ~ (1710054000000 <= t < 1730613600000)).
Proof.
  unfold easternZone.
  destruct (Z.leb_spec 1710054000000 t), (Z.ltb_spec t 1730613600000);
    cbn [andb]; lia.
Qed.

(** The clock of the zone with daylight saving changes at two and at three
    in the morning: the zone is regular. *)
Lemma easternZone_regular : regular easternZone.
Proof.
  unfold regular, LocalTime, UTC, Day, MakeDate, msPerDay.
  split; [|split].
  - intros t.
    pose proof (easternZone_local t) as HL.
    pose proof (easternZone_utc (t - easternZone t false)) as HU.
    revert HL HU.
    generalize (easternZone (t - easternZone t false) true).
    generalize (easternZone t false). intros a b HL HU.
    Z.div_mod_to_equations. lia.
  - intros d.
    pose proof (easternZone_local (d * 86400000 + 0)) as HL.
    pose proof (easternZone_utc (d * 86400000 + 0
                                 - easternZone (d * 86400000 + 0) false)) as HU.
    revert HL HU.
    generalize (easternZone (d * 86400000 + 0
                             - easternZone (d * 86400000 + 0) false) true).
    generalize (easternZone (d * 86400000 + 0) false). intros a b HL HU.
    lia.
  - intros d ts.
    pose proof (easternZone_local (d * 86400000 + 0)) as HL.
    pose proof (easternZone_utc ts) as HU.
    revert HL HU.
    generalize (easternZone ts true).
    generalize (easternZone (d * 86400000 + 0) false). intros a b HL HU.
    split; intros; Z.div_mod_to_equations; lia.
Qed.

Lemma two_digit_year (y : Z) :
  ~ (0 <= y <= 99) -> (if (0 <=? y) && (y <=? 99) then 1900 + y else y) = y.
Proof.
  intros H. destruct (Z.leb_spec 0 y), (Z.leb_spec y 99); cbn; lia.
Qed.

Lemma MakeDate_midnight (d : Z) : MakeDate d (MakeTime 0 0 0 0) = MakeDate d 0.
Proof. reflexivity. Qed.

Lemma MakeDay_jan1 (y : Z) : MakeDay y 0 1 = DayFromYear y.
Proof.
  unfold MakeDay. cbv zeta.
  replace (0 / 12) with 0 by reflexivity.
  replace (0 mod 12) with 0 by reflexivity.
  replace (y + 0) with y by lia. unfold DaysBeforeMonth. lia.
Qed.

Lemma Day_midnight (d : Z) : Day (MakeDate d 0) = d.
Proof. unfold Day, MakeDate, msPerDay. Z.div_mod_to_equations. lia. Qed.

Lemma TimeWithinDay_midnight (d : Z) : TimeWithinDay (MakeDate d 0) = 0.
Proof. unfold TimeWithinDay, MakeDate, msPerDay. Z.div_mod_to_equations. lia. Qed.

Lemma WeekDay_range (t : Z) : 0 <= WeekDay t <= 6.
Proof. unfold WeekDay. Z.div_mod_to_equations. lia. Qed.

Lemma WeekDay_week_start (t : Z) :
  WeekDay (MakeDate (Day t - WeekDay t) 0) = 0.
Proof.
  unfold WeekDay at 1. rewrite Day_midnight.
  unfold WeekDay. Z.div_mod_to_equations. lia.
Qed.

Lemma month_start_fields (t : Z) :
  let s := MakeDate (Day t - (DateFromTime t - 1)) 0 in
  YearFromTime s = YearFromTime t
  /\ MonthFromTime s = MonthFromTime t
  /\ DateFromTime s = 1.
Proof.
  intros s. apply first_of_month_fields.
  - apply MonthFromTime_range.
  - subst s. rewrite Day_midnight, MakeDay_fields. lia.
Qed.

Lemma year_start_fields (t : Z) :
  let s := MakeDate (Day t - DayWithinYear t) 0 in
  YearFromTime s = YearFromTime t
  /\ MonthFromTime s = 0
  /\ DateFromTime s = 1.
Proof.
  intros s. apply first_of_month_fields; [lia|].
  subst s. rewrite Day_midnight, MakeDay_jan1. unfold DayWithinYear. lia.
Qed.


Section Zone.
Variable LocalTZA : Z -> bool -> Z.

(** A clock that reads a time from 1970 on, in a zone less than a day from
    UTC, shows a year of four digits. *)
Lemma clock_year (now : Z) :
  0 <= now -> - msPerDay <= LocalTZA now true ->
  ~ (0 <= getFullYear LocalTZA now <= 99).
Proof.
  intros Hnow Htz. unfold getFullYear.
  assert (1969 <= YearFromTime (LocalTime LocalTZA now))
    by (apply YearFromTime_recent; unfold LocalTime; lia).
  lia.
Qed.

Hypothesis zone : regular LocalTZA.

(** Where each window starts: at the local midnight that begins its first
    day. *)
Lemma startTime_midnight (now : Z) (period : Period) (d : Z) :
  ~ (0 <= getFullYear LocalTZA now <= 99) ->
  windowStartDay LocalTZA now period = Some d ->
  startTime LocalTZA now period = UTC LocalTZA (MakeDate d 0).
Proof.
  destruct zone as (Hday & _ & _).
  intros Hy Hd. unfold windowStartDay in Hd. cbv zeta in Hd.
  destruct period; try discriminate; injection Hd as <-; unfold startTime;
    cbv zeta.
  - unfold Date_ymd. cbv zeta. rewrite two_digit_year by exact Hy.
    unfold getFullYear, getMonth, getDate.
    rewrite MakeDay_fields, MakeDate_midnight. do 2 f_equal. lia.
  - unfold setHours, setDate. cbv zeta.
    rewrite MakeDate_midnight, Hday. unfold getDate, getDay.
    rewrite MakeDay_fields, Day_MakeDate.
    + do 2 f_equal. lia.
    + unfold TimeWithinDay. apply Z.mod_pos_bound. reflexivity.
  - unfold Date_ymd. cbv zeta. rewrite two_digit_year by exact Hy.
    unfold getFullYear, getMonth.
    rewrite MakeDay_fields, MakeDate_midnight. do 2 f_equal. lia.
  - unfold Date_ymd. cbv zeta. rewrite two_digit_year by exact Hy.
    unfold getFullYear. rewrite MakeDay_jan1, MakeDate_midnight.
    unfold DayWithinYear. do 2 f_equal. lia.
Qed.

(** The code's comparison with the start of the window is the calendar's
    window. *)
Lemma startTime_inWindow (now : Z) (period : Period) (timestamp : Z) :
  ~ (0 <= getFullYear LocalTZA now <= 99) ->
  startTime LocalTZA now period <= timestamp
  <-> inWindow LocalTZA now period timestamp.
Proof.
  intros Hy. unfold inWindow.
  destruct (windowStartDay LocalTZA now period) as [d|] eqn:Hd.
  - rewrite (startTime_midnight now period d Hy Hd).
    destruct zone as (_ & _ & Hafter). apply Hafter.
  - destruct period; try discriminate. reflexivity.
Qed.

(** In local time the start of a window reads as midnight of its first
    day. *)
Lemma startTime_local (now : Z) (period : Period) (d : Z) :
  ~ (0 <= getFullYear LocalTZA now <= 99) ->
  windowStartDay LocalTZA now period = Some d ->
  LocalTime LocalTZA (startTime LocalTZA now period) = MakeDate d 0.
Proof.
  intros Hy Hd. rewrite (startTime_midnight now period d Hy Hd).
  destruct zone as (_ & Hmid & _). apply Hmid.
Qed.

End Zone.

End WindowFacts.

(** ** Objects as maps *)

Module ObjectFacts.
Import JSObject.

Section Properties.
Context {V : Type}.
Implicit Types (o : list (string * V)) (key k : string) (v : V).

Lemma getOwn_In_keys key o : is_Some (getOwn key o) <-> In key (map fst o).
Proof.
  induction o as [|p o IH]; cbn [getOwn map In].
  - split; [intros [x Hx]; discriminate|intros []].
  - destruct (String.eqb_spec (fst p) key) as [Heq|Hne].
    + split; [intros _; left; exact Heq|intros _; eexists; reflexivity].
    + rewrite IH. split; [intros H; right; exact H|intros [H|H]; [contradiction|exact H]].
Qed.

Lemma getOwn_None_keys key o : getOwn key o = None <-> ~ In key (map fst o).
Proof.
  rewrite <- getOwn_In_keys. destruct (getOwn key o).
  - split; [discriminate|intros H; exfalso; apply H; eexists; reflexivity].
  - split; [intros _ [x Hx]; discriminate|reflexivity].
Qed.

Lemma getOwn_create_eq key v o :
  getOwn key o = None -> getOwn key (create key v o) = Some v.
Proof.
  induction o as [|p o IH]; cbn [getOwn create]; intros H.
  - rewrite String.eqb_refl. reflexivity.
  - destruct (String.eqb (fst p) key) eqn:Hp; [discriminate|].
    destruct (before key (fst p)); cbn [getOwn fst snd].
    + rewrite String.eqb_refl. reflexivity.
    + rewrite Hp. apply IH. exact H.
Qed.

Lemma getOwn_create_ne k key v o :
  k <> key -> getOwn k (create key v o) = getOwn k o.
Proof.
  intros Hne.
  assert (Hk : String.eqb key k = false)
    by (apply String.eqb_neq; congruence).
  induction o as [|p o IH]; cbn [getOwn create fst snd].
  - rewrite Hk. reflexivity.
  - destruct (before key (fst p)); cbn [getOwn fst snd].
    + rewrite Hk. reflexivity.
    + rewrite IH. reflexivity.
Qed.

Lemma getOwn_update_eq key v o :
  is_Some (getOwn key o) -> getOwn key (update key v o) = Some v.
Proof.
  induction o as [|p o IH]; cbn [getOwn update]; intros H.
  - destruct H; discriminate.
  - destruct (String.eqb (fst p) key) eqn:Hp; cbn [getOwn fst snd].
    + rewrite String.eqb_refl. reflexivity.
    + rewrite Hp. apply IH. exact H.
Qed.

Lemma getOwn_update_ne k key v o :
  k <> key -> getOwn k (update key v o) = getOwn k o.
Proof.
  intros Hne.
  assert (Hk : String.eqb key k = false)
    by (apply String.eqb_neq; congruence).
  induction o as [|p o IH]; cbn [getOwn update]; [reflexivity|].
  destruct (String.eqb_spec (fst p) key) as [Heq|Hp]; cbn [getOwn fst snd].
  - rewrite Hk, Heq, Hk. reflexivity.
  - rewrite IH. reflexivity.
Qed.

Lemma getOwn_setOwn_eq key v o : getOwn key (setOwn key v o) = Some v.
Proof.
  unfold setOwn. destruct (getOwn key o) eqn:H.
  - apply getOwn_update_eq. rewrite H. eexists. reflexivity.
  - apply getOwn_create_eq. exact H.
Qed.

Lemma getOwn_setOwn_ne k key v o :
  k <> key -> getOwn k (setOwn key v o) = getOwn k o.
Proof.
  intros Hne. unfold setOwn. destruct (getOwn key o).
  - apply getOwn_update_ne. exact Hne.
  - apply getOwn_create_ne. exact Hne.
Qed.

Lemma keys_update key v o : map fst (update key v o) = map fst o.
Proof.
  induction o as [|p o IH]; cbn [update map]; [reflexivity|].
  destruct (String.eqb_spec (fst p) key) as [Heq|Hne]; cbn [map fst].
  - rewrite Heq. reflexivity.
  - rewrite IH. reflexivity.
Qed.

Lemma keys_create key v o :
  Permutation (key :: map fst o) (map fst (create key v o)).
Proof.
  induction o as [|p o IH]; cbn [create map]; [reflexivity|].
  destruct (before key (fst p)); cbn [map fst]; [reflexivity|].
  rewrite perm_swap. apply perm_skip. exact IH.
Qed.

Lemma NoDup_setOwn key v o :
  List.NoDup (map fst o) -> List.NoDup (map fst (setOwn key v o)).
Proof.
  intros Hnd. unfold setOwn. destruct (getOwn key o) eqn:H.
  - rewrite keys_update. exact Hnd.
  - apply (Permutation_NoDup (keys_create key v o)).
    constructor; [|exact Hnd]. apply getOwn_None_keys. exact H.
Qed.

Lemma getOwn_Some_In key v o :
  List.NoDup (map fst o) -> getOwn key o = Some v <-> In (key, v) o.
Proof.
  induction o as [|p o IH]; cbn [getOwn map In]; intros Hnd.
  - split; [discriminate|intros []].
  - inversion Hnd as [|x l Hx Hnd']; subst.
    destruct (String.eqb_spec (fst p) key) as [Heq|Hne].
    + split.
      * intros H. left. destruct p as [k w]. cbn in *. congruence.
      * intros [H|H]; [subst p; reflexivity|].
        exfalso. apply Hx. rewrite Heq.
        apply (in_map fst) in H. exact H.
    + rewrite (IH Hnd'). split; [intros H; right; exact H|].
      intros [H|H]; [subst p; cbn in Hne; congruence|exact H].
Qed.

Lemma Permutation_of_getOwn o o' :
  List.NoDup (map fst o) -> List.NoDup (map fst o') ->
  (forall k, getOwn k o = getOwn k o') -> Permutation o o'.
Proof.
  intros Hnd Hnd' H.
  apply Permutation.NoDup_Permutation.
  - apply (List.NoDup_map_inv fst). exact Hnd.
  - apply (List.NoDup_map_inv fst). exact Hnd'.
  - intros [k v]. rewrite <- !getOwn_Some_In by assumption. rewrite H. reflexivity.
Qed.

End Properties.

Lemma getOwn_map {V W : Type} (f : V -> W) (key : string) (o : list (string * V)) :
  getOwn key (map (fun entry => (fst entry, f (snd entry))) o)
  = option_map f (getOwn key o).
Proof.
  induction o as [|p o IH]; cbn [getOwn map fst snd]; [reflexivity|].
  destruct (String.eqb (fst p) key); [reflexivity|exact IH].
Qed.

Lemma keys_map {V W : Type} (f : V -> W) (o : list (string * V)) :
  map fst (map (fun entry => (fst entry, f (snd entry))) o) = map fst o.
Proof. rewrite map_map. reflexivity. Qed.

End ObjectFacts.

(** ** Aggregation *)

Module ReportFacts.
Import JSNumber JSObject Report ReportSpec ObjectFacts NumberFacts.

Lemma get_own (h : Heap) (key : string) (d : ReportData.t) :
  getOwn key (own h) = Some d -> get h key = Entry d.
Proof. intros H. unfold get. rewrite H. reflexivity. Qed.

Lemma get_not_inherited (h : Heap) (key : string) :
  getOwn key (own h) = None -> inherited key = false ->
  truthy (get h key) = false.
Proof.
  intros Hown Hinh. unfold get, inherited in *. rewrite Hown.
  apply orb_false_iff in Hinh as [-> ->].
  destruct (decide (key ∈ proto h)); reflexivity.
Qed.

Lemma get_inherited (h : Heap) (key : string) :
  getOwn key (own h) = None -> inherited key = true ->
  get h key = (if String.eqb key "__proto__" then ObjectPrototype else Method).
Proof.
  intros Hown Hinh. unfold get, inherited in *. rewrite Hown.
  destruct (String.eqb key "__proto__"); [reflexivity|].
  cbn [orb] in Hinh. rewrite Hinh. reflexivity.
Qed.

(** One pass of a loop body: [username] is the record's user and [f] what
    the body does to the user's entry. *)
Lemma step_spec (h : Heap) (u : string) (f : ReportData.t -> ReportData.t)
    (polluted : Realm) :
  clean h -> List.NoDup (map fst (own h)) ->
  exists h',
    (let h0 := initializeUserReport h u in
     match get h0 u with
     | Entry userReport =>
         Some (mkHeap (setOwn u (f userReport) (own h0)) (proto h0))
     | ObjectPrototype => Some (mkHeap (own h0) (polluted ∪ proto h0))
     | Method => Some h0
     | Undefined | NaN => None
     end) = Some h'
    /\ clean h' /\ List.NoDup (map fst (own h'))
    /\ (forall k,
          getOwn k (own h')
          = if inherited u then getOwn k (own h)
            else if String.eqb u k
                 then Some (f (default (ReportData.mk 0 0 0 0 0 0)
                                 (getOwn u (own h))))
                 else getOwn k (own h))
    /\ proto h'
       = (if String.eqb u "__proto__" then polluted ∪ proto h else proto h).
Proof.
  intros Hclean Hnd. cbv zeta.
  destruct (inherited u) eqn:Hinh.
  - pose proof (Hclean u Hinh) as Hnone.
    unfold initializeUserReport.
    rewrite (get_inherited h u Hnone Hinh).
    destruct (String.eqb u "__proto__") eqn:Hp; cbn [truthy negb];
      rewrite (get_inherited h u Hnone Hinh), Hp;
      eexists; (split; [reflexivity|]); cbn [own proto]; auto.
  - assert (Hp : String.eqb u "__proto__" = false).
    { unfold inherited in Hinh. apply orb_false_iff in Hinh as [? _]. assumption. }
    rewrite Hp.
    assert (Hkeep : forall key, inherited key = true -> key <> u)
      by (intros key Hkey ->; congruence).
    destruct (getOwn u (own h)) as [d|] eqn:Hown.
    + unfold initializeUserReport. rewrite (get_own h u d Hown). cbn [truthy negb].
      rewrite (get_own h u d Hown).
      eexists; split; [reflexivity|]. cbn [own proto default].
      split; [intros key Hkey; cbn [own];
              rewrite getOwn_setOwn_ne by (apply Hkeep; exact Hkey);
              apply Hclean; exact Hkey|].
      split; [apply NoDup_setOwn; exact Hnd|].
      split; [|reflexivity].
      intros k. destruct (String.eqb_spec u k) as [<-|Hne].
      * apply getOwn_setOwn_eq.
      * apply getOwn_setOwn_ne. congruence.
    + unfold initializeUserReport.
      rewrite (get_not_inherited h u Hown Hinh). cbn [negb].
      erewrite get_own by (cbn [own]; apply getOwn_setOwn_eq).
      eexists; split; [reflexivity|]. cbn [own proto default].
      split; [intros key Hkey; cbn [own];
              rewrite !getOwn_setOwn_ne by (apply Hkeep; exact Hkey);
              apply Hclean; exact Hkey|].
      split; [apply NoDup_setOwn, NoDup_setOwn; exact Hnd|].
      split; [|reflexivity].
      intros k. destruct (String.eqb_spec u k) as [<-|Hne].
      * apply getOwn_setOwn_eq.
      * rewrite !getOwn_setOwn_ne by congruence. reflexivity.
Qed.

Lemma analysisStep_spec (h : Heap) (r : AnalysisRecord.t) :
  clean h -> List.NoDup (map fst (own h)) ->
  exists h',
    analysisStep h r = Some h' /\ clean h' /\ List.NoDup (map fst (own h'))
    /\ (forall k,
          getOwn k (own h')
          = if inherited (AnalysisRecord.username r) then getOwn k (own h)
            else if String.eqb (AnalysisRecord.username r) k
                 then Some (tally (default (ReportData.mk 0 0 0 0 0 0)
                                     (getOwn (AnalysisRecord.username r) (own h))) r)
                 else getOwn k (own h))
    /\ proto h'
       = (if String.eqb (AnalysisRecord.username r) "__proto__"
          then {[ "totalPrompts"; "totalOriginalTokens"; "totalOptimizedTokens";
                  "totalSavings" ]} ∪ proto h
          else proto h).
Proof.
  intros Hclean Hnd.
  exact (step_spec h (AnalysisRecord.username r) (fun d => tally d r) _ Hclean Hnd).
Qed.

Lemma executionStep_spec (h : Heap) (r : ExecutionRecord.t) :
  clean h -> List.NoDup (map fst (own h)) ->
  exists h',
    executionStep h r = Some h' /\ clean h' /\ List.NoDup (map fst (own h'))
    /\ (forall k,
          getOwn k (own h')
          = if inherited (ExecutionRecord.username r) then getOwn k (own h)
            else if String.eqb (ExecutionRecord.username r) k
                 then Some (tallyExecution
                              (default (ReportData.mk 0 0 0 0 0 0)
                                 (getOwn (ExecutionRecord.username r) (own h))))
                 else getOwn k (own h))
    /\ proto h'
       = (if String.eqb (ExecutionRecord.username r) "__proto__"
          then {[ "totalExecutions" ]} ∪ proto h
          else proto h).
Proof.
  intros Hclean Hnd.
  exact (step_spec h (ExecutionRecord.username r) tallyExecution _ Hclean Hnd).
Qed.

Lemma analysisOf_cons (u : string) (r : AnalysisRecord.t) (l : list AnalysisRecord.t) :
  analysisOf u (r :: l)
  = if String.eqb (AnalysisRecord.username r) u then r :: analysisOf u l
    else analysisOf u l.
Proof. reflexivity. Qed.

Lemma executionsOf_cons (u : string) (r : ExecutionRecord.t) (l : list ExecutionRecord.t) :
  executionsOf u (r :: l)
  = if String.eqb (ExecutionRecord.username r) u then r :: executionsOf u l
    else executionsOf u l.
Proof. reflexivity. Qed.

Lemma inherited_differs (u v : string) :
  inherited u = true -> inherited v = false -> String.eqb u v = false.
Proof.
  intros Hu Hv. destruct (String.eqb_spec u v) as [->|]; [congruence|reflexivity].
Qed.

Lemma forOf_analysis (l : list AnalysisRecord.t) (h : Heap) :
  clean h -> List.NoDup (map fst (own h)) ->
  exists h',
    forOf analysisStep l h = Some h' /\ clean h' /\ List.NoDup (map fst (own h'))
    /\ (forall u, inherited u = false ->
          getOwn u (own h') = tallyAll (analysisOf u l) (getOwn u (own h)))
    /\ proto h'
       = (if pollutes AnalysisRecord.username l
          then {[ "totalPrompts"; "totalOriginalTokens"; "totalOptimizedTokens";
                  "totalSavings" ]} ∪ proto h
          else proto h).
Proof.
  revert h. induction l as [|r l IH]; intros h Hclean Hnd.
  - exists h. cbn. auto.
  - destruct (analysisStep_spec h r Hclean Hnd)
      as (h1 & Hstep & Hclean1 & Hnd1 & Hown1 & Hproto1).
    destruct (IH h1 Hclean1 Hnd1) as (h' & Hfor & Hclean' & Hnd' & Hown' & Hproto').
    exists h'. cbn [forOf]. rewrite Hstep.
    split; [exact Hfor|]. split; [exact Hclean'|]. split; [exact Hnd'|]. split.
    + intros u Hu. rewrite (Hown' u Hu), Hown1, analysisOf_cons.
      destruct (inherited (AnalysisRecord.username r)) eqn:Hr.
      * rewrite (inherited_differs _ _ Hr Hu). reflexivity.
      * destruct (String.eqb_spec (AnalysisRecord.username r) u) as [->|Hne];
          reflexivity.
    + rewrite Hproto', Hproto1. unfold pollutes. cbn [existsb].
      destruct (String.eqb (AnalysisRecord.username r) "__proto__"); cbn [orb];
        [|reflexivity].
      destruct (existsb _ l); [|reflexivity].
      rewrite (assoc_L (∪)), (idemp_L (∪)). reflexivity.
Qed.

Lemma forOf_execution (l : list ExecutionRecord.t) (h : Heap) :
  clean h -> List.NoDup (map fst (own h)) ->
  exists h',
    forOf executionStep l h = Some h' /\ clean h' /\ List.NoDup (map fst (own h'))
    /\ (forall u, inherited u = false ->
          getOwn u (own h') = tallyExecutions (executionsOf u l) (getOwn u (own h)))
    /\ proto h'
       = (if pollutes ExecutionRecord.username l
          then {[ "totalExecutions" ]} ∪ proto h
          else proto h).
Proof.
  revert h. induction l as [|r l IH]; intros h Hclean Hnd.
  - exists h. cbn. auto.
  - destruct (executionStep_spec h r Hclean Hnd)
      as (h1 & Hstep & Hclean1 & Hnd1 & Hown1 & Hproto1).
    destruct (IH h1 Hclean1 Hnd1) as (h' & Hfor & Hclean' & Hnd' & Hown' & Hproto').
    exists h'. cbn [forOf]. rewrite Hstep.
    split; [exact Hfor|]. split; [exact Hclean'|]. split; [exact Hnd'|]. split.
    + intros u Hu. rewrite (Hown' u Hu), Hown1, executionsOf_cons.
      destruct (inherited (ExecutionRecord.username r)) eqn:Hr.
      * rewrite (inherited_differs _ _ Hr Hu). reflexivity.
      * destruct (String.eqb_spec (ExecutionRecord.username r) u) as [->|Hne];
          reflexivity.
    + rewrite Hproto', Hproto1. unfold pollutes. cbn [existsb].
      destruct (String.eqb (ExecutionRecord.username r) "__proto__"); cbn [orb];
        [|reflexivity].
      destruct (existsb _ l); [|reflexivity].
      rewrite (assoc_L (∪)), (idemp_L (∪)). reflexivity.
Qed.

Lemma tallyAll_Some (l : list AnalysisRecord.t) (d : ReportData.t) :
  tallyAll l (Some d)
  = Some (ReportData.mk
            (Nat.iter (length l) (fun x => x + 1)%float (ReportData.totalPrompts d))
            (fold_left
               (fun acc r => acc + Number_of_Z (AnalysisRecord.originalTokenCount r))%float
               l (ReportData.totalOriginalTokens d))
            (fold_left
               (fun acc r => acc + Number_of_Z (AnalysisRecord.optimizedTokenCount r))%float
               l (ReportData.totalOptimizedTokens d))
            (fold_left
               (fun acc r => acc + Number_of_Z (AnalysisRecord.savings r))%float
               l (ReportData.totalSavings d))
            (ReportData.totalExecutions d)
            (ReportData.estimatedCostSavings d)).
Proof.
  revert d. induction l as [|r l IH]; intros d.
  - destruct d; reflexivity.
  - change (tallyAll (r :: l) (Some d)) with (tallyAll l (Some (tally d r))).
    rewrite IH. cbn [length]. rewrite Nat.iter_succ_r. reflexivity.
Qed.

Lemma tallyExecutions_Some (l : list ExecutionRecord.t) (d : ReportData.t) :
  tallyExecutions l (Some d)
  = Some (ReportData.mk
            (ReportData.totalPrompts d)
            (ReportData.totalOriginalTokens d)
            (ReportData.totalOptimizedTokens d)
            (ReportData.totalSavings d)
            (Nat.iter (length l) (fun x => x + 1)%float (ReportData.totalExecutions d))
            (ReportData.estimatedCostSavings d)).
Proof.
  revert d. induction l as [|r l IH]; intros d.
  - destruct d; reflexivity.
  - change (tallyExecutions (r :: l) (Some d))
      with (tallyExecutions l (Some (tallyExecution d))).
    rewrite IH. cbn [length]. rewrite Nat.iter_succ_r. reflexivity.
Qed.

(** The entry the three loops leave for a user, from no entry. *)
Lemma tally_expected (u : string) (analysis : list AnalysisRecord.t)
    (executions : list ExecutionRecord.t) :
  costSavings
    <$> tallyExecutions (executionsOf u executions)
          (tallyAll (analysisOf u analysis) None)
  = entryOf u analysis executions.
Proof.
  unfold entryOf, totals, countOf, totalOf.
  destruct (analysisOf u analysis) as [|r l].
  - cbn [tallyAll fold_left].
    destruct (executionsOf u executions) as [|e l'].
    + reflexivity.
    + change (tallyExecutions (e :: l') None)
        with (tallyExecutions l'
                (Some (tallyExecution (ReportData.mk 0 0 0 0 0 0)))).
      rewrite tallyExecutions_Some. cbn [length]. rewrite Nat.iter_succ_r.
      reflexivity.
  - change (tallyAll (r :: l) None)
      with (tallyAll l (Some (tally (ReportData.mk 0 0 0 0 0 0) r))).
    rewrite tallyAll_Some, tallyExecutions_Some.
    cbn [length]. rewrite Nat.iter_succ_r.
    destruct (executionsOf u executions); reflexivity.
Qed.

Lemma Forall_filter_keep {A : Type} (P : A -> Prop) (f : A -> bool) (l : list A) :
  Forall P l -> Forall P (List.filter f l).
Proof.
  induction 1 as [|x l Hx _ IH]; cbn; [constructor|].
  destruct (f x); [constructor|]; assumption.
Qed.

Lemma pollutes_false {A : Type} (username : A -> string) (l : list A) :
  Forall (fun r => username r <> "__proto__") l -> pollutes username l = false.
Proof.
  induction 1 as [|r l Hr _ IH]; [reflexivity|].
  unfold pollutes in *. cbn [existsb]. rewrite IH.
  destruct (String.eqb_spec (username r) "__proto__"); [contradiction|reflexivity].
Qed.

Lemma clean_empty (realm : Realm) : clean (mkHeap [] realm).
Proof. intros k _. reflexivity. Qed.

(** The two loops never throw; they leave a heap whose own entries are the
    expected ones. *)
Lemma calculateReportData_run (LocalTZA : Z -> bool -> Z) (realm : Realm) (now : Z)
    (analysisHistory : list AnalysisRecord.t)
    (executionHistory : list ExecutionRecord.t) (period : Period) :
  exists h,
    calculateReportData LocalTZA realm now analysisHistory executionHistory period
    = (forIn h, proto h)
    /\ clean h /\ List.NoDup (map fst (own h))
    /\ (forall u, inherited u = false ->
          costSavings <$> getOwn u (own h)
          = entryOf u
              (filteredAnalysisHistory LocalTZA now analysisHistory period)
              (filteredExecHistory LocalTZA now executionHistory period))
    /\ proto h
       = realmLeft realm
           (filteredAnalysisHistory LocalTZA now analysisHistory period)
           (filteredExecHistory LocalTZA now executionHistory period).
Proof.
  unfold calculateReportData.
  set (fA := filteredAnalysisHistory LocalTZA now analysisHistory period).
  set (fE := filteredExecHistory LocalTZA now executionHistory period).
  destruct (forOf_analysis fA (mkHeap [] realm) (clean_empty realm))
    as (h1 & Hfor1 & Hclean1 & Hnd1 & Hown1 & Hproto1); [constructor|].
  destruct (forOf_execution fE h1 Hclean1 Hnd1)
    as (h2 & Hfor2 & Hclean2 & Hnd2 & Hown2 & Hproto2).
  exists h2. rewrite Hfor1, Hfor2.
  split; [reflexivity|]. split; [exact Hclean2|]. split; [exact Hnd2|]. split.
  - intros u Hu. rewrite (Hown2 u Hu), (Hown1 u Hu). cbn [own getOwn].
    apply tally_expected.
  - rewrite Hproto2, Hproto1. reflexivity.
Qed.

(** A returned report has one entry per key, and they are the expected
    ones. *)
Lemma report_lookup (LocalTZA : Z -> bool -> Z) (realm : Realm) (now : Z)
    (analysisHistory : list AnalysisRecord.t)
    (executionHistory : list ExecutionRecord.t) (period : Period)
    (report : list (string * ReportData.t)) :
  fst (calculateReportData LocalTZA realm now analysisHistory executionHistory period)
  = Returned report ->
  List.NoDup (map fst report)
  /\ forall u,
      getOwn u report
      = if inherited u then None
        else entryOf u
               (filteredAnalysisHistory LocalTZA now analysisHistory period)
               (filteredExecHistory LocalTZA now executionHistory period).
Proof.
  intros Hret.
  destruct (calculateReportData_run LocalTZA realm now analysisHistory
              executionHistory period) as (h & Hrun & Hclean & Hnd & Hown & _).
  rewrite Hrun in Hret. cbn [fst] in Hret. unfold forIn in Hret.
  destruct (forallb _ _); [|discriminate].
  injection Hret as <-. split; [rewrite keys_map; exact Hnd|].
  intros u. rewrite getOwn_map.
  destruct (inherited u) eqn:Hu.
  - rewrite (Hclean u Hu). reflexivity.
  - apply Hown. exact Hu.
Qed.

Lemma report_entry (LocalTZA : Z -> bool -> Z) (realm : Realm) (now : Z)
    (analysisHistory : list AnalysisRecord.t)
    (executionHistory : list ExecutionRecord.t) (period : Period)
    (report : list (string * ReportData.t)) (u : string) (d : ReportData.t) :
  fst (calculateReportData LocalTZA realm now analysisHistory executionHistory period)
  = Returned report ->
  In (u, d) report ->
  inherited u = false
  /\ d = costSavings
           (totals
              (analysisOf u
                 (filteredAnalysisHistory LocalTZA now analysisHistory period))
              (executionsOf u
                 (filteredExecHistory LocalTZA now executionHistory period))).
Proof.
  intros Hret Hd.
  destruct (report_lookup _ _ _ _ _ _ _ Hret) as [Hnd Hlook].
  apply (getOwn_Some_In u d report Hnd) in Hd.
  rewrite Hlook in Hd.
  destruct (inherited u); [discriminate|].
  split; [reflexivity|]. unfold entryOf in Hd.
  destruct (analysisOf u _), (executionsOf u _); congruence.
Qed.

(** In a realm nobody has written to, the report is returned unless a
    qualifying record is filed under [__proto__]. *)
Lemma report_returns (LocalTZA : Z -> bool -> Z) (now : Z)
    (analysisHistory : list AnalysisRecord.t)
    (executionHistory : list ExecutionRecord.t) (period : Period) :
  Forall (fun r => AnalysisRecord.username r <> "__proto__")
    (filteredAnalysisHistory LocalTZA now analysisHistory period) ->
  Forall (fun r => ExecutionRecord.username r <> "__proto__")
    (filteredExecHistory LocalTZA now executionHistory period) ->
  exists report,
    calculateReportData LocalTZA ∅ now analysisHistory executionHistory period
    = (Returned report, ∅).
Proof.
  intros HA HE.
  destruct (calculateReportData_run LocalTZA ∅ now analysisHistory
              executionHistory period) as (h & Hrun & _ & _ & _ & Hproto).
  unfold realmLeft in Hproto.
  rewrite (pollutes_false _ _ HA), (pollutes_false _ _ HE) in Hproto.
  rewrite Hrun. unfold forIn. rewrite Hproto, elements_empty.
  eexists. reflexivity.
Qed.

(** Calls that agree on the entry of every user and on the realm they leave
    agree on the outcome, up to the order of the entries. *)
Lemma calculateReportData_entries (LocalTZA : Z -> bool -> Z) (realm : Realm)
    (now : Z) (A A' : list AnalysisRecord.t) (E E' : list ExecutionRecord.t)
    (period period' : Period) :
  (forall u, inherited u = false ->
     entryOf u (filteredAnalysisHistory LocalTZA now A period)
       (filteredExecHistory LocalTZA now E period)
     = entryOf u (filteredAnalysisHistory LocalTZA now A' period')
         (filteredExecHistory LocalTZA now E' period')) ->
  realmLeft realm (filteredAnalysisHistory LocalTZA now A period)
    (filteredExecHistory LocalTZA now E period)
  = realmLeft realm (filteredAnalysisHistory LocalTZA now A' period')
      (filteredExecHistory LocalTZA now E' period') ->
  sameEntries (fst (calculateReportData LocalTZA realm now A E period))
    (fst (calculateReportData LocalTZA realm now A' E' period'))
  /\ snd (calculateReportData LocalTZA realm now A E period)
     = snd (calculateReportData LocalTZA realm now A' E' period').
Proof.
  intros Hentry Hrealm.
  destruct (calculateReportData_run LocalTZA realm now A E period)
    as (h & Hrun & Hclean & Hnd & Hown & Hproto).
  destruct (calculateReportData_run LocalTZA realm now A' E' period')
    as (h' & Hrun' & Hclean' & Hnd' & Hown' & Hproto').
  rewrite Hrun, Hrun'. cbn [fst snd].
  assert (Hp : proto h = proto h') by congruence.
  assert (Hlook : forall k, costSavings <$> getOwn k (own h)
                            = costSavings <$> getOwn k (own h')).
  { intros k. destruct (inherited k) eqn:Hk.
    - rewrite (Hclean k Hk), (Hclean' k Hk). reflexivity.
    - rewrite (Hown k Hk), (Hown' k Hk). apply Hentry. exact Hk. }
  split; [|exact Hp].
  unfold forIn. rewrite <- Hp.
  assert (Hsame : forallb (fun key => bool_decide (is_Some (getOwn key (own h))))
                    (elements (proto h))
                  = forallb (fun key => bool_decide (is_Some (getOwn key (own h'))))
                      (elements (proto h))).
  { induction (elements (proto h)) as [|k ks IH]; [reflexivity|].
    cbn [forallb]. rewrite IH. f_equal. apply bool_decide_ext.
    specialize (Hlook k).
    destruct (getOwn k (own h)), (getOwn k (own h')); try discriminate;
      split; intros [x Hx]; try discriminate; eexists; reflexivity. }
  rewrite <- Hsame. destruct (forallb _ _); [|exact I].
  cbn [sameEntries]. split.
  - apply Permutation_of_getOwn.
    + rewrite keys_map. exact Hnd.
    + rewrite keys_map. exact Hnd'.
    + intros k. rewrite !getOwn_map. apply Hlook.
  - intros k. rewrite !getOwn_map. apply Hlook.
Qed.

(** *** Exact sums *)







Lemma countOf_exact {A : Type} (l : list A) :
  Z.of_nat (length l) < 2 ^ 53 -> countOf l = Number_of_Z (Z.of_nat (length l)).
Proof.
  intros H. unfold countOf. rewrite <- Number_of_Z_0.
  rewrite Number_count_exact by (cbn [Z.abs]; lia). reflexivity.
Qed.


(** *** Permuted histories *)

Lemma Permutation_filter_keep {A : Type} (p : A -> bool) (l l' : list A) :
  Permutation l l' -> Permutation (List.filter p l) (List.filter p l').
Proof.
  induction 1 as [|x l l' _ IH|x y l|l l' l'' _ IH1 _ IH2]; cbn [List.filter].
  - constructor.
  - destruct (p x); [apply perm_skip|]; exact IH.
  - destruct (p x), (p y); try reflexivity. apply perm_swap.
  - etransitivity; eassumption.
Qed.

Lemma existsb_Permutation {A : Type} (p : A -> bool) (l l' : list A) :
  Permutation l l' -> existsb p l = existsb p l'.
Proof.
  induction 1 as [|x l l' _ IH|x y l|l l' l'' _ IH1 _ IH2]; cbn [existsb].
  - reflexivity.
  - rewrite IH. reflexivity.
  - destruct (p x), (p y); reflexivity.
  - congruence.
Qed.

Lemma countOf_Permutation {A : Type} (l l' : list A) :
  Permutation l l' -> countOf l = countOf l'.
Proof. intros H. unfold countOf. rewrite (Permutation_length H). reflexivity. Qed.

Lemma Permutation_nil_iff {A : Type} (l l' : list A) :
  Permutation l l' -> l = [] <-> l' = [].
Proof.
  intros H. split; intros ->.
  - apply Permutation_nil. exact H.
  - apply Permutation_nil. symmetry. exact H.
Qed.

(** The entry of a user does not depend on the order of the executions. *)
Lemma entryOf_executions_Permutation (u : string) (A : list AnalysisRecord.t)
    (E E' : list ExecutionRecord.t) :
  Permutation E E' -> entryOf u A E = entryOf u A E'.
Proof.
  intros HE. unfold entryOf.
  pose proof (Permutation_filter_keep
                (fun r => String.eqb (ExecutionRecord.username r) u) _ _ HE) as Hp.
  fold (executionsOf u E) (executionsOf u E') in Hp.
  assert (Ht : forall la, totals la (executionsOf u E) = totals la (executionsOf u E')).
  { intros la. unfold totals. rewrite (countOf_Permutation _ _ Hp). reflexivity. }
  pose proof (Permutation_nil_iff _ _ Hp) as Hnil.
  destruct (analysisOf u A); destruct (executionsOf u E), (executionsOf u E');
    try reflexivity;
    try (discriminate (proj1 Hnil eq_refl));
    try (discriminate (proj2 Hnil eq_refl));
    rewrite Ht; reflexivity.
Qed.


Lemma realmLeft_Permutation (realm : Realm) (A A' : list AnalysisRecord.t)
    (E E' : list ExecutionRecord.t) :
  Permutation A A' -> Permutation E E' -> realmLeft realm A E = realmLeft realm A' E'.
Proof.
  intros HA HE. unfold realmLeft, pollutes.
  rewrite (existsb_Permutation _ _ _ HA), (existsb_Permutation _ _ _ HE).
  reflexivity.
Qed.

(** *** A record more *)

Lemma filter_middle {A : Type} (p : A -> bool) (l1 l2 : list A) (r : A) :
  List.filter p (l1 ++ r :: l2)
  = List.filter p l1 ++ (if p r then [r] else []) ++ List.filter p l2.
Proof.
  rewrite List.filter_app. cbn [List.filter]. destruct (p r); reflexivity.
Qed.

Lemma countOf_middle {A : Type} (l1 l2 : list A) (r : A) :
  countOf (l1 ++ r :: l2) = (countOf (l1 ++ l2) + 1)%float.
Proof.
  unfold countOf. rewrite !List.length_app. cbn [length].
  rewrite Nat.add_succ_r. reflexivity.
Qed.

Lemma promptsOf_entry (u : string) (report : list (string * ReportData.t))
    (A : list AnalysisRecord.t) (E : list ExecutionRecord.t) :
  getOwn u report = entryOf u A E -> promptsOf u report = countOf (analysisOf u A).
Proof.
  intros H. unfold promptsOf. rewrite H. unfold entryOf.
  destruct (analysisOf u A), (executionsOf u E); reflexivity.
Qed.

Lemma executionsShown_entry (u : string) (report : list (string * ReportData.t))
    (A : list AnalysisRecord.t) (E : list ExecutionRecord.t) :
  getOwn u report = entryOf u A E ->
  executionsShown u report = countOf (executionsOf u E).
Proof.
  intros H. unfold executionsShown. rewrite H. unfold entryOf.
  destruct (analysisOf u A), (executionsOf u E); reflexivity.
Qed.

Lemma Forall_middle {A : Type} (P : A -> Prop) (l1 l2 : list A) (r : A) :
  Forall P (l1 ++ r :: l2) -> Forall P (l1 ++ l2).
Proof.
  rewrite !Forall_app. intros [H1 H2]. inversion H2; subst. split; assumption.
Qed.

Section Zone.
Variable LocalTZA : Z -> bool -> Z.
Variables (now : Z) (period : Period).

(** A record stamped before the start of the window leaves the report as it
    is without the record. *)
Lemma analysis_record_ignored (realm : Realm) (l1 l2 : list AnalysisRecord.t)
    (E : list ExecutionRecord.t) (r : AnalysisRecord.t) :
  AnalysisRecord.timestamp r < startTime LocalTZA now period ->
  calculateReportData LocalTZA realm now (l1 ++ r :: l2) E period
  = calculateReportData LocalTZA realm now (l1 ++ l2) E period.
Proof.
  intros Hts. unfold calculateReportData, filteredAnalysisHistory.
  rewrite filter_middle, List.filter_app.
  destruct (Z.geb_spec (AnalysisRecord.timestamp r) (startTime LocalTZA now period));
    [lia|reflexivity].
Qed.

Lemma execution_record_ignored (realm : Realm) (A : list AnalysisRecord.t)
    (l1 l2 : list ExecutionRecord.t) (r : ExecutionRecord.t) :
  ExecutionRecord.timestamp r < startTime LocalTZA now period ->
  calculateReportData LocalTZA realm now A (l1 ++ r :: l2) period
  = calculateReportData LocalTZA realm now A (l1 ++ l2) period.
Proof.
  intros Hts. unfold calculateReportData, filteredExecHistory.
  rewrite filter_middle, List.filter_app.
  destruct (Z.geb_spec (ExecutionRecord.timestamp r) (startTime LocalTZA now period));
    [lia|reflexivity].
Qed.

(** A record stamped at or after the start of the window is counted. *)
Lemma analysis_record_counted (l1 l2 : list AnalysisRecord.t)
    (E : list ExecutionRecord.t) (r : AnalysisRecord.t) :
  startTime LocalTZA now period <= AnalysisRecord.timestamp r ->
  inherited (AnalysisRecord.username r) = false ->
  Forall (fun r => AnalysisRecord.username r <> "__proto__") (l1 ++ r :: l2) ->
  Forall (fun r => ExecutionRecord.username r <> "__proto__") E ->
  countsPrompt (AnalysisRecord.username r)
    (calculateReportData LocalTZA ∅ now (l1 ++ r :: l2) E period)
    (calculateReportData LocalTZA ∅ now (l1 ++ l2) E period).
Proof.
  intros Hts Hu HA HE.
  destruct (report_returns LocalTZA now (l1 ++ r :: l2) E period)
    as [report Hret]; try (apply Forall_filter_keep; assumption).
  destruct (report_returns LocalTZA now (l1 ++ l2) E period)
    as [report' Hret'];
    try (apply Forall_filter_keep; try assumption; eapply Forall_middle; eassumption).
  exists report, report'. rewrite Hret, Hret'.
  split; [reflexivity|]. split; [reflexivity|].
  destruct (report_lookup LocalTZA ∅ now (l1 ++ r :: l2) E period report)
    as [_ Hlook]; [rewrite Hret; reflexivity|].
  destruct (report_lookup LocalTZA ∅ now (l1 ++ l2) E period report')
    as [_ Hlook']; [rewrite Hret'; reflexivity|].
  specialize (Hlook (AnalysisRecord.username r)).
  specialize (Hlook' (AnalysisRecord.username r)).
  rewrite Hu in Hlook, Hlook'.
  assert (Hof : analysisOf (AnalysisRecord.username r)
                  (filteredAnalysisHistory LocalTZA now (l1 ++ r :: l2) period)
                = analysisOf (AnalysisRecord.username r)
                    (filteredAnalysisHistory LocalTZA now l1 period)
                  ++ r :: analysisOf (AnalysisRecord.username r)
                            (filteredAnalysisHistory LocalTZA now l2 period)).
  { unfold filteredAnalysisHistory, analysisOf. rewrite filter_middle.
    destruct (Z.geb_spec (AnalysisRecord.timestamp r)
                (startTime LocalTZA now period)); [|lia].
    rewrite !List.filter_app. cbn [List.filter app].
    rewrite String.eqb_refl. reflexivity. }
  assert (Hof' : analysisOf (AnalysisRecord.username r)
                   (filteredAnalysisHistory LocalTZA now (l1 ++ l2) period)
                 = analysisOf (AnalysisRecord.username r)
                     (filteredAnalysisHistory LocalTZA now l1 period)
                   ++ analysisOf (AnalysisRecord.username r)
                        (filteredAnalysisHistory LocalTZA now l2 period)).
  { unfold filteredAnalysisHistory, analysisOf. rewrite !List.filter_app. reflexivity. }
  split.
  - rewrite Hlook. unfold entryOf. rewrite Hof.
    destruct (analysisOf _ (filteredAnalysisHistory LocalTZA now l1 period));
      eexists; reflexivity.
  - rewrite (promptsOf_entry _ _ _ _ Hlook), (promptsOf_entry _ _ _ _ Hlook').
    rewrite Hof, Hof'. apply countOf_middle.
Qed.

Lemma execution_record_counted (A : list AnalysisRecord.t)
    (l1 l2 : list ExecutionRecord.t) (r : ExecutionRecord.t) :
  startTime LocalTZA now period <= ExecutionRecord.timestamp r ->
  inherited (ExecutionRecord.username r) = false ->
  Forall (fun r => AnalysisRecord.username r <> "__proto__") A ->
  Forall (fun r => ExecutionRecord.username r <> "__proto__") (l1 ++ r :: l2) ->
  countsExecution (ExecutionRecord.username r)
    (calculateReportData LocalTZA ∅ now A (l1 ++ r :: l2) period)
    (calculateReportData LocalTZA ∅ now A (l1 ++ l2) period).
Proof.
  intros Hts Hu HA HE.
  destruct (report_returns LocalTZA now A (l1 ++ r :: l2) period)
    as [report Hret]; try (apply Forall_filter_keep; assumption).
  destruct (report_returns LocalTZA now A (l1 ++ l2) period)
    as [report' Hret'];
    try (apply Forall_filter_keep; try assumption; eapply Forall_middle; eassumption).
  exists report, report'. rewrite Hret, Hret'.
  split; [reflexivity|]. split; [reflexivity|].
  destruct (report_lookup LocalTZA ∅ now A (l1 ++ r :: l2) period report)
    as [_ Hlook]; [rewrite Hret; reflexivity|].
  destruct (report_lookup LocalTZA ∅ now A (l1 ++ l2) period report')
    as [_ Hlook']; [rewrite Hret'; reflexivity|].
  specialize (Hlook (ExecutionRecord.username r)).
  specialize (Hlook' (ExecutionRecord.username r)).
  rewrite Hu in Hlook, Hlook'.
  assert (Hof : executionsOf (ExecutionRecord.username r)
                  (filteredExecHistory LocalTZA now (l1 ++ r :: l2) period)
                = executionsOf (ExecutionRecord.username r)
                    (filteredExecHistory LocalTZA now l1 period)
                  ++ r :: executionsOf (ExecutionRecord.username r)
                            (filteredExecHistory LocalTZA now l2 period)).
  { unfold filteredExecHistory, executionsOf. rewrite filter_middle.
    destruct (Z.geb_spec (ExecutionRecord.timestamp r)
                (startTime LocalTZA now period)); [|lia].
    rewrite !List.filter_app. cbn [List.filter app].
    rewrite String.eqb_refl. reflexivity. }
  assert (Hof' : executionsOf (ExecutionRecord.username r)
                   (filteredExecHistory LocalTZA now (l1 ++ l2) period)
                 = executionsOf (ExecutionRecord.username r)
                     (filteredExecHistory LocalTZA now l1 period)
                   ++ executionsOf (ExecutionRecord.username r)
                        (filteredExecHistory LocalTZA now l2 period)).
  { unfold filteredExecHistory, executionsOf. rewrite !List.filter_app. reflexivity. }
  split.
  - rewrite Hlook. unfold entryOf. rewrite Hof.
    destruct (analysisOf _ _),
      (executionsOf _ (filteredExecHistory LocalTZA now l1 period));
      eexists; reflexivity.
  - rewrite (executionsShown_entry _ _ _ _ Hlook),
      (executionsShown_entry _ _ _ _ Hlook').
    rewrite Hof, Hof'. apply countOf_middle.
Qed.

End Zone.

(** *** Records that keep their savings *)




(** *** Histories in another order *)

Lemma sameEntries_executions_Permutation (LocalTZA : Z -> bool -> Z)
    (realm : Realm) (now : Z) (A : list AnalysisRecord.t)
    (E E' : list ExecutionRecord.t) (period : Period) :
  Permutation E E' ->
  sameEntries (fst (calculateReportData LocalTZA realm now A E period))
    (fst (calculateReportData LocalTZA realm now A E' period))
  /\ snd (calculateReportData LocalTZA realm now A E period)
     = snd (calculateReportData LocalTZA realm now A E' period).
Proof.
  intros HE. apply calculateReportData_entries.
  - intros u _. apply entryOf_executions_Permutation.
    apply Permutation_filter_keep. exact HE.
  - apply realmLeft_Permutation; [reflexivity|].
    apply Permutation_filter_keep. exact HE.
Qed.


End ReportFacts.
(** ** The report: claims *)

Module ReportClaims.
Import JSDate JSDateFacts JSNumber JSObject Report ReportSpec ObjectFacts
  NumberFacts ReportFacts WindowFacts.

(** C2.  The report is to hold one entry for every username of a qualifying
    record.  A user called [constructor] gets none: [report["constructor"]]
    is the inherited [Object], which is truthy, so no entry is created and the
    four sums land on that function.  The same record under the name
    [alice] is counted, and under [__proto__] the call throws. *)
Theorem calculateReportData_skips_inherited_names :
  let record := fun username => AnalysisRecord.mk (Some 1) username 1000 100 40 60 in
  calculateReportData (constantZone 0) ∅ 2000 [record "constructor"] [] all
  = (Returned [], ∅)
  /\ fst (calculateReportData (constantZone 0) ∅ 2000 [record "alice"] [] all)
     = Returned [("alice", costSavings (ReportData.mk 1 100 40 60 0 0))]
  /\ fst (calculateReportData (constantZone 0) ∅ 2000 [record "__proto__"] [] all)
     = TypeError.
Proof.
  cbv zeta. repeat split; vm_compute; reflexivity.
Qed.

(** C3.  A record is to be in the report whenever its timestamp is not
    before the start of the window.  On Sunday 2 June 2024 at noon (UTC) a
    record written ten minutes earlier is not before the start of any of the
    five windows; filed under [constructor] it is in none of the five
    reports, which come back empty, while the same record filed under
    [alice] is in all five. *)
Theorem window_leaves_out_inherited_names :
  forall period : Period,
    startTime (constantZone 0) 1717329600000 period <= 1717329000000
    /\ calculateReportData (constantZone 0) ∅ 1717329600000
         [AnalysisRecord.mk (Some 1) "constructor" 1717329000000 100 40 60] []
         period
       = (Returned [], ∅)
    /\ calculateReportData (constantZone 0) ∅ 1717329600000
         [AnalysisRecord.mk (Some 1) "alice" 1717329000000 100 40 60] []
         period
       = (Returned [("alice", costSavings (ReportData.mk 1 100 40 60 0 0))], ∅).
Proof.
  intros period. destruct period; repeat split; vm_compute;
    solve [reflexivity | discriminate].
Qed.

(** C4.  Every entry of a returned report has
    [estimatedCostSavings = (totalSavings / 1_000_000) * 0.35], computed in
    binary64; the two records of user [a] (100 to 40, 120 to 100), over
    the all-time window, give 2, 220, 140, 80 and the double [0.000028];
    and a report is returned whenever no record is filed under [__proto__]
    (in a realm nobody has written to). *)
Theorem estimatedCostSavings_of_totalSavings :
  (forall (LocalTZA : Z -> bool -> Z) (realm : Realm) (now : Z)
          (analysisHistory : list AnalysisRecord.t)
          (executionHistory : list ExecutionRecord.t) (period : Period)
          (report : list (string * ReportData.t)),
      fst (calculateReportData LocalTZA realm now analysisHistory
             executionHistory period) = Returned report ->
      forall (u : string) (d : ReportData.t),
        In (u, d) report ->
        ReportData.estimatedCostSavings d
        = ((ReportData.totalSavings d / 1000000) * 0.35)%float)
  /\ (forall (LocalTZA : Z -> bool -> Z) (now t1 t2 : Z) (id1 id2 : option Z),
        0 <= t1 -> 0 <= t2 ->
        calculateReportData LocalTZA ∅ now
          [ AnalysisRecord.mk id1 "a" t1 100 40 60;
            AnalysisRecord.mk id2 "a" t2 120 100 20 ] [] all
        = (Returned [("a", ReportData.mk 2 220 140 80 0 0.000028)], ∅))
  /\ (forall (LocalTZA : Z -> bool -> Z) (now : Z)
             (analysisHistory : list AnalysisRecord.t)
             (executionHistory : list ExecutionRecord.t) (period : Period),
        Forall (fun r => AnalysisRecord.username r <> "__proto__") analysisHistory ->
        Forall (fun r => ExecutionRecord.username r <> "__proto__") executionHistory ->
        exists report,
          calculateReportData LocalTZA ∅ now analysisHistory executionHistory period
          = (Returned report, ∅)).
Proof.
  split; [|split].
  - intros LocalTZA realm now analysisHistory executionHistory period report Hret u d Hd.
    destruct (report_entry _ _ _ _ _ _ _ _ _ Hret Hd) as [_ ->].
    reflexivity.
  - intros LocalTZA now t1 t2 id1 id2 H1 H2.
    unfold calculateReportData, filteredAnalysisHistory, filteredExecHistory.
    cbn [List.filter startTime AnalysisRecord.timestamp].
    assert ((t1 >=? 0) = true) as -> by lia.
    assert ((t2 >=? 0) = true) as -> by lia.
    vm_compute. reflexivity.
  - intros LocalTZA now analysisHistory executionHistory period HA HE.
    apply report_returns; apply Forall_filter_keep; assumption.
Qed.

Lemma estimatedCostSavings_of_totalSavings_witness :
  calculateReportData (constantZone 0) ∅ 1717329600000
    [ AnalysisRecord.mk (Some 1) "a" 1717000000000 100 40 60;
      AnalysisRecord.mk (Some 2) "a" 1717000000001 120 100 20 ] [] all
  = (Returned [("a", ReportData.mk 2 220 140 80 0 0.000028)], ∅).
Proof.
  apply (proj1 (proj2 estimatedCostSavings_of_totalSavings)); lia.
Defined.








End ReportClaims.
(** ** The store *)

Module DbFacts.
Import IDB dbService.

Lemma addAnalysisRecord_Resolved (engine : Engine) (now : Z) (username : string)
    (analysisResult : AnalysisResult.t) (db db' : Database)
    (record : AnalysisRecord.t) :
  addAnalysisRecord engine now username analysisResult db = (Resolved record, db') ->
  record
  = AnalysisRecord.mk (Some (keyGenerator (analysisHistory db))) username now
      (AnalysisResult.originalTokenCount analysisResult)
      (AnalysisResult.optimizedTokenCount analysisResult)
      (AnalysisResult.originalTokenCount analysisResult
       - AnalysisResult.optimizedTokenCount analysisResult)
  /\ db'
     = mkDB (users db)
         (mkStore (records (analysisHistory db) ++ [record])
            (keyGenerator (analysisHistory db) + 1))
         (executionHistory db).
Proof.
  unfold addAnalysisRecord, transaction, history_add, store_add, no_index.
  destruct (engine HISTORY_STORE); cbn; intros H; [|discriminate].
  injection H as <- <-. split; reflexivity.
Qed.

Lemma addAnalysisRecord_healthy (now : Z) (username : string)
    (analysisResult : AnalysisResult.t) (db : Database) :
  exists record db',
    addAnalysisRecord healthy now username analysisResult db = (Resolved record, db').
Proof.
  unfold addAnalysisRecord, transaction, history_add, store_add, no_index, healthy.
  cbn. eexists. eexists. reflexivity.
Qed.




End DbFacts.

Module DbClaims.
Import IDB dbService DbFacts.



Lemma name_unique_false (name : string) (now : Z) (l : list UserProfile.t) :
  In name (map UserProfile.name l) ->
  name_unique (UserProfile.mk None name now) l = false.
Proof.
  intros Hin. unfold name_unique. apply negb_false_iff, existsb_exists.
  apply in_map_iff in Hin as (v & Hv & Hin).
  exists v. split; [exact Hin|]. cbn. apply String.eqb_eq. exact Hv.
Qed.

Lemma name_unique_true (name : string) (now : Z) (l : list UserProfile.t) :
  ~ In name (map UserProfile.name l) ->
  name_unique (UserProfile.mk None name now) l = true.
Proof.
  intros Hin. unfold name_unique. apply negb_true_iff.
  destruct (existsb _ l) eqn:He; [|reflexivity].
  exfalso. apply Hin. apply existsb_exists in He as (v & Hv & Heq).
  cbn in Heq. apply String.eqb_eq in Heq. apply in_map_iff. exists v. auto.
Qed.

Lemma addUser_duplicate (engine : Engine) (now : Z) (name : string) (db : Database) :
  In name (names db) ->
  addUser engine now name db = (Rejected (Error (duplicate_message name)), db).
Proof.
  intros Hin. unfold addUser, transaction, users_add, store_add.
  destruct (engine USER_STORE); cbn [negb]; [|reflexivity].
  rewrite (name_unique_false name now _ Hin). reflexivity.
Qed.

Lemma addUser_fresh (now : Z) (name : string) (db : Database) :
  ~ In name (names db) ->
  addUser healthy now name db
  = (Resolved (UserProfile.mk (Some (keyGenerator (users db))) name now),
     mkDB (mkStore (records (users db)
                    ++ [UserProfile.mk (Some (keyGenerator (users db))) name now])
             (keyGenerator (users db) + 1))
       (analysisHistory db) (executionHistory db)).
Proof.
  intros Hin. unfold addUser, transaction, users_add, store_add, healthy.
  cbn [negb]. rewrite (name_unique_true name now _ Hin). reflexivity.
Qed.

(** C5.  [addUser] is rejected with the duplicate-user error, and changes
    nothing, when a profile has exactly the given name.  From a store
    holding neither of two distinct names, adding the first and the second
    succeeds, each call returning the profile with the generated id and
    [createdAt = now]; adding the first again is rejected. *)
Theorem addUser_unique_name :
  (forall (engine : Engine) (now : Z) (name : string) (db : Database),
      In name (names db) ->
      addUser engine now name db = (Rejected (Error (duplicate_message name)), db))
  /\ (forall (now1 now2 now3 : Z) (n1 n2 : string) (db : Database),
        n1 <> n2 -> ~ In n1 (names db) -> ~ In n2 (names db) ->
        exists db1 db2,
          addUser healthy now1 n1 db
          = (Resolved (UserProfile.mk (Some (keyGenerator (users db))) n1 now1), db1)
          /\ addUser healthy now2 n2 db1
             = (Resolved (UserProfile.mk (Some (keyGenerator (users db) + 1)) n2 now2),
                db2)
          /\ records (users db2)
             = records (users db)
               ++ [ UserProfile.mk (Some (keyGenerator (users db))) n1 now1;
                    UserProfile.mk (Some (keyGenerator (users db) + 1)) n2 now2 ]
          /\ addUser healthy now3 n1 db2
             = (Rejected (Error (duplicate_message n1)), db2)).
Proof.
  split; [exact addUser_duplicate|].
  intros now1 now2 now3 n1 n2 db Hne H1 H2.
  eexists. eexists.
  split; [apply addUser_fresh; exact H1|].
  split.
  { rewrite addUser_fresh.
    - reflexivity.
    - unfold names. cbn [users records]. rewrite map_app, in_app_iff.
      intros [H|[H|[]]]; [exact (H2 H)|]. cbn in H. congruence. }
  split.
  { cbn [users records]. rewrite <- app_assoc. reflexivity. }
  apply addUser_duplicate. unfold names. cbn [users records].
  rewrite !map_app, !in_app_iff. left. right. left. reflexivity.
Qed.

Lemma addUser_unique_name_witness :
  "Bob" <> "bob" /\ ~ In "Bob" (names emptyDatabase) /\ ~ In "bob" (names emptyDatabase)
  /\ exists db1 db2,
      addUser healthy 10 "Bob" emptyDatabase = (Resolved (UserProfile.mk (Some 1) "Bob" 10), db1)
      /\ addUser healthy 20 "bob" db1
         = (Resolved (UserProfile.mk (Some (1 + 1)) "bob" 20), db2)
      /\ records (users db2)
         = [] ++ [UserProfile.mk (Some 1) "Bob" 10;
                  UserProfile.mk (Some (1 + 1)) "bob" 20]
      /\ addUser healthy 30 "Bob" db2
         = (Rejected (Error (duplicate_message "Bob")), db2).
Proof.
  assert (Hne : "Bob" <> "bob") by discriminate.
  assert (H1 : ~ In "Bob" (names emptyDatabase)) by (intros []).
  assert (H2 : ~ In "bob" (names emptyDatabase)) by (intros []).
  split; [exact Hne|]. split; [exact H1|]. split; [exact H2|].
  exact (proj2 addUser_unique_name 10 20 30 "Bob" "bob" emptyDatabase Hne H1 H2).
Defined.

(** C7.  [clearAllData] runs its three [clear()] requests in one
    transaction: either it resolves and the three stores then read back
    empty, or it is rejected and the database is what it was.  With an
    engine that refuses nothing it resolves. *)
Theorem clearAllData_all_or_nothing :
  forall (engine : Engine) (localeCompare : string -> string -> Z) (db : Database),
    ((exists db',
         clearAllData engine db = (Resolved tt, db')
         /\ getAllUsers healthy localeCompare db' = Resolved []
         /\ getAllHistory healthy db' = Resolved []
         /\ getAllExecutionHistory healthy db' = Resolved [])
     \/ (exists reason, clearAllData engine db = (Rejected reason, db)))
    /\ (exists db', clearAllData healthy db = (Resolved tt, db')).
Proof.
  intros engine localeCompare db. split.
  - unfold clearAllData, transaction, bind, users_clear, history_clear,
      execution_clear, store_clear.
    destruct (engine USER_STORE); cbn; [|right; eexists; reflexivity].
    destruct (engine HISTORY_STORE); cbn; [|right; eexists; reflexivity].
    destruct (engine EXECUTION_STORE); cbn; [|right; eexists; reflexivity].
    left. eexists. split; [reflexivity|]. repeat split; reflexivity.
  - eexists. reflexivity.
Qed.

Section SortFacts.
Context {A : Type} (compareFn : A -> A -> Z).
Hypothesis compareFn_total : forall a b, 0 < compareFn a b -> compareFn b a < 0.
Hypothesis compareFn_trans :
  forall a b c, compareFn a b <= 0 -> compareFn b c <= 0 -> compareFn a c <= 0.

Lemma sort_insert_perm (x : A) (l : list A) :
  Permutation (sort_insert compareFn x l) (x :: l).
Proof.
  induction l as [|y l IH]; cbn [sort_insert]; [reflexivity|].
  destruct (compareFn x y <=? 0); [reflexivity|].
  rewrite IH. apply perm_swap.
Qed.

Lemma Array_sort_perm (l : list A) : Permutation (Array_sort compareFn l) l.
Proof.
  induction l as [|x l IH]; cbn [Array_sort]; [reflexivity|].
  rewrite sort_insert_perm. apply perm_skip. exact IH.
Qed.

Lemma sort_insert_sorted (x : A) (l : list A) :
  StronglySorted (fun a b => compareFn a b <= 0) l ->
  StronglySorted (fun a b => compareFn a b <= 0) (sort_insert compareFn x l).
Proof.
  induction 1 as [|y l Hs IH Hy]; cbn [sort_insert].
  - constructor; constructor.
  - destruct (Z.leb_spec (compareFn x y) 0) as [Hle|Hgt].
    + constructor; [constructor; assumption|].
      constructor; [exact Hle|].
      rewrite List.Forall_forall in Hy |- *.
      intros z Hz. apply (compareFn_trans x y z Hle). apply Hy. exact Hz.
    + constructor; [exact IH|].
      rewrite List.Forall_forall in Hy |- *.
      intros z Hz.
      apply (Permutation_in _ (sort_insert_perm x l)) in Hz as [<-|Hz].
      * pose proof (compareFn_total x y Hgt). lia.
      * apply Hy. exact Hz.
Qed.

Lemma Array_sort_sorted (l : list A) :
  StronglySorted (fun a b => compareFn a b <= 0) (Array_sort compareFn l).
Proof.
  induction l as [|x l IH]; cbn [Array_sort]; [constructor|].
  apply sort_insert_sorted. exact IH.
Qed.

End SortFacts.

Lemma ascii_compare_refl (c : ascii) : Ascii.compare c c = Eq.
Proof. unfold Ascii.compare. apply N.compare_refl. Qed.

Lemma string_compare_refl (s : string) : String.compare s s = Eq.
Proof.
  induction s as [|c s IH]; cbn; [reflexivity|].
  rewrite ascii_compare_refl. exact IH.
Qed.

Lemma string_compare_lt_trans (a b c : string) :
  String.compare a b = Lt -> String.compare b c = Lt -> String.compare a c = Lt.
Proof.
  revert b c. induction a as [|x a IH]; intros [|y b] [|z c]; cbn;
    try discriminate; try reflexivity.
  unfold Ascii.compare.
  destruct (N.compare_spec (N_of_ascii x) (N_of_ascii y)) as [Hxy|Hxy|Hxy];
    destruct (N.compare_spec (N_of_ascii y) (N_of_ascii z)) as [Hyz|Hyz|Hyz];
    try discriminate; intros H1 H2.
  - rewrite Hxy, Hyz, N.compare_refl. exact (IH _ _ H1 H2).
  - rewrite Hxy. apply N.compare_lt_iff in Hyz. rewrite Hyz. reflexivity.
  - rewrite <- Hyz. apply N.compare_lt_iff in Hxy. rewrite Hxy. reflexivity.
  - assert (Hxz : (N_of_ascii x < N_of_ascii z)%N) by lia.
    apply N.compare_lt_iff in Hxz. rewrite Hxz. reflexivity.
Qed.

Lemma string_compare_le_trans (a b c : string) :
  String.compare a b <> Gt -> String.compare b c <> Gt -> String.compare a c <> Gt.
Proof.
  intros H1 H2.
  destruct (String.compare a b) eqn:Hab; [| |contradiction].
  - apply String.compare_eq_iff in Hab as ->. exact H2.
  - destruct (String.compare b c) eqn:Hbc; [| |contradiction].
    + apply String.compare_eq_iff in Hbc as <-. rewrite Hab. discriminate.
    + rewrite (string_compare_lt_trans a b c Hab Hbc). discriminate.
Qed.

Lemma localeCompare_le (a b : string) :
  Collation.localeCompare a b <= 0
  <-> String.compare (Collation.toLowerCase a) (Collation.toLowerCase b) = Lt
      \/ (String.compare (Collation.toLowerCase a) (Collation.toLowerCase b) = Eq
          /\ String.compare b a <> Gt).
Proof.
  unfold Collation.localeCompare.
  destruct (String.compare (Collation.toLowerCase a) (Collation.toLowerCase b));
    cbn [Collation.sign].
  - destruct (String.compare b a); cbn [Collation.sign]; split;
      try lia; try (intros _; right; split; [reflexivity|discriminate]).
    intros [H|[_ H]]; [discriminate|contradiction].
  - split; [intros _; left; reflexivity|lia].
  - split; [lia|]. intros [H|[H _]]; discriminate.
Qed.

Lemma localeCompare_consistent : Collation.consistent Collation.localeCompare.
Proof.
  split.
  - intros a b. unfold Collation.localeCompare.
    rewrite (String.compare_antisym (Collation.toLowerCase a) (Collation.toLowerCase b)).
    rewrite (String.compare_antisym b a).
    destruct (String.compare (Collation.toLowerCase b) (Collation.toLowerCase a));
      cbn [CompOpp Collation.sign]; try lia.
    destruct (String.compare a b); cbn [CompOpp Collation.sign]; lia.
  - intros a b c. rewrite !localeCompare_le.
    intros [Hab|[Hab Hba]] [Hbc|[Hbc Hcb]].
    + left. exact (string_compare_lt_trans _ _ _ Hab Hbc).
    + left. apply String.compare_eq_iff in Hbc. rewrite <- Hbc. exact Hab.
    + left. apply String.compare_eq_iff in Hab. rewrite Hab. exact Hbc.
    + right. apply String.compare_eq_iff in Hab. apply String.compare_eq_iff in Hbc.
      split; [rewrite Hab, Hbc; apply string_compare_refl|].
      exact (string_compare_le_trans c b a Hcb Hba).
Qed.

(** C6.  [getAllUsers] gives every stored profile, in ascending order of
    name under the comparison [localeCompare], and the empty list for an
    empty store; with the letter order of the Latin-script locales, the
    names Bob, alice and Zoe come back as alice, Bob, Zoe. *)
Theorem getAllUsers_sorted_by_name :
  (forall (localeCompare : string -> string -> Z) (db : Database),
      Collation.consistent localeCompare ->
      exists result,
        getAllUsers healthy localeCompare db = Resolved result
        /\ Permutation result (records (users db))
        /\ StronglySorted
             (fun a b => localeCompare (UserProfile.name a) (UserProfile.name b) <= 0)
             result)
  /\ (forall (localeCompare : string -> string -> Z) (db : Database),
        records (users db) = [] ->
        getAllUsers healthy localeCompare db = Resolved [])
  /\ (forall now1 now2 now3 : Z,
        getAllUsers healthy Collation.localeCompare
          (run [ (healthy, now1, CallAddUser "Bob");
                 (healthy, now2, CallAddUser "alice");
                 (healthy, now3, CallAddUser "Zoe") ] emptyDatabase)
        = Resolved [ UserProfile.mk (Some 2) "alice" now2;
                     UserProfile.mk (Some 1) "Bob" now1;
                     UserProfile.mk (Some 3) "Zoe" now3 ]).
Proof.
  split; [|split].
  - intros localeCompare db [Htotal Htrans].
    unfold getAllUsers, transaction, users_getAll, store_getAll, healthy.
    cbn [negb]. eexists. split; [reflexivity|]. split.
    + apply Array_sort_perm.
    + apply Array_sort_sorted.
      * intros a b. apply Htotal.
      * intros a b c. apply Htrans.
  - intros localeCompare db Hempty.
    unfold getAllUsers, transaction, users_getAll, store_getAll, healthy.
    cbn [negb]. rewrite Hempty. reflexivity.
  - intros now1 now2 now3. reflexivity.
Qed.

Lemma getAllUsers_sorted_by_name_witness :
  Collation.consistent Collation.localeCompare
  /\ exists result,
      getAllUsers healthy Collation.localeCompare
        (run [ (healthy, 10, CallAddUser "Bob");
               (healthy, 20, CallAddUser "alice");
               (healthy, 30, CallAddUser "Zoe") ] emptyDatabase)
      = Resolved result
      /\ Permutation result
           (records (users (run [ (healthy, 10, CallAddUser "Bob");
                                  (healthy, 20, CallAddUser "alice");
                                  (healthy, 30, CallAddUser "Zoe") ] emptyDatabase)))
      /\ StronglySorted
           (fun a b => Collation.localeCompare (UserProfile.name a)
                         (UserProfile.name b) <= 0)
           result.
Proof.
  split; [exact localeCompare_consistent|].
  exact (proj1 getAllUsers_sorted_by_name Collation.localeCompare _
           localeCompare_consistent).
Defined.

End DbClaims.

(** ** Export *)

Module CsvFacts.
Import JSNumber Report CsvSpec.

Lemma append_cons (x : ascii) (a b : string) :
  String x a +:+ b = String x (a +:+ b).
Proof. reflexivity. Qed.

Lemma append_empty_l (a : string) : EmptyString +:+ a = a.
Proof. reflexivity. Qed.

Lemma append_assoc (a b c : string) : (a +:+ b) +:+ c = a +:+ (b +:+ c).
Proof.
  induction a as [|x a IH]; [reflexivity|].
  rewrite !append_cons, IH. reflexivity.
Qed.

Lemma append_empty_r (a : string) : a +:+ EmptyString = a.
Proof.
  induction a as [|x a IH]; [reflexivity|].
  rewrite append_cons, IH. reflexivity.
Qed.

Lemma string_forall_app (P : ascii -> bool) (a b : string) :
  string_forall P (a +:+ b) = string_forall P a && string_forall P b.
Proof.
  induction a as [|x a IH]; [reflexivity|].
  rewrite append_cons. cbn [string_forall]. rewrite IH. apply andb_assoc.
Qed.

Lemma special_false (c : ascii) :
  special c = false ->
  Ascii.eqb c dquote = false /\ Ascii.eqb c comma = false
  /\ Ascii.eqb c linefeed = false.
Proof.
  unfold special. intros H.
  apply orb_false_iff in H as [H H3]. apply orb_false_iff in H as [H1 H2]. auto.
Qed.

(** An unquoted field is read up to its end. *)
Lemma parse_unquoted (f rest field : string) (record : list string)
    (table : list (list string)) :
  plain f ->
  parse (f +:+ rest) Unquoted field record table
  = parse rest Unquoted (field +:+ f) record table.
Proof.
  unfold plain. revert field.
  induction f as [|c f IH]; intros field Hf; rewrite ?append_cons, ?append_empty_l.
  - rewrite append_empty_r. reflexivity.
  - cbn [string_forall] in Hf. apply andb_prop in Hf as [Hc Hf].
    apply negb_true_iff, special_false in Hc as (H1 & H2 & H3).
    cbn [parse]. rewrite H1, H2, H3, (IH _ Hf), append_assoc. reflexivity.
Qed.

Lemma parse_field_comma (f rest : string) (record : list string)
    (table : list (list string)) :
  plain f ->
  parse (f +:+ String comma rest) FieldStart EmptyString record table
  = parse rest FieldStart EmptyString (record ++ [f]) table.
Proof.
  intros Hf. destruct f as [|c f]; rewrite ?append_cons, ?append_empty_l.
  - reflexivity.
  - unfold plain in Hf. cbn [string_forall] in Hf.
    apply andb_prop in Hf as [Hc Hf].
    apply negb_true_iff, special_false in Hc as (H1 & H2 & H3).
    cbn [parse]. rewrite H1, H2, H3, (parse_unquoted _ _ _ _ _ Hf).
    reflexivity.
Qed.

Lemma parse_field_linefeed (f rest : string) (record : list string)
    (table : list (list string)) :
  plain f ->
  parse (f +:+ String linefeed rest) FieldStart EmptyString record table
  = parse rest FieldStart EmptyString [] (table ++ [record ++ [f]]).
Proof.
  intros Hf. destruct f as [|c f]; rewrite ?append_cons, ?append_empty_l.
  - reflexivity.
  - unfold plain in Hf. cbn [string_forall] in Hf.
    apply andb_prop in Hf as [Hc Hf].
    apply negb_true_iff, special_false in Hc as (H1 & H2 & H3).
    cbn [parse]. rewrite H1, H2, H3, (parse_unquoted _ _ _ _ _ Hf).
    reflexivity.
Qed.

Lemma parse_field_end (f : string) (record : list string)
    (table : list (list string)) :
  plain f ->
  parse f FieldStart EmptyString record table = Some (table ++ [record ++ [f]]).
Proof.
  intros Hf. destruct f as [|c f].
  - reflexivity.
  - unfold plain in Hf. cbn [string_forall] in Hf.
    apply andb_prop in Hf as [Hc Hf].
    apply negb_true_iff, special_false in Hc as (H1 & H2 & H3).
    cbn [parse]. rewrite H1, H2, H3.
    rewrite <- (append_empty_r f) at 1.
    rewrite (parse_unquoted _ _ _ _ _ Hf). reflexivity.
Qed.

(** A quoted field gives back the text whose quotes were doubled. *)
Lemma parse_quoted (u rest field : string) (record : list string)
    (table : list (list string)) :
  parse (replace_quotes u +:+ rest) Quoted field record table
  = parse rest Quoted (field +:+ u) record table.
Proof.
  revert field. induction u as [|c u IH]; intros field; cbn [replace_quotes].
  - rewrite append_empty_l, append_empty_r. reflexivity.
  - destruct (Ascii.eqb c dquote) eqn:Hc.
    + apply Ascii.eqb_eq in Hc as ->.
      rewrite !append_cons. cbn [parse].
      rewrite Ascii.eqb_refl, IH, append_assoc. reflexivity.
    + rewrite append_cons. cbn [parse].
      rewrite Hc, IH, append_assoc. reflexivity.
Qed.

Lemma parse_quoted_field_comma (u rest : string) (record : list string)
    (table : list (list string)) :
  parse ((String dquote (replace_quotes u) +:+ String dquote EmptyString)
         +:+ String comma rest) FieldStart EmptyString record table
  = parse rest FieldStart EmptyString (record ++ [u]) table.
Proof.
  rewrite append_assoc, !append_cons, append_empty_l. cbn [parse].
  rewrite Ascii.eqb_refl, parse_quoted. cbn [parse].
  rewrite Ascii.eqb_refl. reflexivity.
Qed.

Lemma digit_plain (c : ascii) : isDigit c = true -> negb (special c) = true.
Proof.
  intros Hd. apply negb_true_iff. destruct (special c) eqn:Hs; [|reflexivity].
  unfold special in Hs.
  apply orb_prop in Hs as [Hs|Hs]; [apply orb_prop in Hs as [Hs|Hs]|];
    apply Ascii.eqb_eq in Hs; subst c; discriminate Hd.
Qed.

Lemma digits_plain (s : string) : digits s -> plain s.
Proof.
  unfold digits, plain. induction s as [|c s IH]; cbn [string_forall];
    [reflexivity|].
  intros H. apply andb_prop in H as [Hc Hs].
  rewrite (digit_plain c Hc), (IH Hs). reflexivity.
Qed.

Lemma plain_app (a b : string) : plain a -> plain b -> plain (a +:+ b).
Proof.
  unfold plain. intros Ha Hb. rewrite string_forall_app, Ha, Hb. reflexivity.
Qed.

Lemma digits_string_of_uint (d : Decimal.uint) : digits (NilEmpty.string_of_uint d).
Proof. unfold digits. induction d; cbn; auto. Qed.

Lemma digits_NilZero (d : Decimal.uint) : digits (NilZero.string_of_uint d).
Proof.
  unfold NilZero.string_of_uint. destruct d; try apply digits_string_of_uint.
  reflexivity.
Qed.

Lemma nonempty_NilZero (d : Decimal.uint) :
  (1 <= String.length (NilZero.string_of_uint d))%nat.
Proof. destruct d; cbn; lia. Qed.

Lemma decimalText_plain (z : Z) : plain (decimalText z).
Proof.
  unfold decimalText, NilZero.string_of_int.
  destruct (Z.to_int z) as [d|d].
  - apply digits_plain, digits_NilZero.
  - apply (plain_app "-"); [reflexivity|]. apply digits_plain, digits_NilZero.
Qed.

Lemma decimalText_digits (n : Z) :
  0 <= n ->
  digits (decimalText n) /\ (1 <= String.length (decimalText n))%nat.
Proof.
  intros Hn. unfold decimalText, NilZero.string_of_int.
  destruct n as [|p|p]; [| |lia]; cbn [Z.to_int].
  - split; [reflexivity|cbn; lia].
  - split; [apply digits_NilZero|apply nonempty_NilZero].
Qed.

Lemma length_append (a b : string) :
  String.length (a +:+ b) = (String.length a + String.length b)%nat.
Proof.
  induction a as [|x a IH]; [reflexivity|].
  rewrite append_cons. cbn [String.length]. rewrite IH. reflexivity.
Qed.

Lemma length_zeros (n : nat) : String.length (zeros n) = n.
Proof. induction n as [|n IH]; cbn; [reflexivity|]. rewrite IH. reflexivity. Qed.

Lemma digits_zeros (n : nat) : digits (zeros n).
Proof. unfold digits. induction n as [|n IH]; cbn; auto. Qed.

Lemma length_substring (n m : nat) (s : string) :
  (n + m <= String.length s)%nat -> String.length (substring n m s) = m.
Proof.
  revert n m. induction s as [|c s IH]; intros n m H; cbn [String.length] in H.
  - assert (n = 0 /\ m = 0)%nat as [-> ->] by lia. reflexivity.
  - destruct n as [|n]; cbn [substring].
    + destruct m as [|m]; [reflexivity|].
      cbn [String.length]. rewrite IH by lia. reflexivity.
    + apply IH. lia.
Qed.

Lemma forall_substring (P : ascii -> bool) (n m : nat) (s : string) :
  string_forall P s = true -> string_forall P (substring n m s) = true.
Proof.
  revert n m. induction s as [|c s IH]; intros n m H.
  - destruct n, m; reflexivity.
  - cbn [string_forall] in H. apply andb_prop in H as [Hc Hs].
    destruct n as [|n]; cbn [substring].
    + destruct m as [|m]; [reflexivity|].
      cbn [string_forall]. rewrite Hc, (IH 0%nat m Hs). reflexivity.
    + apply IH. exact Hs.
Qed.

Lemma substring_split (n : nat) (s : string) :
  (n <= String.length s)%nat ->
  substring 0 n s +:+ substring n (String.length s - n) s = s.
Proof.
  revert n. induction s as [|c s IH]; intros n H; cbn [String.length] in *.
  - assert (n = 0)%nat as -> by lia. reflexivity.
  - destruct n as [|n].
    + cbn [substring Nat.sub]. rewrite append_empty_l. f_equal.
      specialize (IH 0%nat ltac:(lia)).
      rewrite Nat.sub_0_r in IH.
      destruct s; [reflexivity|]. cbn [substring] in IH.
      rewrite append_empty_l in IH. exact IH.
    + cbn [substring Nat.sub]. rewrite append_cons, IH by lia. reflexivity.
Qed.

(** The digits of [n] with at least one before the point and exactly [f]
    after it. *)
Lemma fixed_digits_shape (f : nat) (n : Z) :
  (0 < f)%nat -> 0 <= n ->
  exists a b,
    fixed_digits f n = a +:+ "." +:+ b
    /\ String.length b = f
    /\ digits a /\ digits b
    /\ (1 <= String.length a)%nat
    /\ (exists pad, a +:+ b = zeros pad +:+ decimalText n)
    /\ (a = "0" \/ exists a', decimalText n = a +:+ a').
Proof.
  intros Hf Hn. unfold fixed_digits.
  destruct f as [|f']; [lia|]. set (f := S f') in *.
  destruct (decimalText_digits n Hn) as [Hd Hl].
  set (m := decimalText n) in *.
  set (m' := if (String.length m <=? f)%nat
             then zeros (f + 1 - String.length m) +:+ m else m).
  assert (Hm' : digits m' /\ (f + 1 <= String.length m')%nat
                /\ (exists pad, m' = zeros pad +:+ m)
                /\ (substring 0 (String.length m' - f) m' = "0"
                    \/ m' = m)).
  { subst m'. destruct (Nat.leb_spec (String.length m) f) as [Hle|Hgt].
    - split; [|split; [|split]].
      + unfold digits. rewrite string_forall_app.
        rewrite (digits_zeros _), Hd. reflexivity.
      + rewrite length_append, length_zeros. lia.
      + eexists. reflexivity.
      + left. rewrite length_append, length_zeros.
        replace (f + 1 - String.length m + String.length m - f)%nat
          with 1%nat by lia.
        replace (f + 1 - String.length m)%nat
          with (S (f - String.length m)) by lia.
        cbn [zeros]. rewrite append_cons. cbn [substring].
        destruct (zeros (f - String.length m) +:+ m); reflexivity.
    - split; [exact Hd|]. split; [lia|].
      split; [exists 0%nat; reflexivity|]. right. reflexivity. }
  destruct Hm' as (Hdm & Hlm & (pad & Hpad) & Hhead).
  pose proof (substring_split (String.length m' - f) m' ltac:(lia)) as Hs.
  replace (String.length m' - (String.length m' - f))%nat with f in Hs by lia.
  exists (substring 0 (String.length m' - f) m').
  exists (substring (String.length m' - f) f m').
  split; [reflexivity|].
  split; [apply length_substring; lia|].
  split; [apply forall_substring; exact Hdm|].
  split; [apply forall_substring; exact Hdm|].
  split; [rewrite length_substring by lia; lia|].
  split; [exists pad; rewrite <- Hpad; exact Hs|].
  destruct Hhead as [H0|Hm]; [left; exact H0|].
  right. eexists. rewrite <- Hm. symmetry. exact Hs.
Qed.

Lemma fixed_digits_plain (n : Z) : 0 <= n -> plain (fixed_digits 6 n).
Proof.
  intros Hn.
  destruct (fixed_digits_shape 6 n ltac:(lia) Hn) as (a & b & -> & _ & Ha & Hb & _).
  apply plain_app; [apply digits_plain; exact Ha|].
  apply (plain_app "."); [reflexivity|]. apply digits_plain; exact Hb.
Qed.

Lemma toFixed_rounded_nonneg (m : positive) (e : Z) (f : nat) :
  0 <= (2 * (Z.pos m * 2 ^ Z.max e 0) * 10 ^ Z.of_nat f + 2 ^ Z.max (- e) 0)
       / (2 * 2 ^ Z.max (- e) 0).
Proof.
  apply Z.div_pos.
  - assert (0 < 2 ^ Z.max e 0) by (apply Z.pow_pos_nonneg; lia).
    assert (0 < 2 ^ Z.max (- e) 0) by (apply Z.pow_pos_nonneg; lia).
    assert (0 < 10 ^ Z.of_nat f) by (apply Z.pow_pos_nonneg; lia).
    nia.
  - assert (0 < 2 ^ Z.max (- e) 0) by (apply Z.pow_pos_nonneg; lia). lia.
Qed.

Lemma Number_toString_plain (engine : float -> string) (x : float) :
  (forall y, plain (engine y)) -> plain (Number_toString engine x).
Proof.
  intros Hfb. unfold Number_toString.
  destruct (Prim2SF x) as [sg| sg| |sg m e]; try reflexivity.
  - destruct sg; reflexivity.
  - destruct (Number_to_Z x) as [z|]; [|apply Hfb].
    destruct (Z.abs z <? 2 ^ 53); [apply decimalText_plain|apply Hfb].
Qed.

Lemma toFixed_plain (engine : float -> string) (x : float) :
  (forall y, plain (engine y)) -> plain (toFixed engine 6 x).
Proof.
  intros Hfb. unfold toFixed.
  destruct (Prim2SF x) as [sg| sg| |sg m e];
    try (apply Number_toString_plain; exact Hfb).
  - apply fixed_digits_plain. lia.
  - destruct (_ <=? _); [apply Number_toString_plain; exact Hfb|].
    apply plain_app; [destruct sg; reflexivity|].
    apply fixed_digits_plain, toFixed_rounded_nonneg.
Qed.

(** *** Decimal digits read back *)

Lemma decimalValue_app (a b : string) (acc : Z) :
  decimalValue (a +:+ b) acc
  = match decimalValue a acc with
    | Some n => decimalValue b n
    | None => None
    end.
Proof.
  revert acc. induction a as [|c a IH]; intros acc; [reflexivity|].
  rewrite append_cons. cbn [decimalValue].
  destruct (digitValue c); [apply IH|reflexivity].
Qed.

Lemma decimalValue_zeros (n : nat) : decimalValue (zeros n) 0 = Some 0.
Proof. induction n as [|n IH]; [reflexivity|]. cbn [zeros decimalValue]. exact IH. Qed.

Lemma decimalValue_uint_acc (d : Decimal.uint) (acc : positive) :
  decimalValue (NilEmpty.string_of_uint d) (Z.pos acc)
  = Some (Z.pos (Pos.of_uint_acc d acc)).
Proof.
  revert acc. induction d; intros acc; [reflexivity|..];
    cbn [NilEmpty.string_of_uint decimalValue Pos.of_uint_acc];
    match goal with
    | |- context [digitValue ?c] =>
        change (digitValue c) with (Some (Z.of_nat (nat_of_ascii c) - 48))
    end;
    cbn [nat_of_ascii]; rewrite <- IHd; f_equal; vm_compute nat_of_ascii; lia.
Qed.

Lemma decimalValue_uint (d : Decimal.uint) :
  decimalValue (NilEmpty.string_of_uint d) 0 = Some (Z.of_N (Pos.of_uint d)).
Proof.
  induction d; [reflexivity|exact IHd|..];
    cbn [NilEmpty.string_of_uint decimalValue Pos.of_uint];
    match goal with
    | |- context [digitValue ?c] =>
        change (digitValue c) with (Some (Z.of_nat (nat_of_ascii c) - 48))
    end;
    cbn [Z.of_N]; rewrite <- decimalValue_uint_acc; reflexivity.
Qed.

(** The digits of [n] write [n]. *)
Lemma decimalValue_decimalText (n : Z) :
  0 <= n -> decimalValue (decimalText n) 0 = Some n.
Proof.
  intros Hn. destruct n as [|p|p]; [reflexivity| |lia].
  unfold decimalText, NilZero.string_of_int, NilZero.string_of_uint.
  cbn [Z.to_int].
  pose proof (DecimalPos.Unsigned.to_uint_nonnil p) as Hnil.
  pose proof (DecimalPos.Unsigned.of_to p) as Hof.
  destruct (Pos.to_uint p) eqn:Hp; [congruence|..];
    rewrite decimalValue_uint, Hof; reflexivity.
Qed.

Lemma nzhead_head (d : Decimal.uint) :
  match Decimal.nzhead d with Decimal.D0 _ => False | _ => True end.
Proof. induction d; cbn [Decimal.nzhead]; auto. Qed.

(** They start with a digit other than 0, unless [n] is 0. *)
Lemma decimalText_head (p : positive) :
  exists c s, decimalText (Z.pos p) = String c s /\ c <> "0"%char.
Proof.
  unfold decimalText, NilZero.string_of_int, NilZero.string_of_uint.
  cbn [Z.to_int].
  pose proof (DecimalPos.Unsigned.to_uint_nonnil p) as Hnil.
  pose proof (DecimalPos.Unsigned.to_uint_nonzero p) as Hnz.
  pose proof (DecimalPos.Unsigned.to_of (Pos.to_uint p)) as Hto.
  rewrite DecimalPos.Unsigned.of_to in Hto. cbn [N.to_uint] in Hto.
  pose proof (nzhead_head (Pos.to_uint p)) as Hhead.
  unfold Decimal.unorm in Hto.
  destruct (Pos.to_uint p) as [|l|l|l|l|l|l|l|l|l|l] eqn:Hp;
    try (eexists; eexists; split; [reflexivity|discriminate]).
  exfalso. cbn [Decimal.nzhead] in Hto, Hhead.
  destruct (Decimal.nzhead l); try discriminate; contradiction.
Qed.

(** The name between the quotes reads back as the name. *)
Lemma unquote_replace_quotes (u : string) : unquote (replace_quotes u) = Some u.
Proof.
  induction u as [|c u IH]; [reflexivity|].
  cbn [replace_quotes]. destruct (Ascii.eqb_spec c dquote) as [->|Hc].
  - cbn [unquote]. rewrite Ascii.eqb_refl, IH. reflexivity.
  - cbn [unquote]. apply Ascii.eqb_neq in Hc. rewrite Hc, IH. reflexivity.
Qed.

(** *** Six decimals *)

Lemma toFixed_rounded (m : positive) (e : Z) :
  let num := Z.pos m * 2 ^ Z.max e 0 in
  let den := 2 ^ Z.max (- e) 0 in
  let n := (2 * num * 10 ^ 6 + den) / (2 * den) in
  (2 * n - 1) * den <= 2 * num * 10 ^ 6 < (2 * n + 1) * den.
Proof.
  intros num den n.
  assert (Hden : 0 < den) by (apply Z.pow_pos_nonneg; lia).
  pose proof (Z.div_mod (2 * num * 10 ^ 6 + den) (2 * den) ltac:(lia)) as Hdm.
  pose proof (Z.mod_pos_bound (2 * num * 10 ^ 6 + den) (2 * den) ltac:(lia)) as Hb.
  fold n in Hdm. nia.
Qed.

(** In its fixed range [toFixed(6)] writes the double with six decimals,
    rounded to the nearest. *)
Lemma toFixed_sixDecimals (engine : float -> string) (x : float) :
  fixedRange x = true -> sixDecimals x (toFixed engine 6 x).
Proof.
  unfold fixedRange, toFixed, sixDecimals.
  destruct (Prim2SF x) as [sg| sg| |sg m e]; try discriminate.
  - intros _. reflexivity.
  - intros Hr. apply negb_true_iff in Hr. rewrite Hr.
    pose proof (toFixed_rounded_nonneg m e 6) as Hn.
    pose proof (toFixed_rounded m e) as Hround. cbv zeta in Hround.
    change (Z.of_nat 6) with 6 in *.
    set (n := (2 * (Z.pos m * 2 ^ Z.max e 0) * 10 ^ 6 + 2 ^ Z.max (- e) 0)
              / (2 * 2 ^ Z.max (- e) 0)) in *.
    destruct (fixed_digits_shape 6 n ltac:(lia) Hn)
      as (a & b & Heq & Hb & Ha & Hdb & Hl & (pad & Hpad) & Hhead).
    exists a, b, n. rewrite Heq.
    split; [reflexivity|]. split; [exact Hb|]. split; [exact Ha|].
    split; [exact Hdb|]. split.
    + destruct Hhead as [H0|[a' Ha']]; [left; exact H0|].
      destruct n as [|p|p]; [|right|lia].
      * left. change (decimalText 0) with "0" in Ha'.
        destruct a as [|c a]; [cbn in Hl; lia|].
        rewrite append_cons in Ha'. injection Ha' as <- Hrest.
        destruct a; [reflexivity|]. rewrite append_cons in Hrest. discriminate.
      * destruct (decimalText_head p) as (c & s & Hs & Hc).
        rewrite Hs in Ha'. destruct a as [|c' a]; [cbn in Hl; lia|].
        rewrite append_cons in Ha'. injection Ha' as <- _.
        exists c, a. split; [reflexivity|exact Hc].
    + split; [|exact Hround].
      rewrite Hpad, decimalValue_app, decimalValue_zeros.
      apply decimalValue_decimalText. exact Hn.
Qed.

(** Outside it, the double is written as [Number::toString] writes it. *)
Lemma toFixed_out_of_range (engine : float -> string) (x : float) :
  fixedRange x = false -> toFixed engine 6 x = Number_toString engine x.
Proof.
  unfold fixedRange, toFixed.
  destruct (Prim2SF x) as [sg| sg| |sg m e]; try discriminate; try reflexivity.
  intros Hr. apply negb_false_iff in Hr. rewrite Hr. reflexivity.
Qed.

(** An integer below 2^53 in magnitude is written with all its digits. *)
Lemma Number_toString_integer (engine : float -> string) (z : Z) :
  Z.abs z < 2 ^ 53 -> Number_toString engine (Number_of_Z z) = decimalText z.
Proof.
  intros Hz. unfold Number_toString.
  rewrite (NumberFacts.Number_to_Z_of_Z z Hz).
  rewrite (NumberFacts.Prim2SF_Number_of_Z z Hz), (NumberFacts.SF_of_Z_cases z Hz).
  apply Z.ltb_lt in Hz.
  destruct z as [|p|p]; [reflexivity| |];
    unfold NumberSpec.normal; rewrite Hz; reflexivity.
Qed.


Lemma concat_cons (sep x y : string) (l : list string) :
  String.concat sep (x :: y :: l) = x +:+ sep +:+ String.concat sep (y :: l).
Proof. reflexivity. Qed.

(** A line of unquoted fields, at the end of the text or before a line
    feed. *)
Lemma parse_plain_fields (fs : list string) :
  Forall plain fs -> fs <> [] ->
  forall (record : list string) (table : list (list string)),
    parse (String.concat "," fs) FieldStart EmptyString record table
    = Some (table ++ [record ++ fs])
    /\ forall rest,
        parse (String.concat "," fs +:+ String linefeed rest) FieldStart
          EmptyString record table
        = parse rest FieldStart EmptyString [] (table ++ [record ++ fs]).
Proof.
  induction 1 as [|f fs Hf Hfs IH]; [congruence|]. intros _ record table.
  destruct fs as [|g fs].
  - cbn [String.concat]. split.
    + apply parse_field_end. exact Hf.
    + intros rest. apply parse_field_linefeed. exact Hf.
  - rewrite concat_cons.
    destruct (IH ltac:(discriminate) (record ++ [f]) table) as [IH1 IH2].
    replace (record ++ f :: g :: fs) with ((record ++ [f]) ++ g :: fs)
      by (rewrite <- app_assoc; reflexivity).
    split.
    + change ("," +:+ String.concat "," (g :: fs))
        with (String comma (String.concat "," (g :: fs))).
      rewrite parse_field_comma by exact Hf. exact IH1.
    + intros rest. rewrite append_assoc.
      change (("," +:+ String.concat "," (g :: fs)) +:+ String linefeed rest)
        with (String comma (String.concat "," (g :: fs) +:+ String linefeed rest)).
      rewrite parse_field_comma by exact Hf. apply IH2.
Qed.

Lemma row_fields_plain (engine : float -> string) (d : ReportData.t) :
  (forall y, plain (engine y)) ->
  Forall plain
    [ Number_toString engine (ReportData.totalPrompts d);
      Number_toString engine (ReportData.totalExecutions d);
      Number_toString engine (ReportData.totalOriginalTokens d);
      Number_toString engine (ReportData.totalOptimizedTokens d);
      Number_toString engine (ReportData.totalSavings d);
      toFixed engine 6 (ReportData.estimatedCostSavings d) ].
Proof.
  intros Hfb.
  repeat (constructor; [apply Number_toString_plain; exact Hfb|]).
  constructor; [apply toFixed_plain; exact Hfb|constructor].
Qed.

(** The line of one user reads back as the user's cells. *)
Lemma parse_row (engine : float -> string) (entry : string * ReportData.t)
    (table : list (list string)) :
  (forall y, plain (engine y)) ->
  parse (String.concat "," (row engine entry)) FieldStart EmptyString [] table
  = Some (table ++ [cells engine entry])
  /\ forall rest,
      parse (String.concat "," (row engine entry) +:+ String linefeed rest)
        FieldStart EmptyString [] table
      = parse rest FieldStart EmptyString [] (table ++ [cells engine entry]).
Proof.
  intros Hfb. destruct entry as [user d]. unfold row, cells. cbn [fst snd].
  rewrite concat_cons.
  destruct (parse_plain_fields _ (row_fields_plain engine d Hfb)
              ltac:(discriminate) [user] table) as [H1 H2].
  split.
  - change ("," +:+ ?x) with (String comma x).
    rewrite parse_quoted_field_comma. exact H1.
  - intros rest. rewrite append_assoc.
    change (("," +:+ ?x) +:+ String linefeed rest)
      with (String comma (x +:+ String linefeed rest)).
    rewrite parse_quoted_field_comma. apply H2.
Qed.

Lemma parse_rows (engine : float -> string) (data : list (string * ReportData.t)) :
  (forall y, plain (engine y)) -> data <> [] ->
  forall table,
    parse (String.concat newline
             (map (fun entry => String.concat "," (row engine entry)) data))
      FieldStart EmptyString [] table
    = Some (table ++ map (cells engine) data).
Proof.
  intros Hfb. induction data as [|entry data IH]; [congruence|]. intros _ table.
  destruct data as [|entry' data].
  - cbn [map String.concat]. apply (parse_row engine entry table Hfb).
  - cbn [map]. rewrite concat_cons.
    change (newline +:+ ?x) with (String linefeed x).
    rewrite (proj2 (parse_row engine entry table Hfb)).
    rewrite (IH ltac:(discriminate)). cbn [map].
    rewrite <- app_assoc. reflexivity.
Qed.

Lemma headers_plain : Forall plain headers.
Proof. repeat constructor. Qed.

(** The line of a user is written as [lineOf] has it. *)
Lemma row_lineOf (engine : float -> string) (entry : string * ReportData.t) :
  lineOf engine entry (String.concat "," (row engine entry)).
Proof.
  destruct entry as [user d]. exists (replace_quotes user).
  split; [|apply unquote_replace_quotes].
  unfold row. cbn [fst snd]. rewrite !concat_cons.
  cbn [String.concat]. rewrite !append_cons, !append_assoc.
  rewrite !append_cons, ?append_empty_l. reflexivity.
Qed.

Lemma rows_lineOf (engine : float -> string) (data : list (string * ReportData.t)) :
  Forall2 (lineOf engine) data
    (map (String.concat ",") (map (row engine) data)).
Proof.
  induction data as [|entry data IH]; [constructor|].
  cbn [map]. constructor; [apply row_lineOf|exact IH].
Qed.

End CsvFacts.
(** ** The export: claims *)

Module ExportClaims.
Import JSNumber Report CsvSpec CsvFacts.

(** C9, as the code has it.  Exporting an empty report only raises the
    alert.  Exporting a report with entries downloads a text whose first
    line is the seven header cells and whose other lines are one per entry,
    in the order of the entries: the user name between double quotes, its
    own double quotes doubled, then the five counters and the cost, with
    commas between.  A cost that is finite and below 10^21 in magnitude is
    written with six decimals, rounded to the nearest; any other cost is
    written as JavaScript writes the number.  A counter that is an integer
    below 2^53 in magnitude is written with all its digits.  The text reads
    back, as a comma-separated table, to the header and one record per
    entry. *)
Theorem exportReportToCsv_table :
  forall engine : float -> string,
    exportReportToCsv engine [] = alert "No data to export."
    /\ (forall data : list (string * ReportData.t),
          data <> [] ->
          exists lines,
            exportReportToCsv engine data
            = download "prompt-optimizer-report.csv" "text/csv;charset=utf-8;"
                (String.concat newline
                   ("User,Total Prompts,Total Executions,Total Original Tokens,Total Optimized Tokens,Total Savings,Estimated Cost Savings ($)"
                    :: lines))
            /\ Forall2 (lineOf engine) data lines)
    /\ (forall x : float,
          fixedRange x = true -> sixDecimals x (toFixed engine 6 x))
    /\ (forall x : float,
          fixedRange x = false -> toFixed engine 6 x = Number_toString engine x)
    /\ (forall z : Z,
          Z.abs z < 2 ^ 53 ->
          Number_toString engine (Number_of_Z z) = decimalText z
          /\ (0 <= z -> decimalValue (decimalText z) 0 = Some z))
    /\ (forall data : list (string * ReportData.t),
          data <> [] ->
          (forall y, plain (engine y)) ->
          exists csvContent,
            exportReportToCsv engine data
            = download "prompt-optimizer-report.csv" "text/csv;charset=utf-8;"
                csvContent
            /\ parseCsv csvContent
               = Some ([ "User"; "Total Prompts"; "Total Executions";
                         "Total Original Tokens"; "Total Optimized Tokens";
                         "Total Savings"; "Estimated Cost Savings ($)" ]
                       :: map (cells engine) data)).
Proof.
  intros engine. split; [reflexivity|]. split; [|split; [|split; [|split]]].
  - intros data Hdata. unfold exportReportToCsv.
    destruct data as [|entry data]; [congruence|].
    cbn [length Nat.eqb]. eexists. split; [reflexivity|]. apply rows_lineOf.
  - apply toFixed_sixDecimals.
  - apply toFixed_out_of_range.
  - intros z Hz. split; [apply Number_toString_integer; exact Hz|].
    apply decimalValue_decimalText.
  - intros data Hdata Hfb. unfold exportReportToCsv.
    destruct data as [|entry data]; [congruence|].
    cbn [length Nat.eqb]. eexists. split; [reflexivity|].
    unfold parseCsv. rewrite map_map.
    change (map (fun x => String.concat "," (row engine x)) (entry :: data))
      with (String.concat "," (row engine entry)
            :: map (fun x => String.concat "," (row engine x)) data).
    rewrite concat_cons.
    change (newline +:+ ?x) with (String linefeed x).
    rewrite (proj2 (parse_plain_fields headers headers_plain ltac:(discriminate)
                      [] [])).
    change (String.concat "," (row engine entry)
            :: map (fun x => String.concat "," (row engine x)) data)
      with (map (fun x => String.concat "," (row engine x)) (entry :: data)).
    rewrite (parse_rows engine (entry :: data) Hfb ltac:(discriminate)).
    reflexivity.
Qed.

Lemma exportReportToCsv_table_witness :
  (String "a" (String dquote "b"), ReportData.mk 2 220 140 80 0 0.000028)
    :: nil <> nil
  /\ fixedRange 0.000028 = true
  /\ sixDecimals 0.000028 (toFixed (fun _ => "NaN") 6 0.000028)
  /\ toFixed (fun _ => "NaN") 6 0.000028 = "0.000028"
  /\ exists lines,
      exportReportToCsv (fun _ => "NaN")
        [ (String "a" (String dquote "b"),
           ReportData.mk 2 220 140 80 0 0.000028) ]
      = download "prompt-optimizer-report.csv" "text/csv;charset=utf-8;"
          (String.concat newline
             ("User,Total Prompts,Total Executions,Total Original Tokens,Total Optimized Tokens,Total Savings,Estimated Cost Savings ($)"
              :: lines))
      /\ Forall2 (lineOf (fun _ => "NaN"))
           [ (String "a" (String dquote "b"),
              ReportData.mk 2 220 140 80 0 0.000028) ] lines.
Proof.
  assert (H1 : (String "a" (String dquote "b"),
                ReportData.mk 2 220 140 80 0 0.000028) :: nil <> nil)
    by discriminate.
  assert (H2 : fixedRange 0.000028 = true) by (vm_compute; reflexivity).
  split; [exact H1|]. split; [exact H2|].
  split; [exact (proj1 (proj2 (proj2 (exportReportToCsv_table (fun _ => "NaN"))))
                   _ H2)|].
  split; [vm_compute; reflexivity|].
  exact (proj1 (proj2 (exportReportToCsv_table (fun _ => "NaN"))) _ H1).
Defined.

(** C9 as stated fails.  A report whose entry has an infinite cost (its
    savings are infinite) is exported with the cost written [Infinity], and
    [(1e21).toFixed(6)] is [1e+21], as the engine writes that number:
    neither has six decimals. *)
Lemma cost_written_without_decimals :
  exportReportToCsv (fun _ => "1e+21")
    [ ("a", ReportData.mk 1 infinity 0 infinity 0 infinity) ]
  = download "prompt-optimizer-report.csv" "text/csv;charset=utf-8;"
      ("User,Total Prompts,Total Executions,Total Original Tokens,Total Optimized Tokens,Total Savings,Estimated Cost Savings ($)"
       +:+ newline
       +:+ String dquote ("a" +:+ String dquote ",1,0,Infinity,0,Infinity,Infinity"))
  /\ ~ sixDecimals infinity (toFixed (fun _ => "1e+21") 6 infinity)
  /\ toFixed (fun _ => "1e+21") 6 1e21 = "1e+21"
  /\ ~ sixDecimals 1e21 (toFixed (fun _ => "1e+21") 6 1e21).
Proof.
  split; [vm_compute; reflexivity|]. split; [intros H; exact H|].
  split; [vm_compute; reflexivity|].
  change (toFixed (fun _ => "1e+21") 6 1e21) with "1e+21".
  unfold sixDecimals.
  change (Prim2SF 1e21) with (S754_finite false 7629394531250000 17).
  cbv iota.
  intros (a & b & n & Htext & _ & Ha & _).
  rewrite append_empty_l in Htext.
  destruct a as [|c1 a]; [discriminate Htext|].
  rewrite append_cons in Htext. injection Htext as <- Htext.
  destruct a as [|c2 a]; [discriminate Htext|].
  rewrite append_cons in Htext. injection Htext as <- Htext.
  discriminate Ha.
Qed.

End ExportClaims.
(** ** Checks of the embedding against known values *)

Module Checks.
Import JSDate JSNumber JSObject Report Collation dbService.

(** 29 February 2024, 12:00 UTC, a Thursday. *)
Example leap_day_fields :
  YearFromTime 1709208000000 = 2024 /\ MonthFromTime 1709208000000 = 1
  /\ DateFromTime 1709208000000 = 29 /\ WeekDay 1709208000000 = 4.
Proof. repeat split; reflexivity. Qed.

(** Sunday 2 June 2024, 07:00 in a zone five hours behind UTC. *)
Example window_starts_west_of_utc :
  startTime (constantZone (-18000000)) 1717329600000 day = 1717304400000
  /\ startTime (constantZone (-18000000)) 1717329600000 week = 1717304400000
  /\ startTime (constantZone (-18000000)) 1717329600000 month = 1717218000000
  /\ startTime (constantZone (-18000000)) 1717329600000 year = 1704085200000
  /\ startTime (constantZone (-18000000)) 1717329600000 all = 0.
Proof. repeat split; reflexivity. Qed.

(** Wednesday 13 March 2024, noon in New York, three days after the clocks
    went forward: the week starts on Sunday 10 March at midnight, which was
    still five hours behind UTC, the month on 1 March and the year on 1
    January likewise, the day at four hours behind. *)
Example window_starts_across_clock_change :
  startTime easternZone 1710345600000 day = 1710302400000
  /\ startTime easternZone 1710345600000 week = 1710046800000
  /\ startTime easternZone 1710345600000 month = 1709269200000
  /\ startTime easternZone 1710345600000 year = 1704085200000.
Proof. repeat split; vm_compute; reflexivity. Qed.

(** Monday 1 July 2024: [setDate(1 - 1)] carries over to Sunday 30 June. *)
Example week_start_across_months :
  startTime (constantZone 0) 1719847800000 week = 1719705600000
  /\ startTime (constantZone 0) 1719847800000 month = 1719792000000.
Proof. repeat split; reflexivity. Qed.

Example toFixed_values :
  toFixed (fun _ => "1e+21") 6 0.000028%float = "0.000028"
  /\ toFixed (fun _ => "1e+21") 6 (-1234.5)%float = "-1234.500000"
  /\ toFixed (fun _ => "1e+21") 6 0%float = "0.000000"
  /\ toFixed (fun _ => "1e+21") 2 1.005%float = "1.00"
  /\ toFixed (fun _ => "1e+21") 0 2.5%float = "3"
  /\ toFixed (fun _ => "1e+21") 6 nan = "NaN"
  /\ toFixed (fun _ => "1e+21") 6 neg_infinity = "-Infinity"
  /\ toFixed (fun _ => "1e+21") 6 1e21%float = "1e+21"
  /\ toFixed (fun _ => "1e+21") 6 999999999999999868928%float
     = "999999999999999868928.000000".
Proof. repeat split; vm_compute; reflexivity. Qed.

Example Number_toString_values :
  Number_toString (fun _ => "1e+21") 220%float = "220"
  /\ Number_toString (fun _ => "1e+21") (-60)%float = "-60"
  /\ Number_toString (fun _ => "1e+21") (-0)%float = "0"
  /\ Number_toString (fun _ => "1e+21") 9007199254740991%float
     = "9007199254740991"
  /\ Number_toString (fun _ => "1e+21") 1e21%float = "1e+21".
Proof. repeat split; vm_compute; reflexivity. Qed.

(** Binary64 addition: exact below 2^53, rounded to even above. *)
Example addition_values :
  (Number_of_Z 9007199254740990 + 1)%float = Number_of_Z 9007199254740991
  /\ (Number_of_Z 9007199254740991 + 2)%float = Number_of_Z 9007199254740992
  /\ (Number_of_Z 9007199254740992 + 1)%float = Number_of_Z 9007199254740992.
Proof. repeat split; vm_compute; reflexivity. Qed.

(** The keys of an object: array indices first, in ascending order, then
    the others as they were created. *)
Example property_order :
  map fst (setOwn "7" 0 (setOwn "bob" 1 (setOwn "10" 2 (setOwn "zoe" 3 []))))
  = ["7"; "10"; "zoe"; "bob"]
  /\ map fst (setOwn "bob" 4 (setOwn "bob" 1 (setOwn "01" 2 [])))
     = ["01"; "bob"].
Proof. repeat split; vm_compute; reflexivity. Qed.

Example localeCompare_values :
  localeCompare "alice" "Bob" < 0 /\ localeCompare "Bob" "Zoe" < 0
  /\ localeCompare "alice" "Alice" < 0 /\ localeCompare "Zoe" "alice" > 0
  /\ localeCompare "Bob" "Bob" = 0.
Proof. repeat split; reflexivity. Qed.

Example duplicate_message_text :
  duplicate_message "Bob"
  = String.concat (String dquote EmptyString) ["User "; "Bob"; " might already exist."].
Proof. reflexivity. Qed.

End Checks.

(** ** The store: keys, names and order *)

Module DbMoreFacts.
Import IDB dbService DbSpec DbFacts.

Lemma call_steps (engine : Engine) (now : Z) (c : Call) (db : Database) :
  store_step UserProfile.id (users db) (users (call engine now c db))
  /\ store_step AnalysisRecord.id (analysisHistory db)
       (analysisHistory (call engine now c db))
  /\ store_step ExecutionRecord.id (executionHistory db)
       (executionHistory (call engine now c db)).
Proof.
  destruct c as [name|username analysisResult|username pt ptext rtext|]; cbn [call].
  - unfold addUser, transaction, users_add, store_add.
    destruct (engine USER_STORE); cbn [negb];
      [|repeat split; apply step_same; reflexivity].
    destruct (name_unique _ _); cbn [negb snd];
      [|repeat split; apply step_same; reflexivity].
    split; [|split; apply step_same; reflexivity].
    eapply step_add; [|reflexivity]. reflexivity.
  - unfold addAnalysisRecord, transaction, history_add, store_add, no_index.
    destruct (engine HISTORY_STORE); cbn [negb snd];
      [|repeat split; apply step_same; reflexivity].
    split; [apply step_same; reflexivity|].
    split; [|apply step_same; reflexivity].
    eapply step_add; [|reflexivity]. reflexivity.
  - unfold addExecutionRecord, transaction, execution_add, store_add, no_index.
    destruct (engine EXECUTION_STORE); cbn [negb snd];
      [|repeat split; apply step_same; reflexivity].
    split; [apply step_same; reflexivity|].
    split; [apply step_same; reflexivity|].
    eapply step_add; [|reflexivity]. reflexivity.
  - unfold clearAllData, transaction, bind, users_clear, history_clear,
      execution_clear, store_clear.
    destruct (engine USER_STORE); cbn;
      [|repeat split; apply step_same; reflexivity].
    destruct (engine HISTORY_STORE); cbn;
      [|repeat split; apply step_same; reflexivity].
    destruct (engine EXECUTION_STORE); cbn;
      [|repeat split; apply step_same; reflexivity].
    repeat split; apply step_clear; reflexivity.
Qed.

Lemma StronglySorted_snoc (ks : list Z) (k : Z) :
  StronglySorted Z.lt ks -> Forall (fun x => x < k) ks ->
  StronglySorted Z.lt (ks ++ [k]).
Proof.
  induction 1 as [|x ks Hs IH Hx]; intros Hk; cbn.
  - constructor; constructor.
  - inversion Hk as [|? ? Hxk Hks]; subst.
    constructor; [apply IH; exact Hks|].
    apply Forall_app. split; [exact Hx|]. constructor; [exact Hxk|constructor].
Qed.

Lemma well_keyed_step {A : Type} (id : A -> option Z) (s s' : ObjectStore A) :
  1 <= keyGenerator s ->
  well_keyed id s -> store_step id s s' ->
  well_keyed id s' /\ keyGenerator s <= keyGenerator s'.
Proof.
  intros Hg (ks & Hmap & Hsorted & Hrange) [->| r Hr -> | ->].
  - split; [exists ks; auto|lia].
  - split; [|cbn; lia].
    exists (ks ++ [keyGenerator s]). cbn [records keyGenerator].
    split; [rewrite !map_app, Hmap; cbn; rewrite Hr; reflexivity|].
    split.
    + apply StronglySorted_snoc; [exact Hsorted|].
      eapply List.Forall_impl; [|exact Hrange]. cbn. intros; lia.
    + apply Forall_app. split.
      * eapply List.Forall_impl; [|exact Hrange]. cbn. intros; lia.
      * constructor; [lia|constructor].
  - split; [|cbn; lia].
    exists []. cbn. split; [reflexivity|]. split; constructor.
Qed.

Lemma run_cons (engine : Engine) (now : Z) (c : Call)
    (calls : list (Engine * Z * Call)) (db : Database) :
  run ((engine, now, c) :: calls) db = run calls (call engine now c db).
Proof. reflexivity. Qed.

Lemma keyed_call (engine : Engine) (now : Z) (c : Call) (db : Database) :
  keyed db -> keyed (call engine now c db).
Proof.
  intros ((Hu1 & Hu2) & (Ha1 & Ha2) & (He1 & He2)).
  destruct (call_steps engine now c db) as (Su & Sa & Se).
  destruct (well_keyed_step _ _ _ Hu1 Hu2 Su) as [? ?].
  destruct (well_keyed_step _ _ _ Ha1 Ha2 Sa) as [? ?].
  destruct (well_keyed_step _ _ _ He1 He2 Se) as [? ?].
  repeat split; try assumption; lia.
Qed.

Lemma keyed_empty : keyed emptyDatabase.
Proof.
  repeat split; cbn; try lia; exists []; cbn; repeat split; constructor.
Qed.

(** X1.  Every call of the store's operations, whether it succeeds or
    not, keeps each store well keyed: its records carry distinct ids in
    ascending order, from 1 up to the key generator's current number.  A
    fresh database is well keyed. *)
Theorem stores_stay_well_keyed :
  keyed emptyDatabase
  /\ forall (calls : list (Engine * Z * Call)) (db : Database),
      keyed db -> keyed (run calls db).
Proof.
  split; [exact keyed_empty|].
  induction calls as [|[[engine now] c] calls IH]; intros db Hk; [exact Hk|].
  rewrite run_cons. apply IH, keyed_call, Hk.
Qed.

Lemma stores_stay_well_keyed_witness :
  keyed emptyDatabase
  /\ keyed (run [ (healthy, 10, CallAddUser "Bob");
                  (healthy, 20, CallAddAnalysisRecord "Bob"
                                  (AnalysisResult.mk 100 "p" 40 "e"));
                  (healthy, 30, CallClearAllData);
                  (healthy, 40, CallAddUser "Bob") ] emptyDatabase).
Proof.
  split; [exact (proj1 stores_stay_well_keyed)|].
  exact (proj2 stores_stay_well_keyed _ _ (proj1 stores_stay_well_keyed)).
Defined.

(** What a call does to the users store: an added profile has a name no
    stored profile has. *)
Lemma call_users (engine : Engine) (now : Z) (c : Call) (db : Database) :
  users (call engine now c db) = users db
  \/ (exists u,
        ~ In (UserProfile.name u) (names db)
        /\ records (users (call engine now c db)) = records (users db) ++ [u])
  \/ records (users (call engine now c db)) = [].
Proof.
  destruct c as [name|username analysisResult|username pt ptext rtext|]; cbn [call].
  - unfold addUser, transaction, users_add, store_add.
    destruct (engine USER_STORE); cbn [negb]; [|left; reflexivity].
    destruct (name_unique _ _) eqn:Hu; cbn [negb snd]; [|left; reflexivity].
    right. left. eexists. split; [|reflexivity]. cbn.
    unfold name_unique in Hu. apply negb_true_iff in Hu.
    intros Hin. apply in_map_iff in Hin as (v & Hv & Hin).
    assert (existsb (fun v => String.eqb (UserProfile.name v) name)
              (records (users db)) = true) as He.
    { apply existsb_exists. exists v. split; [exact Hin|].
      apply String.eqb_eq. exact Hv. }
    cbn in Hu. congruence.
  - left. unfold addAnalysisRecord, transaction, history_add, store_add, no_index.
    destruct (engine HISTORY_STORE); reflexivity.
  - left. unfold addExecutionRecord, transaction, execution_add, store_add, no_index.
    destruct (engine EXECUTION_STORE); reflexivity.
  - unfold clearAllData, transaction, bind, users_clear, history_clear,
      execution_clear, store_clear.
    destruct (engine USER_STORE); cbn; [|left; reflexivity].
    destruct (engine HISTORY_STORE); cbn; [|left; reflexivity].
    destruct (engine EXECUTION_STORE); cbn; [|left; reflexivity].
    right. right. reflexivity.
Qed.

Lemma NoDup_snoc {A : Type} (l : list A) (x : A) :
  List.NoDup l -> ~ In x l -> List.NoDup (l ++ [x]).
Proof.
  intros Hl Hx. apply NoDup_rev in Hl.
  rewrite <- (rev_involutive (l ++ [x])). apply NoDup_rev.
  rewrite rev_app_distr. cbn. constructor; [|exact Hl].
  rewrite <- in_rev. exact Hx.
Qed.

(** X2.  No two stored profiles ever have the same name: every call keeps
    the names of the users store pairwise distinct. *)
Theorem user_names_stay_distinct :
  forall (calls : list (Engine * Z * Call)) (db : Database),
    List.NoDup (names db) -> List.NoDup (names (run calls db)).
Proof.
  induction calls as [|[[engine now] c] calls IH]; intros db Hn; [exact Hn|].
  rewrite run_cons. apply IH.
  destruct (call_users engine now c db) as [H|[(u & Hu & H)|H]];
    unfold names in *; rewrite H.
  - exact Hn.
  - rewrite map_app. apply NoDup_snoc; assumption.
  - constructor.
Qed.

Lemma user_names_stay_distinct_witness :
  List.NoDup (names emptyDatabase)
  /\ List.NoDup (names (run [ (healthy, 10, CallAddUser "Bob");
                         (healthy, 20, CallAddUser "Bob");
                         (healthy, 30, CallAddUser "bob") ] emptyDatabase)).
Proof.
  assert (H : List.NoDup (names emptyDatabase)) by constructor.
  split; [exact H|]. exact (user_names_stay_distinct _ _ H).
Defined.

Lemma addExecutionRecord_Resolved (engine : Engine) (now : Z) (username : string)
    (promptType : ExecutionRecord.PromptType) (promptText resultText : string)
    (db db' : Database) (record : ExecutionRecord.t) :
  addExecutionRecord engine now username promptType promptText resultText db
  = (Resolved record, db') ->
  record
  = ExecutionRecord.mk (Some (keyGenerator (executionHistory db))) username now
      promptType promptText resultText
  /\ db'
     = mkDB (users db) (analysisHistory db)
         (mkStore (records (executionHistory db) ++ [record])
            (keyGenerator (executionHistory db) + 1)).
Proof.
  unfold addExecutionRecord, transaction, execution_add, store_add, no_index.
  destruct (engine EXECUTION_STORE); cbn; intros H; [|discriminate].
  injection H as <- <-. split; reflexivity.
Qed.

Lemma addUser_Resolved (engine : Engine) (now : Z) (name : string)
    (db db' : Database) (user : UserProfile.t) :
  addUser engine now name db = (Resolved user, db') ->
  user = UserProfile.mk (Some (keyGenerator (users db))) name now
  /\ ~ In name (names db)
  /\ db'
     = mkDB (mkStore (records (users db) ++ [user]) (keyGenerator (users db) + 1))
         (analysisHistory db) (executionHistory db).
Proof.
  unfold addUser, transaction, users_add, store_add.
  destruct (engine USER_STORE); cbn [negb]; [|discriminate].
  destruct (name_unique _ _) eqn:Hu; cbn [negb]; intros H; [|discriminate].
  injection H as <- <-. split; [reflexivity|]. split; [|reflexivity].
  intros Hin. rewrite (DbClaims.name_unique_false name now _ Hin) in Hu.
  discriminate.
Qed.

(** What a call can do to the execution store. *)
Lemma run_keeps_execution (record : ExecutionRecord.t)
    (calls : list (Engine * Z * Call)) (db : Database) :
  forallb (fun c => negb (is_clear (snd c))) calls = true ->
  In record (records (executionHistory db)) ->
  In record (records (executionHistory (run calls db))).
Proof.
  revert db. induction calls as [|[[engine now] c] calls IH]; intros db Hc Hin.
  - exact Hin.
  - rewrite run_cons. cbn [forallb snd] in Hc. apply andb_prop in Hc as [Hc1 Hc2].
    apply IH; [exact Hc2|].
    destruct c as [name|username analysisResult|username pt ptext rtext|];
      cbn [call]; [| | |discriminate Hc1].
    + unfold addUser, transaction, users_add, store_add.
      destruct (engine USER_STORE); cbn [negb]; [|exact Hin].
      destruct (name_unique _ _); exact Hin.
    + unfold addAnalysisRecord, transaction, history_add, store_add, no_index.
      destruct (engine HISTORY_STORE); exact Hin.
    + unfold addExecutionRecord, transaction, execution_add, store_add, no_index.
      destruct (engine EXECUTION_STORE); cbn; [|exact Hin].
      apply in_or_app. left. exact Hin.
Qed.

(** X3.  A successful [addExecutionRecord] returns the record it stored:
    the given username, prompt type and texts, the clock's reading, and the
    generated id; [getAllExecutionHistory] then ends with that record, the
    users and the analysis records are untouched, and the record stays in
    the store as long as nothing is cleared. *)
Theorem addExecutionRecord_round_trip :
  forall (engine : Engine) (now : Z) (username : string)
         (promptType : ExecutionRecord.PromptType) (promptText resultText : string)
         (db db' : Database) (record : ExecutionRecord.t),
    addExecutionRecord engine now username promptType promptText resultText db
    = (Resolved record, db') ->
    record
    = ExecutionRecord.mk (Some (keyGenerator (executionHistory db))) username now
        promptType promptText resultText
    /\ getAllExecutionHistory healthy db'
       = Resolved (records (executionHistory db) ++ [record])
    /\ users db' = users db
    /\ analysisHistory db' = analysisHistory db
    /\ forall calls : list (Engine * Z * Call),
        forallb (fun c => negb (is_clear (snd c))) calls = true ->
        In record (records (executionHistory (run calls db'))).
Proof.
  intros engine now username promptType promptText resultText db db' record Hadd.
  destruct (addExecutionRecord_Resolved _ _ _ _ _ _ _ _ _ Hadd) as [Hrec Hdb'].
  split; [exact Hrec|]. rewrite Hdb'.
  split; [reflexivity|]. split; [reflexivity|]. split; [reflexivity|].
  intros calls Hc. apply run_keeps_execution; [exact Hc|].
  cbn. apply in_or_app. right. left. reflexivity.
Qed.

Lemma addExecutionRecord_round_trip_witness :
  addExecutionRecord healthy 1000 "u" ExecutionRecord.optimized "p" "r" emptyDatabase
  = (Resolved (ExecutionRecord.mk (Some 1) "u" 1000 ExecutionRecord.optimized "p" "r"),
     mkDB createObjectStore createObjectStore
       (mkStore [ExecutionRecord.mk (Some 1) "u" 1000 ExecutionRecord.optimized
                   "p" "r"] 2))
  /\ getAllExecutionHistory healthy
       (mkDB createObjectStore createObjectStore
          (mkStore [ExecutionRecord.mk (Some 1) "u" 1000 ExecutionRecord.optimized
                      "p" "r"] 2))
     = Resolved ([] ++ [ExecutionRecord.mk (Some 1) "u" 1000
                          ExecutionRecord.optimized "p" "r"]).
Proof.
  split; [reflexivity|].
  exact (proj1 (proj2 (addExecutionRecord_round_trip healthy 1000 "u"
                         ExecutionRecord.optimized "p" "r" emptyDatabase _ _
                         eq_refl))).
Defined.


Lemma keyGenerator_grows (calls : list (Engine * Z * Call)) (db : Database) :
  keyGenerator (users db) <= keyGenerator (users (run calls db))
  /\ keyGenerator (analysisHistory db) <= keyGenerator (analysisHistory (run calls db))
  /\ keyGenerator (executionHistory db)
     <= keyGenerator (executionHistory (run calls db)).
Proof.
  revert db. induction calls as [|[[engine now] c] calls IH]; intros db.
  - cbn. lia.
  - rewrite run_cons. destruct (IH (call engine now c db)) as (Iu & Ia & Ie).
    destruct (call_steps engine now c db) as (Su & Sa & Se).
    assert (forall (A : Type) (id : A -> option Z) (s s' : ObjectStore A),
               store_step id s s' -> keyGenerator s <= keyGenerator s') as Hmono.
    { intros A id s s' [->|r _ ->| ->]; cbn; lia. }
    pose proof (Hmono _ _ _ _ Su). pose proof (Hmono _ _ _ _ Sa).
    pose proof (Hmono _ _ _ _ Se). lia.
Qed.

(** X5.  Ids are never reused, not even after [clearAllData]: of two
    successful additions to the same store, whatever is called in between,
    the later one returns the larger id. *)
Theorem ids_never_reused :
  forall (calls : list (Engine * Z * Call)) (db db1 db2 : Database)
         (engine1 engine2 : Engine) (now1 now2 : Z),
    (forall (name1 name2 : string) (u1 u2 : UserProfile.t),
        addUser engine1 now1 name1 db = (Resolved u1, db1) ->
        addUser engine2 now2 name2 (run calls db1) = (Resolved u2, db2) ->
        exists k1 k2,
          UserProfile.id u1 = Some k1 /\ UserProfile.id u2 = Some k2 /\ k1 < k2)
    /\ (forall (username1 username2 : string) (a1 a2 : AnalysisResult.t)
               (r1 r2 : AnalysisRecord.t),
          addAnalysisRecord engine1 now1 username1 a1 db = (Resolved r1, db1) ->
          addAnalysisRecord engine2 now2 username2 a2 (run calls db1)
          = (Resolved r2, db2) ->
          exists k1 k2,
            AnalysisRecord.id r1 = Some k1 /\ AnalysisRecord.id r2 = Some k2
            /\ k1 < k2)
    /\ (forall (username1 username2 : string)
               (t1 t2 : ExecutionRecord.PromptType) (p1 p2 x1 x2 : string)
               (r1 r2 : ExecutionRecord.t),
          addExecutionRecord engine1 now1 username1 t1 p1 x1 db = (Resolved r1, db1) ->
          addExecutionRecord engine2 now2 username2 t2 p2 x2 (run calls db1)
          = (Resolved r2, db2) ->
          exists k1 k2,
            ExecutionRecord.id r1 = Some k1 /\ ExecutionRecord.id r2 = Some k2
            /\ k1 < k2).
Proof.
  intros calls db db1 db2 engine1 engine2 now1 now2.
  destruct (keyGenerator_grows calls db1) as (Gu & Ga & Ge).
  split; [|split].
  - intros name1 name2 u1 u2 H1 H2.
    apply addUser_Resolved in H1 as (-> & _ & ->).
    apply addUser_Resolved in H2 as (-> & _ & _).
    eexists. eexists. split; [reflexivity|]. split; [reflexivity|].
    cbn in Gu. lia.
  - intros username1 username2 a1 a2 r1 r2 H1 H2.
    apply addAnalysisRecord_Resolved in H1 as (-> & ->).
    apply addAnalysisRecord_Resolved in H2 as (-> & _).
    eexists. eexists. split; [reflexivity|]. split; [reflexivity|].
    cbn in Ga. lia.
  - intros username1 username2 t1 t2 p1 p2 x1 x2 r1 r2 H1 H2.
    apply addExecutionRecord_Resolved in H1 as (-> & ->).
    apply addExecutionRecord_Resolved in H2 as (-> & _).
    eexists. eexists. split; [reflexivity|]. split; [reflexivity|].
    cbn in Ge. lia.
Qed.

Lemma ids_never_reused_witness :
  exists k1 k2,
    UserProfile.id (UserProfile.mk (Some 1) "Bob" 10) = Some k1
    /\ UserProfile.id (UserProfile.mk (Some 2) "Bob" 30) = Some k2
    /\ k1 < k2.
Proof.
  exact (proj1 (ids_never_reused [(healthy, 20, CallClearAllData)] emptyDatabase
                  _ _ healthy healthy 10 30)
           "Bob" "Bob" _ _ eq_refl eq_refl).
Defined.

End DbMoreFacts.

(** ** The report: the windows by the calendar, the order of the records *)

Module ReportMoreFacts.
Import JSDate JSDateFacts JSNumber JSObject Report ReportSpec ObjectFacts
  ReportFacts WindowFacts.

(** X6.  In a time zone whose clock changes keep clear of midnight, and
    with a clock whose local year is not 0 to 99: a window starts at the
    local midnight that begins its first day (today, the most recent
    Sunday, the first of the month, January 1), and a time is at or after
    that start exactly when its local date is that day or a later one (for
    the all-time window: when it is not negative).  For a record filed
    under a name that [Object.prototype] does not define, in a history with
    no record filed under [__proto__] (and an [Object.prototype] nobody has
    written to), the report includes the record when
    its timestamp is in the window and excludes it when it is not.  The
    windows nest: a time in the day window is in the week and month
    windows, and a time in the month window is in the year window. *)
Theorem reports_follow_the_calendar :
  forall (LocalTZA : Z -> bool -> Z) (now : Z),
    regular LocalTZA ->
    ~ (0 <= getFullYear LocalTZA now <= 99) ->
    (forall (period : Period) (d : Z),
        windowStartDay LocalTZA now period = Some d ->
        LocalTime LocalTZA (startTime LocalTZA now period) = MakeDate d 0)
    /\ startTime LocalTZA now all = 0
    /\ (WeekDay (MakeDate (Day (LocalTime LocalTZA now)
                           - WeekDay (LocalTime LocalTZA now)) 0) = 0
        /\ 0 <= WeekDay (LocalTime LocalTZA now) <= 6)
    /\ (YearFromTime (MakeDate (Day (LocalTime LocalTZA now)
                                - (DateFromTime (LocalTime LocalTZA now) - 1)) 0)
        = YearFromTime (LocalTime LocalTZA now)
        /\ MonthFromTime (MakeDate (Day (LocalTime LocalTZA now)
                                    - (DateFromTime (LocalTime LocalTZA now) - 1)) 0)
           = MonthFromTime (LocalTime LocalTZA now)
        /\ DateFromTime (MakeDate (Day (LocalTime LocalTZA now)
                                   - (DateFromTime (LocalTime LocalTZA now) - 1)) 0)
           = 1)
    /\ (YearFromTime (MakeDate (Day (LocalTime LocalTZA now)
                                - DayWithinYear (LocalTime LocalTZA now)) 0)
        = YearFromTime (LocalTime LocalTZA now)
        /\ MonthFromTime (MakeDate (Day (LocalTime LocalTZA now)
                                    - DayWithinYear (LocalTime LocalTZA now)) 0)
           = 0
        /\ DateFromTime (MakeDate (Day (LocalTime LocalTZA now)
                                   - DayWithinYear (LocalTime LocalTZA now)) 0)
           = 1)
    /\ (forall (period : Period) (timestamp : Z),
          startTime LocalTZA now period <= timestamp
          <-> inWindow LocalTZA now period timestamp)
    /\ (forall (l1 l2 : list AnalysisRecord.t) (E : list ExecutionRecord.t)
               (r : AnalysisRecord.t) (period : Period),
          inherited (AnalysisRecord.username r) = false ->
          plainNames (l1 ++ r :: l2) E ->
          (inWindow LocalTZA now period (AnalysisRecord.timestamp r) ->
           includesAnalysis LocalTZA now l1 l2 E r period)
          /\ (~ inWindow LocalTZA now period (AnalysisRecord.timestamp r) ->
              excludesAnalysis LocalTZA now l1 l2 E r period))
    /\ (forall (A : list AnalysisRecord.t) (l1 l2 : list ExecutionRecord.t)
               (r : ExecutionRecord.t) (period : Period),
          inherited (ExecutionRecord.username r) = false ->
          plainNames A (l1 ++ r :: l2) ->
          (inWindow LocalTZA now period (ExecutionRecord.timestamp r) ->
           includesExecution LocalTZA now A l1 l2 r period)
          /\ (~ inWindow LocalTZA now period (ExecutionRecord.timestamp r) ->
              excludesExecution LocalTZA now A l1 l2 r period))
    /\ (forall timestamp : Z,
          (inWindow LocalTZA now day timestamp ->
           inWindow LocalTZA now week timestamp
           /\ inWindow LocalTZA now month timestamp)
          /\ (inWindow LocalTZA now month timestamp ->
              inWindow LocalTZA now year timestamp)).
Proof.
  intros LocalTZA now Hzone Hyear.
  split; [intros period d; apply startTime_local; assumption|].
  split; [reflexivity|].
  split; [split; [apply WeekDay_week_start|apply WeekDay_range]|].
  split; [apply month_start_fields|].
  split; [apply year_start_fields|].
  split; [intros period timestamp; apply startTime_inWindow; assumption|].
  split; [|split].
  - intros l1 l2 E r period Hu [HA HE].
    rewrite <- (startTime_inWindow LocalTZA Hzone now period _ Hyear). split.
    + intros H. apply analysis_record_counted; assumption.
    + intros H. apply analysis_record_ignored. lia.
  - intros A l1 l2 r period Hu [HA HE].
    rewrite <- (startTime_inWindow LocalTZA Hzone now period _ Hyear). split.
    + intros H. apply execution_record_counted; assumption.
    + intros H. apply execution_record_ignored. lia.
  - intros timestamp. unfold inWindow, windowStartDay.
    pose proof (WeekDay_range (LocalTime LocalTZA now)) as Hw.
    pose proof (DateFromTime_range (LocalTime LocalTZA now)) as Hd.
    pose proof (DateFromTime_eq (LocalTime LocalTZA now)) as He.
    pose proof (MonthFromTime_range (LocalTime LocalTZA now)) as Hm.
    assert (Hl : 0 <= InLeapYear (LocalTime LocalTZA now) <= 1)
      by (destruct (InLeapYear_cases (LocalTime LocalTZA now)); lia).
    pose proof (DaysBeforeMonth_range _ _ Hm Hl) as Hb.
    unfold DayWithinYear in *. lia.
Qed.

Lemma reports_follow_the_calendar_witness :
  regular easternZone
  /\ ~ (0 <= getFullYear easternZone 1710345600000 <= 99)
  /\ startTime easternZone 1710345600000 week = 1710046800000
  /\ LocalTime easternZone (startTime easternZone 1710345600000 week)
     = MakeDate 19792 0
  /\ (startTime easternZone 1710345600000 week <= 1710046800000
      <-> inWindow easternZone 1710345600000 week 1710046800000).
Proof.
  assert (Hyear : ~ (0 <= getFullYear easternZone 1710345600000 <= 99))
    by (vm_compute; intros [_ H]; apply H; reflexivity).
  split; [exact easternZone_regular|]. split; [exact Hyear|].
  split; [vm_compute; reflexivity|].
  split.
  - apply (proj1 (reports_follow_the_calendar easternZone 1710345600000
                    easternZone_regular Hyear) week 19792).
    vm_compute. reflexivity.
  - apply (proj1 (proj2 (proj2 (proj2 (proj2 (proj2
             (reports_follow_the_calendar easternZone 1710345600000
                easternZone_regular Hyear))))))).
Defined.



End ReportMoreFacts.
(** ** Ages and the execution history on screen *)

Module DisplayFacts.
Import JSNumber dbService Display CsvSpec CsvFacts.

Lemma exceeds_one_interval (seconds : Z) (unit : positive) :
  exceeds_one (interval seconds (Z.pos unit)) = (Z.pos unit <? seconds).
Proof.
  unfold exceeds_one, interval, QArith_base.Qdiv, QArith_base.Qinv,
    QArith_base.Qmult, QArith_base.Qle_bool, QArith_base.inject_Z.
  cbn [QArith_base.Qnum QArith_base.Qden].
  rewrite Pos.mul_1_l.
  destruct (Z.leb_spec (seconds * 1 * 1) (1 * Z.pos unit)),
    (Z.ltb_spec (Z.pos unit) seconds); cbn; try reflexivity; lia.
Qed.

Lemma floor_interval (seconds : Z) (unit : positive) :
  Qround.Qfloor (interval seconds (Z.pos unit)) = seconds / Z.pos unit.
Proof.
  unfold interval, QArith_base.Qdiv, QArith_base.Qinv, QArith_base.Qmult,
    QArith_base.inject_Z, Qround.Qfloor.
  cbn [QArith_base.Qnum QArith_base.Qden].
  rewrite Pos.mul_1_l, Z.mul_1_r. reflexivity.
Qed.

(** [formatTimeAgo] by comparisons and divisions of integers. *)
Lemma formatTimeAgo_eq (now timestamp : Z) :
  formatTimeAgo now timestamp
  = let seconds := (now - timestamp) / 1000 in
    if 31536000 <? seconds then decimalText (seconds / 31536000) +:+ " years ago"
    else if 2592000 <? seconds then
      decimalText (seconds / 2592000) +:+ " months ago"
    else if 86400 <? seconds then decimalText (seconds / 86400) +:+ " days ago"
    else if 3600 <? seconds then decimalText (seconds / 3600) +:+ " hours ago"
    else if 60 <? seconds then decimalText (seconds / 60) +:+ " minutes ago"
    else if seconds <? 10 then "just now"
    else decimalText seconds +:+ " seconds ago".
Proof.
  unfold formatTimeAgo. cbv zeta.
  rewrite !exceeds_one_interval, !floor_interval. reflexivity.
Qed.

Lemma count_not_just_now (n : Z) (unit : string) :
  0 <= n -> decimalText n +:+ unit <> "just now".
Proof.
  intros Hn. destruct (decimalText_digits n Hn) as [Hd Hl].
  destruct (decimalText n) as [|c s]; [cbn in Hl; lia|].
  rewrite append_cons. intros H. injection H as Hc _. subst c.
  unfold digits in Hd. cbn in Hd. discriminate Hd.
Qed.

(** X8.  [formatTimeAgo] says "just now" exactly when fewer than ten
    seconds lie between the timestamp and the clock's reading; a timestamp
    in the future counts as such. *)
Theorem formatTimeAgo_just_now :
  forall now timestamp : Z,
    formatTimeAgo now timestamp = "just now" <-> now - timestamp < 10000.
Proof.
  intros now timestamp. rewrite formatTimeAgo_eq. cbv zeta.
  set (seconds := (now - timestamp) / 1000).
  assert (Hs : now - timestamp < 10000 <-> seconds < 10)
    by (subst seconds; split; intros H; Z.div_mod_to_equations; lia).
  rewrite Hs. clearbody seconds.
  destruct (Z.ltb_spec 31536000 seconds);
    [split; [intros H'; apply count_not_just_now in H'; [contradiction|]
            |intros ?]; Z.div_mod_to_equations; lia|].
  destruct (Z.ltb_spec 2592000 seconds);
    [split; [intros H'; apply count_not_just_now in H'; [contradiction|]
            |intros ?]; Z.div_mod_to_equations; lia|].
  destruct (Z.ltb_spec 86400 seconds);
    [split; [intros H'; apply count_not_just_now in H'; [contradiction|]
            |intros ?]; Z.div_mod_to_equations; lia|].
  destruct (Z.ltb_spec 3600 seconds);
    [split; [intros H'; apply count_not_just_now in H'; [contradiction|]
            |intros ?]; Z.div_mod_to_equations; lia|].
  destruct (Z.ltb_spec 60 seconds);
    [split; [intros H'; apply count_not_just_now in H'; [contradiction|]
            |intros ?]; Z.div_mod_to_equations; lia|].
  destruct (Z.ltb_spec seconds 10); [tauto|].
  split; [intros H'; apply count_not_just_now in H'; [contradiction|lia]|lia].
Qed.

(** X9.  From ten seconds on, [formatTimeAgo] tells the age as a whole
    number of units, rounded down, in the largest unit of which strictly
    more than one has passed, and in seconds when there is none: the unit
    is a minute, an hour, a day, a month of 30 days or a year of 365 days.
    So 60 seconds are "60 seconds ago" and 3630 seconds "1 hours ago".
    The number is never zero. *)
Theorem formatTimeAgo_count :
  forall now timestamp : Z,
    10000 <= now - timestamp ->
    exists (size : Z) (unit : string),
      In (size, unit) DisplaySpec.units
      /\ formatTimeAgo now timestamp
         = decimalText ((now - timestamp) / 1000 / size) +:+ unit
      /\ (size = 1 \/ size < (now - timestamp) / 1000)
      /\ (forall (size' : Z) (unit' : string),
            In (size', unit') DisplaySpec.units -> size < size' ->
            (now - timestamp) / 1000 <= size')
      /\ 1 <= (now - timestamp) / 1000 / size.
Proof.
  intros now timestamp Hage. rewrite formatTimeAgo_eq. cbv zeta.
  set (seconds := (now - timestamp) / 1000).
  assert (Hs : 10 <= seconds) by (subst seconds; Z.div_mod_to_equations; lia).
  clearbody seconds.
  assert (Hlarger : forall size : Z,
             1 <= size ->
             (forall size', In size' [60; 3600; 86400; 2592000; 31536000] ->
                            size < size' -> seconds <= size') ->
             forall (size' : Z) (unit' : string),
               In (size', unit') DisplaySpec.units -> size < size' ->
               seconds <= size').
  { intros size Hsize H size' unit' Hin Hlt.
    unfold DisplaySpec.units in Hin. cbn [In] in Hin.
    destruct Hin as [Hin|Hin]; [injection Hin as <- _; lia|].
    apply H; [|exact Hlt]. cbn [In].
    repeat (destruct Hin as [Hin|Hin]; [injection Hin as <- _; tauto|]).
    contradiction. }
  destruct (Z.ltb_spec 31536000 seconds).
  { exists 31536000, " years ago".
    split; [cbn; tauto|]. split; [reflexivity|]. split; [right; lia|].
    split; [|Z.div_mod_to_equations; lia].
    apply Hlarger; [lia|]. cbn [In]. intros size' Hin Hlt. lia. }
  destruct (Z.ltb_spec 2592000 seconds).
  { exists 2592000, " months ago".
    split; [cbn; tauto|]. split; [reflexivity|]. split; [right; lia|].
    split; [|Z.div_mod_to_equations; lia].
    apply Hlarger; [lia|]. cbn [In]. intros size' Hin Hlt. lia. }
  destruct (Z.ltb_spec 86400 seconds).
  { exists 86400, " days ago".
    split; [cbn; tauto|]. split; [reflexivity|]. split; [right; lia|].
    split; [|Z.div_mod_to_equations; lia].
    apply Hlarger; [lia|]. cbn [In]. intros size' Hin Hlt. lia. }
  destruct (Z.ltb_spec 3600 seconds).
  { exists 3600, " hours ago".
    split; [cbn; tauto|]. split; [reflexivity|]. split; [right; lia|].
    split; [|Z.div_mod_to_equations; lia].
    apply Hlarger; [lia|]. cbn [In]. intros size' Hin Hlt. lia. }
  destruct (Z.ltb_spec 60 seconds).
  { exists 60, " minutes ago".
    split; [cbn; tauto|]. split; [reflexivity|]. split; [right; lia|].
    split; [|Z.div_mod_to_equations; lia].
    apply Hlarger; [lia|]. cbn [In]. intros size' Hin Hlt. lia. }
  destruct (Z.ltb_spec seconds 10); [lia|].
  exists 1, " seconds ago".
  split; [cbn; tauto|]. split; [rewrite Z.div_1_r; reflexivity|].
  split; [left; reflexivity|].
  split; [|rewrite Z.div_1_r; lia].
  apply Hlarger; [lia|]. cbn [In]. intros size' Hin Hlt. lia.
Qed.

Lemma formatTimeAgo_count_witness :
  10000 <= 1717329600000 - 1717325970000
  /\ formatTimeAgo 1717329600000 1717325970000 = "1 hours ago"
  /\ exists (size : Z) (unit : string),
      In (size, unit) DisplaySpec.units
      /\ formatTimeAgo 1717329600000 1717325970000
         = decimalText ((1717329600000 - 1717325970000) / 1000 / size) +:+ unit
      /\ (size = 1 \/ size < (1717329600000 - 1717325970000) / 1000)
      /\ (forall (size' : Z) (unit' : string),
            In (size', unit') DisplaySpec.units -> size < size' ->
            (1717329600000 - 1717325970000) / 1000 <= size')
      /\ 1 <= (1717329600000 - 1717325970000) / 1000 / size.
Proof.
  assert (H : 10000 <= 1717329600000 - 1717325970000) by lia.
  split; [exact H|]. split; [vm_compute; reflexivity|].
  exact (formatTimeAgo_count _ _ H).
Defined.

Example formatTimeAgo_values :
  formatTimeAgo 1717329600000 1717326000000 = "60 minutes ago"
  /\ formatTimeAgo 1717329600000 1717325999000 = "1 hours ago"
  /\ formatTimeAgo 1717329600000 1685793600000 = "12 months ago"
  /\ formatTimeAgo 1717329600000 1717329601000 = "just now"
  /\ formatTimeAgo 1717329600000 1717329540000 = "60 seconds ago".
Proof. repeat split; vm_compute; reflexivity. Qed.

Lemma StronglySorted_filter_keep {A : Type} (R : A -> A -> Prop) (f : A -> bool)
    (l : list A) :
  StronglySorted R l -> StronglySorted R (List.filter f l).
Proof.
  induction 1 as [|x l Hs IH Hx]; cbn; [constructor|].
  destruct (f x); [|exact IH].
  constructor; [exact IH|].
  rewrite List.Forall_forall in Hx |- *.
  intros y Hy. apply filter_In in Hy as [Hy _]. apply Hx. exact Hy.
Qed.

(** X10.  The execution history on screen runs from the newest record to
    the oldest, and holds each record of the history once: all of them with
    the filter off, those of the current user with the filter on. *)
Theorem filteredHistory_newest_first :
  forall (history : list ExecutionRecord.t) (currentUser : string)
         (filterByUser : bool),
    StronglySorted
      (fun a b => ExecutionRecord.timestamp b <= ExecutionRecord.timestamp a)
      (filteredHistory history currentUser filterByUser)
    /\ Permutation (filteredHistory history currentUser filterByUser)
         (if filterByUser
          then List.filter
                 (fun record => String.eqb (ExecutionRecord.username record)
                                  currentUser) history
          else history)
    /\ forall record,
        In record (filteredHistory history currentUser filterByUser)
        <-> In record history
            /\ (filterByUser = true -> ExecutionRecord.username record = currentUser).
Proof.
  intros history currentUser filterByUser. unfold filteredHistory. cbv zeta.
  set (compareFn := fun a b : ExecutionRecord.t =>
                      ExecutionRecord.timestamp b - ExecutionRecord.timestamp a).
  assert (Hsorted : StronglySorted
                      (fun a b => ExecutionRecord.timestamp b
                                  <= ExecutionRecord.timestamp a)
                      (Array_sort compareFn history)).
  { assert (Htotal : forall a b, 0 < compareFn a b -> compareFn b a < 0)
      by (unfold compareFn; intros; lia).
    assert (Htrans : forall a b c,
               compareFn a b <= 0 -> compareFn b c <= 0 -> compareFn a c <= 0)
      by (unfold compareFn; intros; lia).
    pose proof (DbClaims.Array_sort_sorted compareFn Htotal Htrans history) as Hs.
    induction Hs as [|a l _ IH Ha]; constructor; [exact IH|].
    eapply List.Forall_impl; [|exact Ha]. unfold compareFn. intros; lia. }
  pose proof (DbClaims.Array_sort_perm compareFn history) as Hperm.
  destruct filterByUser.
  - split; [apply StronglySorted_filter_keep; exact Hsorted|].
    split; [apply ReportFacts.Permutation_filter_keep; exact Hperm|].
    intros record. rewrite filter_In, String.eqb_eq. split.
    + intros [Hin Hu]. split; [|intros _; exact Hu].
      exact (Permutation_in _ Hperm Hin).
    + intros [Hin Hu]. split; [|apply Hu; reflexivity].
      exact (Permutation_in _ (Permutation_sym Hperm) Hin).
  - split; [exact Hsorted|]. split; [exact Hperm|].
    intros record. split.
    + intros Hin. split; [exact (Permutation_in _ Hperm Hin)|discriminate].
    + intros [Hin _]. exact (Permutation_in _ (Permutation_sym Hperm) Hin).
Qed.

End DisplayFacts.

(** ** Opening the database *)

Module SchemaFacts.
Import dbService Schema.

Section Contents.
Context {Content : Type} (noRecords : Content).

Lemma contains_true (d : gmap string (ObjectStoreDef * Content)) (name : string) :
  contains Content d name = true <-> is_Some (d !! name).
Proof.
  unfold contains. destruct (d !! name); split; intros H;
    try reflexivity; try discriminate; [eexists; reflexivity|destruct H; discriminate].
Qed.

(** What the upgrade leaves under each name. *)
Lemma onupgradeneeded_lookup (d : gmap string (ObjectStoreDef * Content))
    (name : string) :
  onupgradeneeded Content noRecords d !! name
  = if String.eqb name "usageReports" then None
    else match d !! name with
         | Some x => Some x
         | None =>
             if String.eqb name USER_STORE then Some (userStoreDef, noRecords)
             else if String.eqb name HISTORY_STORE
                  then Some (historyStoreDef, noRecords)
             else if String.eqb name EXECUTION_STORE
                  then Some (historyStoreDef, noRecords)
             else None
         end.
Proof.
  unfold onupgradeneeded, createObjectStore, contains. cbv zeta.
  destruct (String.eqb_spec name "usageReports") as [->|Hn].
  - repeat match goal with
           | |- context [match ?m !! ?k with _ => _ end] =>
               destruct (m !! k) eqn:?; cbn [negb]
           end; rewrite ?lookup_delete_eq; try reflexivity;
      simplify_map_eq; congruence.
  - destruct (String.eqb_spec name USER_STORE) as [->|Hu];
      [|destruct (String.eqb_spec name HISTORY_STORE) as [->|Hh];
        [|destruct (String.eqb_spec name EXECUTION_STORE) as [->|He]]];
      repeat match goal with
             | |- context [match ?m !! ?k with _ => _ end] =>
                 destruct (m !! k) eqn:?; cbn [negb]
             end;
      unfold USER_STORE, HISTORY_STORE, EXECUTION_STORE in *;
      simplify_map_eq; try reflexivity; try congruence.
Qed.

(** X11. Opening a database stored under an older version (a new one has
    version 0 and no store) succeeds when the engine accepts the request:
    the connection is kept, the stored version becomes 3, the three stores
    of the application exist, [usageReports] does not, and every other store
    that existed keeps its definition and its records; a store that was
    missing is created empty with the key path [id], generated keys and its
    indexes. *)
Theorem initDB_upgrades_older_database (p : Persisted Content)
    (Hold : version Content p < DB_VERSION) :
  exists p',
    initDB Content noRecords true false p = (Resolved tt, true, p')
    /\ version Content p' = DB_VERSION
    /\ (forall name, In name [USER_STORE; HISTORY_STORE; EXECUTION_STORE] ->
        contains Content (stores Content p') name = true)
    /\ contains Content (stores Content p') "usageReports" = false
    /\ (forall name x, name <> "usageReports" ->
        stores Content p !! name = Some x ->
        stores Content p' !! name = Some x)
    /\ (stores Content p !! USER_STORE = None ->
        stores Content p' !! USER_STORE = Some (userStoreDef, noRecords))
    /\ (stores Content p !! HISTORY_STORE = None ->
        stores Content p' !! HISTORY_STORE = Some (historyStoreDef, noRecords))
    /\ (stores Content p !! EXECUTION_STORE = None ->
        stores Content p' !! EXECUTION_STORE
        = Some (historyStoreDef, noRecords))
    /\ initDB Content noRecords true false p' = (Resolved tt, true, p').
Proof.
  exists (mkPersisted Content DB_VERSION
            (onupgradeneeded Content noRecords (stores Content p))).
  assert (Hopen : open Content noRecords true p
                  = Some (mkPersisted Content DB_VERSION
                            (onupgradeneeded Content noRecords (stores Content p)))).
  { unfold open. cbn [negb].
    destruct (Z.ltb_spec DB_VERSION (version Content p)); [lia|].
    destruct (Z.ltb_spec (version Content p) DB_VERSION); [reflexivity|lia]. }
  split; [unfold initDB; rewrite Hopen; reflexivity|].
  split; [reflexivity|]. cbn [stores].
  split.
  { intros name Hname. unfold contains. rewrite onupgradeneeded_lookup.
    cbn [In] in Hname.
    destruct Hname as [<-|[<-|[<-|[]]]]; cbn;
      match goal with |- context [match ?m !! ?k with _ => _ end] =>
        destruct (m !! k) end; reflexivity. }
  split.
  { unfold contains. rewrite onupgradeneeded_lookup. reflexivity. }
  split.
  { intros name x Hname Hx. rewrite onupgradeneeded_lookup, Hx.
    destruct (String.eqb_spec name "usageReports"); [contradiction|reflexivity]. }
  split; [intros H; rewrite onupgradeneeded_lookup, H; reflexivity|].
  split; [intros H; rewrite onupgradeneeded_lookup, H; reflexivity|].
  split; [intros H; rewrite onupgradeneeded_lookup, H; reflexivity|].
  reflexivity.
Qed.

(** X12. The upgrade is idempotent: run on stores it has already been run
    on, it changes nothing, whatever stores there were before. *)
Theorem onupgradeneeded_idempotent (d : gmap string (ObjectStoreDef * Content)) :
  onupgradeneeded Content noRecords (onupgradeneeded Content noRecords d)
  = onupgradeneeded Content noRecords d.
Proof.
  apply map_eq. intros name.
  rewrite (onupgradeneeded_lookup (onupgradeneeded Content noRecords d)).
  rewrite onupgradeneeded_lookup.
  destruct (String.eqb name "usageReports"); [reflexivity|].
  destruct (d !! name); [reflexivity|].
  destruct (String.eqb name USER_STORE); [reflexivity|].
  destruct (String.eqb name HISTORY_STORE); [reflexivity|].
  destruct (String.eqb name EXECUTION_STORE); reflexivity.
Qed.

End Contents.

Lemma initDB_upgrades_older_database_witness :
  version unit (mkPersisted unit 2 {["usageReports" := (mkDef "id" false [], tt)]})
  < DB_VERSION
  /\ exists p',
    initDB unit tt true false
      (mkPersisted unit 2 {["usageReports" := (mkDef "id" false [], tt)]})
    = (Resolved tt, true, p')
    /\ contains unit (stores unit p') "usageReports" = false.
Proof.
  assert (H : version unit
                (mkPersisted unit 2 {["usageReports" := (mkDef "id" false [], tt)]})
              < DB_VERSION) by (vm_compute; reflexivity).
  split; [exact H|].
  destruct (initDB_upgrades_older_database tt _ H)
    as (p' & H1 & _ & _ & H4 & _).
  exists p'. split; [exact H1|exact H4].
Defined.

End SchemaFacts.

(** ** The application's handlers *)

Module AppFacts.
Import dbService App.

Lemma addUser_cases (engine : IDB.Engine) (now : Z) (name : string)
    (db : IDB.Database) :
  (exists err, addUser engine now name db = (Rejected err, db))
  \/ (exists newUser,
        addUser engine now name db
        = (Resolved newUser,
           IDB.mkDB
             (IDB.mkStore (IDB.records (IDB.users db) ++ [newUser])
                (IDB.keyGenerator (IDB.users db) + 1))
             (IDB.analysisHistory db) (IDB.executionHistory db))
        /\ UserProfile.name newUser = name).
Proof.
  unfold addUser, IDB.transaction, IDB.users_add, IDB.store_add.
  destruct (engine IDB.USER_STORE); cbn [negb]; [|left; eexists; reflexivity].
  destruct (IDB.name_unique _ _); cbn [negb]; [|left; eexists; reflexivity].
  right. eexists. split; reflexivity.
Qed.

Lemma addAnalysisRecord_cases (engine : IDB.Engine) (now : Z) (username : string)
    (analysisResult : AnalysisResult.t) (db : IDB.Database) :
  (exists err,
      addAnalysisRecord engine now username analysisResult db = (Rejected err, db))
  \/ (exists newRecord,
        addAnalysisRecord engine now username analysisResult db
        = (Resolved newRecord,
           IDB.mkDB (IDB.users db)
             (IDB.mkStore (IDB.records (IDB.analysisHistory db) ++ [newRecord])
                (IDB.keyGenerator (IDB.analysisHistory db) + 1))
             (IDB.executionHistory db))
        /\ AnalysisRecord.username newRecord = username).
Proof.
  unfold addAnalysisRecord, IDB.transaction, IDB.history_add, IDB.store_add.
  destruct (engine IDB.HISTORY_STORE); cbn [negb]; [|left; eexists; reflexivity].
  cbn. right. eexists. split; reflexivity.
Qed.

Lemma addExecutionRecord_cases (engine : IDB.Engine) (now : Z) (username : string)
    (promptType : ExecutionRecord.PromptType) (promptText resultText : string)
    (db : IDB.Database) :
  (exists err,
      addExecutionRecord engine now username promptType promptText resultText db
      = (Rejected err, db))
  \/ (exists newRecord,
        addExecutionRecord engine now username promptType promptText resultText db
        = (Resolved newRecord,
           IDB.mkDB (IDB.users db) (IDB.analysisHistory db)
             (IDB.mkStore (IDB.records (IDB.executionHistory db) ++ [newRecord])
                (IDB.keyGenerator (IDB.executionHistory db) + 1)))
        /\ ExecutionRecord.username newRecord = username).
Proof.
  unfold addExecutionRecord, IDB.transaction, IDB.execution_add, IDB.store_add.
  destruct (engine IDB.EXECUTION_STORE); cbn [negb]; [|left; eexists; reflexivity].
  cbn. right. eexists. split; reflexivity.
Qed.

Lemma clearAllData_cases (engine : IDB.Engine) (db : IDB.Database) :
  (exists err, clearAllData engine db = (Rejected err, db))
  \/ clearAllData engine db
     = (Resolved tt,
        IDB.mkDB (IDB.mkStore [] (IDB.keyGenerator (IDB.users db)))
          (IDB.mkStore [] (IDB.keyGenerator (IDB.analysisHistory db)))
          (IDB.mkStore [] (IDB.keyGenerator (IDB.executionHistory db)))).
Proof.
  unfold clearAllData, IDB.transaction, IDB.bind, IDB.users_clear,
    IDB.history_clear, IDB.execution_clear, IDB.store_clear.
  destruct (engine IDB.USER_STORE); cbn; [|left; eexists; reflexivity].
  destruct (engine IDB.HISTORY_STORE); cbn; [|left; eexists; reflexivity].
  destruct (engine IDB.EXECUTION_STORE); cbn; [|left; eexists; reflexivity].
  right. reflexivity.
Qed.

Lemma getAllUsers_cases (engine : IDB.Engine)
    (localeCompare : string -> string -> Z) (db : IDB.Database) :
  (exists err, getAllUsers engine localeCompare db = Rejected err)
  \/ getAllUsers engine localeCompare db
     = Resolved (Array_sort (byName localeCompare) (IDB.records (IDB.users db))).
Proof.
  unfold getAllUsers, IDB.transaction, IDB.users_getAll, IDB.store_getAll.
  destruct (engine IDB.USER_STORE); cbn; [right; reflexivity|left; eexists; reflexivity].
Qed.

Lemma getAllHistory_cases (engine : IDB.Engine) (db : IDB.Database) :
  (exists err, getAllHistory engine db = Rejected err)
  \/ getAllHistory engine db = Resolved (IDB.records (IDB.analysisHistory db)).
Proof.
  unfold getAllHistory, IDB.transaction, IDB.history_getAll, IDB.store_getAll.
  destruct (engine IDB.HISTORY_STORE); cbn; [right; reflexivity|left; eexists; reflexivity].
Qed.

Lemma getAllExecutionHistory_cases (engine : IDB.Engine) (db : IDB.Database) :
  (exists err, getAllExecutionHistory engine db = Rejected err)
  \/ getAllExecutionHistory engine db
     = Resolved (IDB.records (IDB.executionHistory db)).
Proof.
  unfold getAllExecutionHistory, IDB.transaction, IDB.execution_getAll,
    IDB.store_getAll.
  destruct (engine IDB.EXECUTION_STORE); cbn; [right; reflexivity|left; eexists; reflexivity].
Qed.

Section Host.
Variable trim : string -> string.
Variable localeCompare : string -> string -> Z.
Variable message : IDB.DOMException -> string.
Hypothesis localeCompare_sorts : Collation.consistent localeCompare.

Lemma sorted_users (l : list UserProfile.t) :
  StronglySorted (fun a b => byName localeCompare a b <= 0)
    (Array_sort (byName localeCompare) l).
Proof.
  destruct localeCompare_sorts as [Htotal Htrans].
  apply DbClaims.Array_sort_sorted; unfold byName.
  - intros a b. apply Htotal.
  - intros a b c. apply Htrans.
Qed.

Lemma loadInitialData_keeps (engine : IDB.Engine) (db : IDB.Database)
    (st : State) :
  mirrors localeCompare (st, db) ->
  mirrors localeCompare (loadInitialData localeCompare message engine db st, db).
Proof.
  intros (Hu & Hs & Ha & He). unfold loadInitialData.
  destruct (getAllUsers_cases engine localeCompare db) as [[e1 H1]|H1];
    rewrite H1; [repeat split; assumption|].
  destruct (getAllHistory_cases engine db) as [[e2 H2]|H2];
    rewrite H2; [repeat split; assumption|].
  destruct (getAllExecutionHistory_cases engine db) as [[e3 H3]|H3];
    rewrite H3; [repeat split; assumption|].
  destruct (Array_sort (byName localeCompare) (IDB.records (IDB.users db)))
    as [|u l] eqn:Hl; unfold mirrors; cbn; rewrite <- ?Hl;
    (split; [apply DbClaims.Array_sort_perm|]);
    (split; [apply sorted_users|]); split; reflexivity.
Qed.

Lemma loadInitialData_loads (engine : IDB.Engine) (db : IDB.Database)
    (st : State) :
  (forall s, engine s = true) ->
  mirrors localeCompare (loadInitialData localeCompare message engine db st, db).
Proof.
  intros Hengine. unfold loadInitialData, getAllUsers, getAllHistory,
    getAllExecutionHistory, IDB.transaction, IDB.users_getAll,
    IDB.history_getAll, IDB.execution_getAll, IDB.store_getAll.
  rewrite !Hengine. cbn [negb].
  fold (byName localeCompare).
  destruct (Array_sort (byName localeCompare) (IDB.records (IDB.users db)))
    as [|u l] eqn:Hl; unfold mirrors; cbn; rewrite <- ?Hl;
    (split; [apply DbClaims.Array_sort_perm|]);
    (split; [apply sorted_users|]); split; reflexivity.
Qed.

Lemma step_mirrors (s : State * IDB.Database) (e : Event) :
  mirrors localeCompare s ->
  mirrors localeCompare (step trim localeCompare message s e).
Proof.
  destruct s as [st db]. intros H.
  pose proof H as (Hu & Hs & Ha & He).
  cbn [fst snd] in Hu, Hs, Ha, He.
  destruct e; cbn [step fst snd].
  - apply loadInitialData_keeps. exact H.
  - exact H.
  - destruct (existsb _ _); exact H.
  - unfold UserManagement_handleAddUser.
    destruct (String.eqb (trim newUsername) EmptyString); [exact H|].
    unfold handleAddUser.
    destruct (addUser_cases engine now (trim newUsername) db)
      as [[err Hadd]|[newUser [Hadd _]]]; rewrite Hadd; [exact H|].
    unfold mirrors; cbn.
    split; [|split; [apply sorted_users|split; assumption]].
    rewrite DbClaims.Array_sort_perm. apply Permutation_app_tail. exact Hu.
  - unfold handleAnalyze.
    destruct (String.eqb (currentUser st) EmptyString); [exact H|].
    destruct (String.eqb (trim (prompt st)) EmptyString); [exact H|].
    destruct response as [analysisResult|err]; [|exact H].
    cbn [currentUser setResult setExecutionError setExecutionResult setError
           setIsLoading].
    destruct (addAnalysisRecord_cases engine now (currentUser st) analysisResult db)
      as [[err Hadd]|[newRecord [Hadd _]]]; rewrite Hadd; [exact H|].
    unfold mirrors; cbn.
    split; [exact Hu|]. split; [exact Hs|]. split; [|exact He].
    rewrite Ha. reflexivity.
  - unfold handleExecutePrompt.
    destruct (String.eqb (trim promptToExecute) EmptyString); [exact H|].
    destruct response as [resultText|err]; [|exact H].
    cbn [currentUser setExecutionError setExecutionResult setIsExecuting].
    destruct (addExecutionRecord_cases engine now (currentUser st) type
                promptToExecute resultText db)
      as [[err Hadd]|[newRecord [Hadd _]]]; rewrite Hadd; [exact H|].
    unfold mirrors; cbn.
    split; [exact Hu|]. split; [exact Hs|]. split; [exact Ha|].
    rewrite He. apply Permutation_cons_append.
  - exact H.
  - exact H.
  - unfold handleClearReport. destruct confirm; cbn [negb]; [|exact H].
    destruct (clearAllData_cases engine db) as [[err Hc]|Hc]; rewrite Hc;
      [exact H|].
    unfold mirrors; cbn. repeat split; constructor.
  - exact H.
Qed.

Lemma fold_step_mirrors (events : list Event) (s : State * IDB.Database) :
  mirrors localeCompare s ->
  mirrors localeCompare (fold_left (step trim localeCompare message) events s).
Proof.
  revert s. induction events as [|e events IH]; intros s H; [exact H|].
  cbn [fold_left]. apply IH. apply step_mirrors. exact H.
Qed.

(** X13. Once the page has loaded its data, the lists it holds are the
    records of the database, whatever is done on the page afterwards and
    whichever requests fail: the users are the stored users, sorted by name;
    the analyses are the stored analyses in the store's order; the
    executions are the stored executions. *)
Theorem page_lists_mirror_database (engine : IDB.Engine) (db : IDB.Database)
    (events : list Event) (Hengine : forall s, engine s = true) :
  let s := session trim localeCompare message (Mounted engine :: events) db in
  Permutation (users (fst s)) (IDB.records (IDB.users (snd s)))
  /\ StronglySorted
       (fun a b => localeCompare (UserProfile.name a) (UserProfile.name b) <= 0)
       (users (fst s))
  /\ analysisHistory (fst s) = IDB.records (IDB.analysisHistory (snd s))
  /\ Permutation (executionHistory (fst s))
       (IDB.records (IDB.executionHistory (snd s))).
Proof.
  apply (fold_step_mirrors events). apply loadInitialData_loads. exact Hengine.
Qed.

(** X15. The usage report of the page is the report of the database: in
    every window, what [calculateReportData] makes of the lists the page
    holds has the entries of what it makes of the stored records, or both
    calls throw, and the two leave [Object.prototype] in the same state. *)
Theorem usage_report_is_report_of_database (engine : IDB.Engine)
    (db : IDB.Database) (events : list Event)
    (Hengine : forall s, engine s = true) :
  let s := session trim localeCompare message (Mounted engine :: events) db in
  forall (LocalTZA : Z -> bool -> Z) (realm : Report.Realm) (now : Z)
         (period : Report.Period),
    ReportSpec.sameEntries
      (fst (Report.calculateReportData LocalTZA realm now
              (analysisHistory (fst s)) (executionHistory (fst s)) period))
      (fst (Report.calculateReportData LocalTZA realm now
              (IDB.records (IDB.analysisHistory (snd s)))
              (IDB.records (IDB.executionHistory (snd s))) period))
    /\ snd (Report.calculateReportData LocalTZA realm now
              (analysisHistory (fst s)) (executionHistory (fst s)) period)
       = snd (Report.calculateReportData LocalTZA realm now
                (IDB.records (IDB.analysisHistory (snd s)))
                (IDB.records (IDB.executionHistory (snd s))) period).
Proof.
  intros s LocalTZA realm now period.
  assert (H : mirrors localeCompare s).
  { apply (fold_step_mirrors events). apply loadInitialData_loads. exact Hengine. }
  destruct H as (_ & _ & Ha & He).
  rewrite Ha. apply ReportFacts.sameEntries_executions_Permutation. exact He.
Qed.

Lemma step_referential (s : State * IDB.Database) (e : Event) :
  referential (snd s)
  /\ incl (map UserProfile.name (users (fst s))) (names (snd s))
  /\ (currentUser (fst s) = EmptyString
      \/ In (currentUser (fst s)) (names (snd s))) ->
  referential (snd (step trim localeCompare message s e))
  /\ incl (map UserProfile.name (users (fst (step trim localeCompare message s e))))
       (names (snd (step trim localeCompare message s e)))
  /\ (currentUser (fst (step trim localeCompare message s e)) = EmptyString
      \/ In (currentUser (fst (step trim localeCompare message s e)))
           (names (snd (step trim localeCompare message s e)))).
Proof.
  destruct s as [st db]. cbn [fst snd]. intros H.
  pose proof H as ((Hn & Hr & Hx) & Hi & Hc).
  destruct e; cbn [step fst snd].
  - unfold loadInitialData.
    destruct (getAllUsers_cases engine localeCompare db) as [[e1 H1]|H1];
      rewrite H1; [exact H|].
    destruct (getAllHistory_cases engine db) as [[e2 H2]|H2];
      rewrite H2; [exact H|].
    destruct (getAllExecutionHistory_cases engine db) as [[e3 H3]|H3];
      rewrite H3; [exact H|].
    pose proof (DbClaims.Array_sort_perm (byName localeCompare)
                  (IDB.records (IDB.users db))) as Hp.
    destruct (Array_sort (byName localeCompare) (IDB.records (IDB.users db)))
      as [|u l]; cbn.
    + split; [exact (conj Hn (conj Hr Hx))|]. split; [intros x []|exact Hc].
    + split; [exact (conj Hn (conj Hr Hx))|]. unfold names. split.
      * intros x Hin. apply (Permutation_in x (Permutation_map _ Hp)). exact Hin.
      * right. apply (Permutation_in _ (Permutation_map _ Hp)). left. reflexivity.
  - exact H.
  - destruct (existsb _ _) eqn:Hex; [|exact H]. cbn.
    split; [exact (conj Hn (conj Hr Hx))|]. split; [exact Hi|]. right.
    apply existsb_exists in Hex as (x & Hin & Heq).
    apply String.eqb_eq in Heq. subst x. apply Hi. exact Hin.
  - unfold UserManagement_handleAddUser.
    destruct (String.eqb_spec (trim newUsername) EmptyString) as [|Hne];
      [exact H|].
    unfold handleAddUser.
    destruct (addUser_cases engine now (trim newUsername) db)
      as [[err Hadd]|[newUser [Hadd Hname]]]; rewrite Hadd; [exact H|].
    unfold referential, names; cbn. rewrite !map_app. cbn [map].
    split; [split; [|split]|split].
    + apply Forall_app. split; [exact Hn|]. constructor; [|constructor].
      rewrite Hname. exact Hne.
    + eapply List.Forall_impl; [|exact Hr]. cbn. intros r Hin.
      apply in_or_app. left. exact Hin.
    + eapply List.Forall_impl; [|exact Hx]. cbn. intros r [Hin|Hin];
        [left; exact Hin|right; apply in_or_app; left; exact Hin].
    + intros x Hin.
      apply (Permutation_in x
               (Permutation_map _ (DbClaims.Array_sort_perm _ _))) in Hin.
      rewrite map_app in Hin. apply in_app_or in Hin as [Hin|Hin];
        apply in_or_app; [left; apply Hi; exact Hin|right; exact Hin].
    + right. apply in_or_app. right. left. reflexivity.
  - unfold handleAnalyze.
    destruct (String.eqb_spec (currentUser st) EmptyString) as [|Hne];
      [exact H|].
    destruct (String.eqb (trim (prompt st)) EmptyString); [exact H|].
    destruct response as [analysisResult|err]; [|exact H].
    cbn [currentUser setResult setExecutionError setExecutionResult setError
           setIsLoading].
    destruct (addAnalysisRecord_cases engine now (currentUser st) analysisResult db)
      as [[err Hadd]|[newRecord [Hadd Hname]]]; rewrite Hadd; [exact H|].
    unfold referential, names; cbn.
    split; [split; [exact Hn|split; [|exact Hx]]|split; [exact Hi|exact Hc]].
    apply Forall_app. split; [exact Hr|]. constructor; [|constructor].
    rewrite Hname. destruct Hc as [Hc|Hc]; [contradiction|exact Hc].
  - unfold handleExecutePrompt.
    destruct (String.eqb (trim promptToExecute) EmptyString); [exact H|].
    destruct response as [resultText|err]; [|exact H].
    cbn [currentUser setExecutionError setExecutionResult setIsExecuting].
    destruct (addExecutionRecord_cases engine now (currentUser st) type
                promptToExecute resultText db)
      as [[err Hadd]|[newRecord [Hadd Hname]]]; rewrite Hadd; [exact H|].
    unfold referential, names; cbn.
    split; [split; [exact Hn|split; [exact Hr|]]|split; [exact Hi|exact Hc]].
    apply Forall_app. split; [exact Hx|]. constructor; [|constructor].
    rewrite Hname. exact Hc.
  - exact H.
  - exact H.
  - unfold handleClearReport. destruct confirm; cbn [negb]; [|exact H].
    destruct (clearAllData_cases engine db) as [[err Hcl]|Hcl]; rewrite Hcl;
      [exact H|].
    unfold referential, names; cbn.
    split; [repeat split; constructor|]. split; [intros x []|left; reflexivity].
  - exact H.
Qed.

(** X14. Whatever is done on the page, and whichever requests fail, the
    database keeps this shape: every stored user has a name that is not
    empty, every stored analysis is filed under the name of a stored user,
    and every stored execution under the name of a stored user or under the
    empty name (the page lets a prompt be executed with no user selected). *)
Theorem analyses_filed_under_stored_users (db : IDB.Database)
    (events : list Event) (Hdb : referential db) :
  referential (snd (session trim localeCompare message events db)).
Proof.
  unfold session.
  assert (H : referential (snd (initialState, db))
              /\ incl (map UserProfile.name (users (fst (initialState, db))))
                   (names (snd (initialState, db)))
              /\ (currentUser (fst (initialState, db)) = EmptyString
                  \/ In (currentUser (fst (initialState, db)))
                       (names (snd (initialState, db))))).
  { split; [exact Hdb|]. split; [intros x []|left; reflexivity]. }
  revert H. generalize (initialState, db).
  induction events as [|e events IH]; intros s H; [exact (proj1 H)|].
  cbn [fold_left]. apply IH. apply step_referential. exact H.
Qed.

End Host.

Lemma page_lists_mirror_database_witness :
  Collation.consistent Collation.localeCompare
  /\ (forall s, IDB.healthy s = true)
  /\ let s :=
       session (fun x => x) Collation.localeCompare (fun _ => "failed")
         (Mounted IDB.healthy
          :: [ UserSubmitted IDB.healthy 10 "Bob";
               UserSubmitted IDB.healthy 20 "alice";
               PromptChanged "Tell me, in a few words, what a monad is";
               AnalyzeClicked IDB.healthy 30
                 (Resolved (AnalysisResult.mk 12 "What is a monad?" 5 "Shorter."));
               ExecuteClicked IDB.healthy 40 "What is a monad?"
                 ExecutionRecord.optimized (Resolved "A monoid.");
               AnalyzeClicked (fun _ => false) 50
                 (Resolved (AnalysisResult.mk 12 "What is a monad?" 5 "Shorter.")) ])
         IDB.emptyDatabase in
     Permutation (users (fst s)) (IDB.records (IDB.users (snd s)))
     /\ StronglySorted
          (fun a b => Collation.localeCompare (UserProfile.name a)
                        (UserProfile.name b) <= 0)
          (users (fst s))
     /\ analysisHistory (fst s) = IDB.records (IDB.analysisHistory (snd s))
     /\ Permutation (executionHistory (fst s))
          (IDB.records (IDB.executionHistory (snd s))).
Proof.
  assert (Hengine : forall s, IDB.healthy s = true) by reflexivity.
  split; [exact DbClaims.localeCompare_consistent|].
  split; [exact Hengine|].
  exact (page_lists_mirror_database (fun x => x) Collation.localeCompare
           (fun _ => "failed") DbClaims.localeCompare_consistent IDB.healthy
           IDB.emptyDatabase _ Hengine).
Defined.

Lemma usage_report_is_report_of_database_witness :
  Collation.consistent Collation.localeCompare
  /\ (forall s, IDB.healthy s = true)
  /\ let s :=
       session (fun x => x) Collation.localeCompare (fun _ => "failed")
         (Mounted IDB.healthy
          :: [ UserSubmitted IDB.healthy 10 "Bob";
               PromptChanged "Tell me, in a few words, what a monad is";
               AnalyzeClicked IDB.healthy 30
                 (Resolved (AnalysisResult.mk 12 "What is a monad?" 5 "Shorter."));
               ExecuteClicked IDB.healthy 40 "What is a monad?"
                 ExecutionRecord.optimized (Resolved "A monoid.");
               ExecuteClicked IDB.healthy 50
                 "Tell me, in a few words, what a monad is"
                 ExecutionRecord.original (Resolved "A monoid, in a category.") ])
         IDB.emptyDatabase in
     ReportSpec.sameEntries
       (fst (Report.calculateReportData JSDate.easternZone ∅ 100
               (analysisHistory (fst s)) (executionHistory (fst s)) Report.all))
       (fst (Report.calculateReportData JSDate.easternZone ∅ 100
               (IDB.records (IDB.analysisHistory (snd s)))
               (IDB.records (IDB.executionHistory (snd s))) Report.all))
     /\ snd (Report.calculateReportData JSDate.easternZone ∅ 100
               (analysisHistory (fst s)) (executionHistory (fst s)) Report.all)
        = snd (Report.calculateReportData JSDate.easternZone ∅ 100
                 (IDB.records (IDB.analysisHistory (snd s)))
                 (IDB.records (IDB.executionHistory (snd s))) Report.all).
Proof.
  assert (Hengine : forall s, IDB.healthy s = true) by reflexivity.
  split; [exact DbClaims.localeCompare_consistent|].
  split; [exact Hengine|].
  exact (usage_report_is_report_of_database (fun x => x) Collation.localeCompare
           (fun _ => "failed") DbClaims.localeCompare_consistent IDB.healthy
           IDB.emptyDatabase _ Hengine JSDate.easternZone ∅ 100 Report.all).
Defined.

Lemma analyses_filed_under_stored_users_witness :
  referential IDB.emptyDatabase
  /\ referential
       (snd (session (fun x => x) Collation.localeCompare (fun _ => "failed")
               [ Mounted IDB.healthy;
                 UserSubmitted IDB.healthy 10 "Bob";
                 PromptChanged "Tell me, in a few words, what a monad is";
                 AnalyzeClicked IDB.healthy 30
                   (Resolved (AnalysisResult.mk 12 "What is a monad?" 5 "Shorter."));
                 ClearReportClicked true (fun _ => false);
                 UserSelected "alice" ]
               IDB.emptyDatabase)).
Proof.
  assert (Hdb : referential IDB.emptyDatabase) by (repeat split; constructor).
  split; [exact Hdb|].
  exact (analyses_filed_under_stored_users (fun x => x) Collation.localeCompare
           (fun _ => "failed") IDB.emptyDatabase _ Hdb).
Defined.

End AppFacts.
